(** * Tool-calling chat route: a shallow embedding and its properties

    The development follows the three TypeScript modules of the chat
    backend:

    - [lib/serper.ts]        the search gateway ([SerperClient]),
    - [lib/webSearchTool.ts] the search tool adapter ([runWebSearch]),
    - [app/api/chat/route.ts] the two-phase orchestrator ([POST]) and its
      server-sent-event encoder,

    and, around them, the forwarding route that has no tool loop and the
    two versions of the chat panel [LocalChatPanel], the clients of the
    routes: the one that reads the event stream (with its history of
    chats) and the one that reads a JSON answer.

    Modelling conventions.

    - A JavaScript string is a [string]; every [ascii] stands for one code
      unit (the model keeps the code units below 256).  [.length] is
      [String.length], [+] is [++].
    - The values the code reads from JSON are held in records that follow
      the TypeScript interfaces of the source ([ToolCall], [WebSearchArgs],
      [UpstreamMessage]); a field is an [option] wherever the code guards
      the read with [?.], [??], [Array.isArray] or a truthiness test.
    - Numbers are the integer-valued ones, as [Z] (HTTP statuses as [N]).
    - An awaited promise of the environment is a [settled] value.  An
      [async] function is a computation in the monad [M]: it threads the
      list of outbound calls made so far and ends fulfilled or rejected.
    - The environment of a turn is a [World]: what the inference backend
      and the search provider answer to each call, given the calls made
      before it, and what [JSON.parse] makes of the arguments of a tool
      call.  The properties hold for every environment.
    - The state of a panel is a record with one field for each
      [useState]; a handler is a function on it, run from the event to its
      end, given what the environment gives ([crypto.randomUUID], the
      clock, [fetch], [JSON.parse]).  The rendering is not modelled, nor
      are the two effects that keep the state in [localStorage].
    - The timeout of a [SerperClient] is taken to be a delay that
      [AbortSignal.timeout] accepts ([delay_accepted]): a run of [search]
      is the run for such a client.  For another client the signal is
      refused before the request is made.
    - [console.log] lines are not modelled.

    The file has the model first (one module for each source module), then
    the vocabulary of the properties, the scenarios used as examples, the
    lemmas on the runs of the code, the claims C1 to C10, and further
    properties of the code, X1 to X26. *)

From Stdlib Require Import ZArith NArith List String Ascii Bool Lia.
From Stdlib Require Import DecimalString.
Import ListNotations.

Open Scope string_scope.
Open Scope Z_scope.

Set Implicit Arguments.

(* ===================================================================== *)
(** * Strings *)
(* ===================================================================== *)

Module Str.

(** Characters that a Rocq literal cannot hold directly. *)
Definition LF : string := String "010"%char EmptyString.
Definition DQUOTE : string := String "034"%char EmptyString.

(** [!text] on a string: true on the empty string only. *)
Definition is_empty (s : string) : bool :=
  match s with EmptyString => true | String _ _ => false end.

(** [text.slice(0, end)]: a negative [end] counts from the end of the
    string, and the bound is brought back into [0 .. length]. *)
Definition slice0 (text : string) (end_ : Z) : string :=
  let len := Z.of_nat (String.length text) in
  let final := if end_ <? 0 then Z.max (len + end_) 0 else Z.min end_ len in
  substring 0 (Z.to_nat final) text.

(** [xs.slice(0, end)] on an array. *)
Definition list_slice0 {A : Type} (xs : list A) (end_ : Z) : list A :=
  let len := Z.of_nat (List.length xs) in
  let final := if end_ <? 0 then Z.max (len + end_) 0 else Z.min end_ len in
  firstn (Z.to_nat final) xs.

(** Decimal text of a status code, as a template literal prints it. *)
Definition of_N (n : N) : string := NilEmpty.string_of_uint (N.to_uint n).

(** [s.replace(/\/$/, "")]: drops one trailing slash. *)
Fixpoint drop_trailing_slash (s : string) : string :=
  match s with
  | EmptyString => EmptyString
  | String c rest =>
      match rest with
      | EmptyString => if Ascii.eqb c "/"%char then EmptyString else s
      | String _ _ => String c (drop_trailing_slash rest)
      end
  end.

(** Joins the lines of a template literal. *)
Definition lines (ls : list string) : string := String.concat LF ls.

(** The source file is UTF-8.  [of_utf8] turns the two-byte sequences of
    a literal (first byte 0xC2 or 0xC3) into the one code unit they
    denote, so that accented letters count as one unit each. *)
Fixpoint of_utf8 (s : string) : string :=
  match s with
  | EmptyString => EmptyString
  | String c rest =>
      match rest with
      | String d rest' =>
          let n := N_of_ascii c in
          let m := N_of_ascii d in
          if ((n =? 194) || (n =? 195))%N && (128 <=? m)%N && (m <? 192)%N
          then String (ascii_of_N ((n - 192) * 64 + (m - 128))) (of_utf8 rest')
          else String c (of_utf8 rest)
      | EmptyString => s
      end
  end.

End Str.

(* ===================================================================== *)
(** * JSON text produced by the code *)
(* ===================================================================== *)

Module Json.

(** The values the code hands to [JSON.stringify] for the wire: strings,
    arrays and objects built from literals. *)
#[local] Unset Elimination Schemes.
Inductive json : Type :=
| JStr (s : string)
| JArr (items : list json)
| JObj (members : list (string * json)).
#[local] Set Elimination Schemes.

Definition hex_digit (n : N) : ascii :=
  ascii_of_N (if (n <? 10)%N then 48 + n else 87 + n).

(** One code unit inside a JSON string literal (QuoteJSONString). *)
Definition quote_char (c : ascii) : string :=
  let n := N_of_ascii c in
  if (n =? 8)%N then "\b"
  else if (n =? 9)%N then "\t"
  else if (n =? 10)%N then "\n"
  else if (n =? 12)%N then "\f"
  else if (n =? 13)%N then "\r"
  else if (n =? 34)%N then String "\"%char Str.DQUOTE
  else if (n =? 92)%N then "\\"
  else if (n <? 32)%N then
    "\u00" ++ String (hex_digit (n / 16)) (String (hex_digit (n mod 16)) EmptyString)
  else String c EmptyString.

Fixpoint quote_body (s : string) : string :=
  match s with
  | EmptyString => EmptyString
  | String c rest => quote_char c ++ quote_body rest
  end.

Definition quote (s : string) : string :=
  Str.DQUOTE ++ quote_body s ++ Str.DQUOTE.

(** [JSON.stringify(value)] without indentation. *)
Fixpoint stringify (j : json) : string :=
  match j with
  | JStr s => quote s
  | JArr items =>
      "[" ++ String.concat "," (List.map stringify items) ++ "]"
  | JObj members =>
      "{" ++ String.concat ","
               (List.map (fun kv => quote (fst kv) ++ ":" ++ stringify (snd kv)) members)
          ++ "}"
  end.

(** The reading of a JSON string literal, after its opening quote: the
    text up to the closing quote, with the escapes undone, and what follows
    the literal.  It is how a client reads the [content] of a data frame.
    (An escape for a code unit from 256 on has no counterpart in this model
    of strings, and the reading stops there.) *)
Definition hex_value (c : ascii) : option N :=
  let n := N_of_ascii c in
  if (48 <=? n)%N && (n <=? 57)%N then Some (n - 48)%N
  else if (97 <=? n)%N && (n <=? 102)%N then Some (n - 87)%N
  else if (65 <=? n)%N && (n <=? 70)%N then Some (n - 55)%N
  else None.

Definition unescape (c : ascii) : option ascii :=
  let n := N_of_ascii c in
  if (n =? 98)%N then Some (ascii_of_N 8)
  else if (n =? 116)%N then Some (ascii_of_N 9)
  else if (n =? 110)%N then Some (ascii_of_N 10)
  else if (n =? 102)%N then Some (ascii_of_N 12)
  else if (n =? 114)%N then Some (ascii_of_N 13)
  else if (n =? 34)%N || (n =? 92)%N || (n =? 47)%N then Some c
  else None.

Definition prepend (c : ascii) (r : option (string * string)) : option (string * string) :=
  match r with
  | Some (s, rest) => Some (String c s, rest)
  | None => None
  end.

Fixpoint unquote_body (s : string) : option (string * string) :=
  match s with
  | EmptyString => None
  | String c rest =>
      let n := N_of_ascii c in
      if (n =? 34)%N then Some (EmptyString, rest)
      else if (n =? 92)%N then
        match rest with
        | String e rest1 =>
            match unescape e with
            | Some c' => prepend c' (unquote_body rest1)
            | None =>
                match rest1 with
                | String h1 (String h2 (String h3 (String h4 rest2))) =>
                    match hex_value h1, hex_value h2, hex_value h3, hex_value h4 with
                    | Some a, Some b, Some c3, Some d =>
                        let unit := (((a * 16 + b) * 16 + c3) * 16 + d)%N in
                        if Ascii.eqb e "u" && (unit <? 256)%N
                        then prepend (ascii_of_N unit) (unquote_body rest2)
                        else None
                    | _, _, _, _ => None
                    end
                | _ => None
                end
            end
        | EmptyString => None
        end
      else if (n <? 32)%N then None
      else prepend c (unquote_body rest)
  end.

End Json.

(* ===================================================================== *)
(** * Promises, errors and the monad of async functions *)
(* ===================================================================== *)

(** What a [throw] or a rejected promise carries.  [Rejection] stands for
    the failures raised by the platform itself: a network failure or an
    elapsed [AbortSignal.timeout] in [fetch], a body that is not JSON in
    [res.json()]. *)
Inductive js_error : Type :=
| Error (message : string)
| TypeError (message : string)
| Rejection (reason : string).

(** A promise once awaited. *)
Inductive settled (A : Type) : Type :=
| Fulfilled (value : A)
| Rejected (reason : js_error).

Arguments Fulfilled {A} value.
Arguments Rejected {A} reason.

(** [p.catch(() => fallback)] followed by [await]. *)
Definition catch_with {A : Type} (p : settled A) (fallback : A) : A :=
  match p with
  | Fulfilled v => v
  | Rejected _ => fallback
  end.

(** [a ?? b] on a value that may be null or undefined. *)
Definition nullish {A : Type} (a : option A) (b : A) : A :=
  match a with
  | Some v => v
  | None => b
  end.

Notation "a ?? b" := (nullish a b) (at level 45, left associativity).

(** [a?.f] where the read itself may be undefined. *)
Definition opt_chain {A B : Type} (a : option A) (f : A -> option B) : option B :=
  match a with
  | Some v => f v
  | None => None
  end.

Module Async.

Section Monad.

Variable S : Type.

(** An async computation: from the state before to its settled result and
    the state after.  The state survives a rejection, as effects do. *)
Definition M (A : Type) : Type := S -> settled A * S.

Definition ret {A : Type} (a : A) : M A := fun s => (Fulfilled a, s).

Definition throw {A : Type} (e : js_error) : M A := fun s => (Rejected e, s).

Definition bind {A B : Type} (m : M A) (k : A -> M B) : M B :=
  fun s =>
    match m s with
    | (Fulfilled a, s') => k a s'
    | (Rejected e, s') => (Rejected e, s')
    end.

(** [await p] for a promise that has settled. *)
Definition await {A : Type} (p : settled A) : M A :=
  match p with
  | Fulfilled v => ret v
  | Rejected e => throw e
  end.

(** [try { body } catch (error) { handler }]. *)
Definition try_catch {A : Type} (body : M A) (handler : js_error -> M A) : M A :=
  fun s =>
    match body s with
    | (Fulfilled a, s') => (Fulfilled a, s')
    | (Rejected e, s') => handler e s'
    end.

End Monad.

End Async.

Import Async.

Declare Scope async_scope.
Delimit Scope async_scope with async.

Notation "x <- m ;; k" := (bind m (fun x => k))
  (at level 100, m at next level, right associativity) : async_scope.

Open Scope async_scope.

(* ===================================================================== *)
(** * Data of the chat route *)
(* ===================================================================== *)

(** [type UpstreamContentPart]: a text part, an image reference, or any
    other record, carried through untouched. *)
Inductive UpstreamContentPart : Type :=
| TextPart (text : string)
| ImageUrlPart (url : string)
| OtherPart (source : string).

Inductive Role : Type := system | user | assistant.

Inductive Content : Type :=
| Text (s : string)
| Parts (parts : list UpstreamContentPart).

(** [interface UpstreamMessage]. *)
Record UpstreamMessage : Type := mkUpstreamMessage {
  role : Role;
  content : Content
}.

(** [interface ToolCall], with the fields optional that the loop guards. *)
Record ToolFunction : Type := mkToolFunction {
  fn_name : string;
  fn_arguments : option string
}.

Record ToolCall : Type := mkToolCall {
  tc_id : string;
  tc_type : string;
  tc_function : option ToolFunction
}.

(** [interface WebSearchArgs]: [query] may be missing from a decoded
    payload, [max_results] is optional. *)
Record WebSearchArgs : Type := mkWebSearchArgs {
  query : option string;
  max_results : option Z
}.

(** [JSON.parse(rawArgs) as WebSearchArgs].  The text is not JSON and the
    call throws; or it is the JSON text [null]; or it is any other value,
    read through the interface (a value that is not an object has neither
    field). *)
Inductive parse_outcome : Type :=
| ParseThrows
| ParsedNull
| ParsedValue (args : WebSearchArgs).

(** [const WEB_SEARCH_TOOL]: the one entry of the tool catalog. *)
Record IntegerSchema : Type := mkIntegerSchema {
  minimum : Z;
  maximum : Z;
  default : Z
}.

Record ToolDefinition : Type := mkToolDefinition {
  tool_type : string;
  tool_name : string;
  tool_description : string;
  param_query_type : string;
  param_max_results : IntegerSchema;
  params_required : list string
}.

Definition WEB_SEARCH_TOOL : ToolDefinition := {|
  tool_type := "function";
  tool_name := "web_search";
  tool_description := "Buscar rapidamente na web e retornar trechos curtos.";
  param_query_type := "string";
  param_max_results := {| minimum := 1; maximum := 5; default := 3 |};
  params_required := ["query"]
|}.

(** The object pushed on [toolMessages] for an executed tool call. *)
Record ToolMessage : Type := mkToolMessage {
  tm_role : string;
  tm_tool_call_id : string;
  tm_name : string;
  tm_content : string
}.

(** An entry of the [messages] array of an upstream payload. *)
Inductive PayloadMessage : Type :=
| Plain (m : UpstreamMessage)
| ToolResult (t : ToolMessage).

(** The object handed to [callLocalChat]; [tools] and [stream] are present
    in the first payload only. *)
Record ChatPayload : Type := mkChatPayload {
  p_model : string;
  p_messages : list PayloadMessage;
  p_tools : option (list ToolDefinition);
  p_tool_choice : string;
  p_stream : option bool
}.

(** The completion object read back from the inference backend, as far as
    the route reads it: [choices?.[0]?.message], then [content] and
    [tool_calls] ([None] when it is absent or not an array; an entry of the
    array may be null). *)
Record AssistantMessage : Type := mkAssistantMessage {
  am_content : option string;
  am_tool_calls : option (list (option ToolCall))
}.

Record Choice : Type := mkChoice {
  ch_message : option AssistantMessage
}.

Record ChatCompletion : Type := mkChatCompletion {
  choices : option (list Choice)
}.

(** An item of the provider's [organic] list, and equally an item as the
    gateway hands it on: every field may be missing. *)
Record SearchItem : Type := mkSearchItem {
  it_title : option string;
  it_link : option string;
  it_url : option string;
  it_snippet : option string;
  it_description : option string
}.

Record SerperData : Type := mkSerperData {
  organic : option (list SearchItem)
}.

(** The [Response] of a [fetch], with its body as [res.text()] and
    [res.json()] would yield it. *)
Record FetchResponse (B : Type) : Type := mkFetchResponse {
  res_ok : bool;
  res_status : N;
  res_statusText : string;
  res_text : settled string;
  res_json : settled B
}.

(** The [fetch] of [SerperClient.search]. *)
Record SerperRequest : Type := mkSerperRequest {
  sr_url : string;
  sr_api_key : string;
  sr_q : string;
  sr_num : Z;
  sr_timeout_ms : Z
}.

(** An outbound call of a turn. *)
Inductive call : Type :=
| ChatCall (payload : ChatPayload)
| SearchCall (request : SerperRequest).

Definition trace : Type := list call.

(** The environment of a turn: the runtime's [JSON.parse] on tool-call
    arguments, and what the two remote services answer to a call, given the
    calls made before it.  A [null] body is [None]. *)
Record World : Type := mkWorld {
  JSON_parse : string -> parse_outcome;
  chat_backend : trace -> ChatPayload -> settled (FetchResponse (option ChatCompletion));
  serper_api : trace -> SerperRequest -> settled (FetchResponse (option SerperData))
}.

(** The outbound calls, as steps of the monad ([await fetch(...)]): the
    call is recorded and the environment answers it from the calls made
    before; a rejected [fetch] rejects the step. *)
Definition fetch_chat (w : World) (payload : ChatPayload)
  : M trace (FetchResponse (option ChatCompletion)) :=
  fun t => (chat_backend w t payload, (t ++ [ChatCall payload])%list).

Definition fetch_serper (w : World) (request : SerperRequest)
  : M trace (FetchResponse (option SerperData)) :=
  fun t => (serper_api w t request, (t ++ [SearchCall request])%list).

(* ===================================================================== *)
(** * lib/serper.ts: the search gateway *)
(* ===================================================================== *)

Module Serper.

(** The settings read from [process.env]; a numeric setting is held as the
    number its text denotes. *)
Record ProcessEnv : Type := mkProcessEnv {
  SERPER_API_KEY : option string;
  SERPER_BASE_URL : option string;
  SEARCH_TIMEOUT : option Z;
  SEARCH_MAX_RESULTS_env : option Z;
  SEARCH_MAX_CHARS_env : option Z
}.

Record SerperClient : Type := mkSerperClient {
  apiKey : string;
  baseUrl : string;
  timeout : Z
}.

(** [constructor()]: fails when the key or the address is not set. *)
Definition new_SerperClient (env : ProcessEnv) : settled SerperClient :=
  let apiKey := SERPER_API_KEY env ?? "" in
  let baseUrl := Str.drop_trailing_slash (SERPER_BASE_URL env ?? "") in
  let timeout := SEARCH_TIMEOUT env ?? 20 in
  if Str.is_empty apiKey
  then Rejected (Error (Str.of_utf8 "SERPER_API_KEY não configurado."))
  else if Str.is_empty baseUrl
  then Rejected (Error (Str.of_utf8 "SERPER_BASE_URL não configurado."))
  else Fulfilled {| apiKey := apiKey; baseUrl := baseUrl; timeout := timeout |}.

(** The object built for each item of the provider's list. *)
Definition normalize (item : SearchItem) : SearchItem := {|
  it_title := Some (it_title item ?? "");
  it_link := None;
  it_url := Some (match it_link item with Some l => l | None => it_url item ?? "" end);
  it_snippet :=
    Some (match it_snippet item with Some s => s | None => it_description item ?? "" end);
  it_description := None
|}.

(** [async search(query, maxResults)]: the request of its [fetch], then the
    method.  The request holds [AbortSignal.timeout(this.timeout * 1000)],
    which the platform builds for a delay that is a whole number from 0 to
    4294967295 and refuses with a RangeError, before any request, for
    another.  [search] is the method for a client whose delay is accepted;
    the constructor does not check it. *)
Definition search_request (this : SerperClient) (query : string) (maxResults : Z)
  : SerperRequest := {|
  sr_url := baseUrl this ++ "/search";
  sr_api_key := apiKey this;
  sr_q := query;
  sr_num := maxResults;
  sr_timeout_ms := timeout this * 1000
|}.

Definition search (w : World) (this : SerperClient) (query : string) (maxResults : Z)
  : M trace (list SearchItem) :=
  res <- fetch_serper w (search_request this query maxResults) ;;
  if negb (res_ok res)
  then throw (Error ("Serper error: " ++ Str.of_N (res_status res) ++ " "
                       ++ res_statusText res))
  else
    parsed <- await (res_json res) ;;
    match parsed with
    | None => throw (TypeError "Cannot read properties of null (reading 'organic')")
    | Some data =>
        ret (List.map normalize (Str.list_slice0 (organic data ?? []) maxResults))
    end.

End Serper.

(* ===================================================================== *)
(** * lib/webSearchTool.ts: the search tool adapter *)
(* ===================================================================== *)

Module WebSearchTool.

Import Serper.

Definition SEARCH_MAX_RESULTS (env : ProcessEnv) : Z := SEARCH_MAX_RESULTS_env env ?? 3.
Definition SEARCH_MAX_CHARS (env : ProcessEnv) : Z := SEARCH_MAX_CHARS_env env ?? 600.
Definition SERPER_MAX_RESULTS : Z := 5.

(** [function truncate(text, max)].  No function of the module calls it. *)
Definition truncate (text : string) (max : Z) : string :=
  if Str.is_empty text then ""
  else if Z.of_nat (String.length text) >? max
       then Str.slice0 text max ++ "..."
       else text.

Record SearchResult : Type := mkSearchResult {
  title : string;
  url : string;
  snippet : string
}.

Record WebSearchResult : Type := mkWebSearchResult {
  r_query : string;
  r_results : list SearchResult
}.

(** The callback of [results.map]. *)
Definition enrich (r : SearchItem) : SearchResult := {|
  title := it_title r ?? "";
  url := match it_link r with Some l => l | None => it_url r ?? "" end;
  snippet := match it_snippet r with Some s => s | None => it_description r ?? "" end
|}.

Definition limit_of (maxResults : Z) : Z :=
  Z.min (Z.max maxResults 1) SERPER_MAX_RESULTS.

(** [async function runWebSearch(query, maxResults)]. *)
Definition runWebSearch (w : World) (client : SerperClient) (query : string) (maxResults : Z)
  : M trace WebSearchResult :=
  let limit := limit_of maxResults in
  results <- search w client query limit ;;
  let enriched := List.map enrich results in
  ret {| r_query := query; r_results := enriched |}.

(** The value of [result] as [JSON.stringify] sees it. *)
Definition to_json (result : WebSearchResult) : Json.json :=
  Json.JObj
    [ ("query", Json.JStr (r_query result));
      ("results",
        Json.JArr
          (List.map
             (fun r => Json.JObj [ ("title", Json.JStr (title r));
                                   ("url", Json.JStr (url r));
                                   ("snippet", Json.JStr (snippet r)) ])
             (r_results result))) ].

End WebSearchTool.

(* ===================================================================== *)
(** * app/api/chat/route.ts: the orchestrator *)
(* ===================================================================== *)

Module Route.

Import Serper WebSearchTool.

Definition SYSTEM_PROMPT : string :=
  Str.of_utf8 (Str.lines [
    "Você é um assistente extremamente direto, objetivo e factual.";
    "";
    "Você tem acesso a ferramentas (functions).  ";
    "Quando a pergunta do usuário envolver fatos reais, tempo, clima, localização, datas, eventos atualizados, estatísticas ou qualquer dado que possa mudar ao longo do tempo, você DEVE usar a ferramenta apropriada antes de responder.";
    "";
    "Ferramenta disponível:";
    "- web_search(query, max_results): busca na web e retorna dados recentes.";
    "";
    "Regras obrigatórias (siga SEMPRE):";
    "1. Se a pergunta envolver clima, previsão do tempo, resultados atuais, notícias, valores numéricos, estatísticas, datas, horários, preços, situações específicas, você DEVE usar web_search.";
    "2. Quando decidir usar a ferramenta, retorne SOMENTE o tool_call no formato pedido. Não escreva mais nada.";
    "3. Após receber a resposta da ferramenta (role=tool), elabore a resposta final de forma breve, clara e objetiva.";
    "4. Nunca invente fatos. Nunca estimule, chute ou responda com suposições.  ";
    "   Se você não sabe, ou não tem certeza, use web_search.";
    "5. Se o usuário apenas pedir opinião, análise ou algo interno ao modelo, responda diretamente.";
    "6. Mantenha respostas 100% curtas, diretas e sem divagações.";
    "7. Se utilizou a ferramenta, disponibilize as URLs quando disponíveis.";
    "8. Quando mostrar código, use sempre blocos Markdown com crase tripla (```) indicando a linguagem (por exemplo, ```ts```, ```js```, ```bash```) e mantenha os trechos o mais curtos possível.";
    "" ]).

Definition SECOND_SYSTEM_PROMPT : string :=
  Str.of_utf8 (Str.lines [
    "Você já recebeu os resultados de uma ferramenta de busca (web_search).";
    "";
    "Use SOMENTE essas informações, mais o seu conhecimento próprio, para responder ao usuário.";
    "";
    "Regras obrigatórias:";
    "1. NÃO chame nem sugira novas ferramentas.";
    "2. NÃO retorne tool_call, JSON ou código. Responda em linguagem natural.";
    "3. Seja breve, direto e factual.";
    "4. Resuma os principais dados e, quando possível, inclua as URLs usadas.";
    "5. Se precisar mencionar comandos ou pequenos trechos de código, use blocos Markdown com crase tripla (```) e indique a linguagem (por exemplo, ```ts```, ```js```, ```bash```)." ]).

Definition SYSTEM_MESSAGE : UpstreamMessage :=
  {| role := system; content := Text SYSTEM_PROMPT |}.

Definition SECOND_SYSTEM_MESSAGE : UpstreamMessage :=
  {| role := system; content := Text SECOND_SYSTEM_PROMPT |}.

Definition DEFAULT_MODEL : string := "Ministral-3-8B-Reasoning-2512".

(** [async function callLocalChat(payload)]. *)
Definition callLocalChat (w : World) (payload : ChatPayload)
  : M trace (option ChatCompletion) :=
  res <- fetch_chat w payload ;;
  if negb (res_ok res)
  then
    let text := catch_with (res_text res) "" in
    throw (Error (if Str.is_empty text
                  then "Upstream chat backend error (" ++ Str.of_N (res_status res)
                         ++ " " ++ res_statusText res ++ ")"
                  else text))
  else ret (catch_with (res_json res) None).

(** The body of the inbound request, as [request.json()] yields it. *)
Record RequestBody : Type := mkRequestBody {
  rb_messages : option (list UpstreamMessage);
  rb_model : option string
}.

(** ** The tool loop *)

(** [name === "web_search"] where [name] may be undefined. *)
Definition is_web_search (name : option string) : bool :=
  match name with
  | Some n => String.eqb n "web_search"
  | None => false
  end.

(** One round of [for (const toolCall of toolCalls)]: the messages pushed
    so far go in, and come out with at most one more. *)
Definition tool_call_step (w : World) (client : SerperClient)
    (toolCall : option ToolCall) (toolMessages : list ToolMessage)
  : M trace (list ToolMessage) :=
  match toolCall with
  | None => ret toolMessages
  | Some tc =>
      if negb (String.eqb (tc_type tc) "function") then ret toolMessages
      else
        let name := option_map fn_name (tc_function tc) in
        let rawArgs := opt_chain (tc_function tc) fn_arguments ?? "{}" in
        let parsedArgs : option WebSearchArgs :=
          match JSON_parse w rawArgs with
          | ParseThrows => Some {| query := Some ""; max_results := None |}
          | ParsedNull => None
          | ParsedValue args => Some args
          end in
        if is_web_search name then
          match parsedArgs with
          | None => throw (TypeError "Cannot read properties of null (reading 'query')")
          | Some args =>
              match query args with
              | None => ret toolMessages
              | Some q =>
                  if Str.is_empty q then ret toolMessages
                  else
                    let maxResults := max_results args ?? 3 in
                    result <- runWebSearch w client q maxResults ;;
                    ret (toolMessages ++
                           [ {| tm_role := "tool";
                                tm_tool_call_id := tc_id tc;
                                tm_name := name ?? "";
                                tm_content := Json.stringify (to_json result) |} ])%list
              end
          end
        else ret toolMessages
  end.

Fixpoint run_tool_calls (w : World) (client : SerperClient)
    (toolCalls : list (option ToolCall)) (toolMessages : list ToolMessage)
  : M trace (list ToolMessage) :=
  match toolCalls with
  | [] => ret toolMessages
  | toolCall :: rest =>
      pushed <- tool_call_step w client toolCall toolMessages ;;
      run_tool_calls w client rest pushed
  end.

(** ** The event stream *)

(** [new TextEncoder().encode(data)]: UTF-8, two bytes for a code unit
    from 128 on. *)
Definition encode_unit (c : ascii) : list Byte.byte :=
  let n := N_of_ascii c in
  if (n <? 128)%N then [byte_of_ascii c]
  else [ byte_of_ascii (ascii_of_N (192 + n / 64));
         byte_of_ascii (ascii_of_N (128 + n mod 64)) ].

Fixpoint encode (data : string) : list Byte.byte :=
  match data with
  | EmptyString => []
  | String c rest => (encode_unit c ++ encode rest)%list
  end.

(** The controller of a [ReadableStream]: the chunks queued so far, and
    whether the stream has been closed. *)
Record Controller : Type := mkController {
  queue : list (list Byte.byte);
  closed : bool
}.

Definition controller_enqueue (chunk : list Byte.byte) : M Controller unit :=
  fun c =>
    if closed c
    then (Rejected (TypeError "Invalid state: Controller is already closed"), c)
    else (Fulfilled tt, {| queue := (queue c ++ [chunk])%list; closed := false |}).

Definition controller_close : M Controller unit :=
  fun c =>
    if closed c
    then (Rejected (TypeError "Invalid state: Controller is already closed"), c)
    else (Fulfilled tt, {| queue := queue c; closed := true |}).

(** [new ReadableStream({ start })]: [start] runs at once on a fresh
    controller; the stream is what it leaves behind. *)
Definition new_ReadableStream (start : M Controller unit) : settled Controller :=
  match start {| queue := []; closed := false |} with
  | (Fulfilled _, c) => Fulfilled c
  | (Rejected e, _) => Rejected e
  end.

Definition DONE_FRAME : string := "data: [DONE]" ++ Str.LF ++ Str.LF.

(** The object of the one data frame. *)
Definition chunk_json (finalContent : string) : Json.json :=
  Json.JObj
    [ ("choices",
        Json.JArr
          [ Json.JObj
              [ ("delta", Json.JObj [ ("content", Json.JStr finalContent) ]) ] ]) ].

Definition data_frame (finalContent : string) : string :=
  "data: " ++ Json.stringify (chunk_json finalContent) ++ Str.LF ++ Str.LF.

(** The [start(controller)] method of the stream. *)
Definition start (finalContent : string) : M Controller unit :=
  let enqueue := fun data : string => controller_enqueue (encode data) in
  _ <- (if Str.is_empty finalContent then ret tt
        else enqueue (data_frame finalContent)) ;;
  _ <- enqueue DONE_FRAME ;;
  controller_close.

Inductive ResponseBody : Type :=
| StreamBody (stream : Controller)
| TextBody (text : string).

Record HttpResponse : Type := mkHttpResponse {
  status : N;
  headers : list (string * string);
  body : ResponseBody
}.

Definition stream_response (stream : Controller) : HttpResponse := {|
  status := 200;
  headers := [ ("Content-Type", "text/event-stream; charset=utf-8");
               ("Cache-Control", "no-cache");
               ("Connection", "keep-alive") ];
  body := StreamBody stream
|}.

(** The response of the [catch] branch. *)
Definition error_response : HttpResponse := {|
  status := 500;
  headers := [ ("Content-Type", "application/json") ];
  body := TextBody
            (Json.stringify
               (Json.JObj [ ("error", Json.JStr "Failed to call local chat backend") ]))
|}.

(** ** The handler *)

Definition firstPayload (model : string) (messages : list UpstreamMessage) : ChatPayload := {|
  p_model := model;
  p_messages := List.map Plain (SYSTEM_MESSAGE :: messages);
  p_tools := Some [WEB_SEARCH_TOOL];
  p_tool_choice := "auto";
  p_stream := Some false
|}.

Definition secondPayload (model : string) (messages : list UpstreamMessage)
    (toolMessages : list ToolMessage) : ChatPayload := {|
  p_model := model;
  p_messages :=
    (Plain SECOND_SYSTEM_MESSAGE :: List.map Plain messages
       ++ List.map ToolResult toolMessages)%list;
  p_tools := None;
  p_tool_choice := "none";
  p_stream := None
|}.

(** [response?.choices?.[0]?.message ?? {}]. *)
Definition message_of (response : option ChatCompletion) : AssistantMessage :=
  let choice := opt_chain (opt_chain response choices) (fun cs => nth_error cs 0) in
  opt_chain choice ch_message ?? {| am_content := None; am_tool_calls := None |}.

(** The part of [POST] inside [try]: up to [finalContent]. *)
Definition final_content (w : World) (client : SerperClient)
    (model : string) (messages : list UpstreamMessage) : M trace string :=
  firstResponse <- callLocalChat w (firstPayload model messages) ;;
  let firstMessage := message_of firstResponse in
  let toolCalls : list (option ToolCall) := am_tool_calls firstMessage ?? [] in
  match toolCalls with
  | [] => ret (am_content firstMessage ?? "")
  | _ :: _ =>
      toolMessages <- run_tool_calls w client toolCalls [] ;;
      secondResponse <- callLocalChat w (secondPayload model messages toolMessages) ;;
      let secondMessage := message_of secondResponse in
      ret (am_content secondMessage ?? "")
  end.

(** [export async function POST(request)]; [request_json] is the promise
    of [request.json()]. *)
Definition POST (w : World) (client : SerperClient)
    (request_json : settled (option RequestBody)) : M trace HttpResponse :=
  try_catch
    (let body := catch_with request_json None in
     let messages := opt_chain body rb_messages ?? [] in
     let model := opt_chain body rb_model ?? DEFAULT_MODEL in
     finalContent <- final_content w client model messages ;;
     stream <- await (new_ReadableStream (start finalContent)) ;;
     ret (stream_response stream))
    (fun error => ret error_response).

End Route.

(* ===================================================================== *)
(** * The chat panel: the client of the route *)
(* ===================================================================== *)

(** [LocalChatPanel], the component that posts a conversation to the route
    and reads the event stream it answers with.  The state of the
    component is a record; a handler is a function from the state before
    to the state after, given what the environment answers. *)
Module Panel.

Import Route.

Inductive ChatRole : Type := ChatUser | ChatAssistant.

(** [type ChatMessage]. *)
Record ChatMessage : Type := mkChatMessage {
  cm_id : string;
  cm_role : ChatRole;
  cm_content : string;
  cm_imageDataUrl : option string
}.

(** [type ChatTranscript]. *)
Record ChatTranscript : Type := mkChatTranscript {
  ct_id : string;
  ct_createdAt : string;
  ct_messages : list ChatMessage
}.

(** The state of the component, one field for each [useState]. *)
Record PanelState : Type := mkPanelState {
  messages : list ChatMessage;
  input : string;
  isSending : bool;
  error : option string;
  pendingImage : option string;
  history : list ChatTranscript;
  isFlashing : bool
}.

(** ** The body of the request *)

Definition upstream_role (r : ChatRole) : Role :=
  match r with
  | ChatUser => user
  | ChatAssistant => assistant
  end.

(** A value that is a string, null or undefined, taken as a condition. *)
Definition truthy (s : option string) : bool :=
  match s with
  | Some v => negb (Str.is_empty v)
  | None => false
  end.

(** The callback of [messages.concat(userMessage).map]. *)
Definition to_upstream (m : ChatMessage) : UpstreamMessage :=
  match cm_role m with
  | ChatUser =>
      if truthy (cm_imageDataUrl m) then
        let parts :=
          (if Str.is_empty (cm_content m) then [] else [TextPart (cm_content m)])
            ++ [ImageUrlPart (cm_imageDataUrl m ?? "")] in
        {| role := user; content := Parts parts |}
      else {| role := upstream_role (cm_role m); content := Text (cm_content m) |}
  | ChatAssistant => {| role := upstream_role (cm_role m); content := Text (cm_content m) |}
  end%list.

(** The object handed to [JSON.stringify] for the body of the request. *)
Definition request_body (messages : list ChatMessage) (userMessage : ChatMessage)
  : RequestBody := {|
  rb_messages := Some (List.map to_upstream (messages ++ [userMessage])%list);
  rb_model := Some "Ministral-3-8B-Reasoning-2512"
|}.

(** ** String methods of the reading loop *)

(** White space and line ends, as [trim] sees them, among the code units
    below 256. *)
Definition is_space (c : ascii) : bool :=
  let n := N_of_ascii c in
  ((9 <=? n) && (n <=? 13) || (n =? 32) || (n =? 160))%N.

(** [s.trimStart()], [s.trimEnd()] and [s.trim()]. *)
Fixpoint trim_start (s : string) : string :=
  match s with
  | EmptyString => EmptyString
  | String c rest => if is_space c then trim_start rest else s
  end.

Fixpoint trim_end (s : string) : string :=
  match s with
  | EmptyString => EmptyString
  | String c rest =>
      match trim_end rest with
      | EmptyString => if is_space c then EmptyString else String c EmptyString
      | String d kept => String c (String d kept)
      end
  end.

Definition trim (s : string) : string := trim_end (trim_start s).

(** [s.slice(start)] for a start that is not negative. *)
Fixpoint slice_from (s : string) (start : nat) : string :=
  match start, s with
  | O, _ => s
  | S _, EmptyString => EmptyString
  | S start', String _ rest => slice_from rest start'
  end.

(** [s.split("\n")], with [line] the part of the current line read so
    far: a string without a line feed is one line, and a string that ends
    with a line feed has the empty line last. *)
Fixpoint split_from (line s : string) : list string :=
  match s with
  | EmptyString => [line]
  | String c rest =>
      if Ascii.eqb c "010"%char then line :: split_from EmptyString rest
      else split_from (line ++ String c EmptyString) rest
  end.

Definition split_lines (s : string) : list string := split_from EmptyString s.

(** ** The decoder *)

(** [new TextDecoder("utf-8")] and [decoder.decode(value, { stream: true })]:
    the state of the decoder is the first byte of a two-byte sequence that
    the chunk before left open.  The model has the code units below 256;
    bytes that denote another code point, or that are no UTF-8 (the
    decoder puts U+FFFD for them), have no text in the model and the
    result is [None]. *)
Definition decode_byte (pending : option N) (b : Byte.byte)
  : option (string * option N) :=
  let n := Byte.to_N b in
  match pending with
  | None =>
      if (n <? 128)%N then Some (String (ascii_of_byte b) EmptyString, None)
      else if ((n =? 194) || (n =? 195))%N then Some (EmptyString, Some n)
      else None
  | Some lead =>
      if ((128 <=? n) && (n <? 192))%N
      then Some (String (ascii_of_N ((lead - 192) * 64 + (n - 128))) EmptyString, None)
      else None
  end.

Fixpoint decode (pending : option N) (value : list Byte.byte)
  : option (string * option N) :=
  match value with
  | [] => Some (EmptyString, pending)
  | b :: rest =>
      match decode_byte pending b with
      | None => None
      | Some (text, pending') =>
          match decode pending' rest with
          | None => None
          | Some (more, pending'') => Some (text ++ more, pending'')
          end
      end
  end.

(** ** The chunks of the stream *)

(** [type StreamChunk], as [JSON.parse(data)] is read: [choices] may be
    missing, its first entry may be missing or null, and so on down to
    [content]. *)
Record Delta : Type := mkDelta {
  d_content : option string
}.

Record ChunkChoice : Type := mkChunkChoice {
  cc_delta : option Delta
}.

Record StreamChunk : Type := mkStreamChunk {
  sc_choices : option (list (option ChunkChoice))
}.

(** [JSON.parse(data) as StreamChunk]: the call throws, or gives null, or
    gives a value read through the type. *)
Inductive chunk_outcome : Type :=
| ChunkThrows
| ChunkNull
| ChunkValue (parsed : StreamChunk).

(** [parsed.choices?.[0]?.delta?.content ?? ""]. *)
Definition delta_of (parsed : StreamChunk) : string :=
  let choice := opt_chain (opt_chain (sc_choices parsed) (fun cs => nth_error cs 0))
                  (fun c => c) in
  opt_chain (opt_chain choice cc_delta) d_content ?? "".

(** The update of [setMessages] for a delta: the message of the assistant
    gets the delta at the end of its content. *)
Definition append_delta (assistantId delta : string) (current : list ChatMessage)
  : list ChatMessage :=
  List.map (fun m =>
              if String.eqb (cm_id m) assistantId
              then {| cm_id := cm_id m;
                      cm_role := cm_role m;
                      cm_content := cm_content m ++ delta;
                      cm_imageDataUrl := cm_imageDataUrl m |}
              else m)
    current.

Section Reading.

(** The runtime's [JSON.parse] on the data of a frame, and the id of the
    message of the assistant. *)
Variable JSON_parse_chunk : string -> chunk_outcome.
Variable assistantId : string.

(** The body of [for (const rawLine of lines)]: the messages after the
    line, and whether the line was the sentinel (the loop then breaks with
    [done] set). *)
Definition on_line (rawLine : string) (current : list ChatMessage)
  : list ChatMessage * bool :=
  let line := trim rawLine in
  if Str.is_empty line || negb (String.prefix "data:" line) then (current, false)
  else
    let data := trim (slice_from line (String.length "data:")) in
    if String.eqb data "[DONE]" then (current, true)
    else
      match JSON_parse_chunk data with
      | ChunkValue parsed =>
          let delta := delta_of parsed in
          if Str.is_empty delta then (current, false)
          else (append_delta assistantId delta current, false)
      | ChunkNull | ChunkThrows => (current, false)
      end.

Fixpoint on_lines (lines : list string) (current : list ChatMessage)
  : list ChatMessage * bool :=
  match lines with
  | [] => (current, false)
  | rawLine :: rest =>
      match on_line rawLine current with
      | (after, true) => (after, true)
      | (after, false) => on_lines rest after
      end
  end.

(** The variables of the reading loop. *)
Record Reading : Type := mkReading {
  rd_done : bool;
  rd_buffer : string;
  rd_pending : option N;
  rd_messages : list ChatMessage
}.

(** The body of [if (value)]. *)
Definition on_value (value : list Byte.byte) (st : Reading) : option Reading :=
  match decode (rd_pending st) value with
  | None => None
  | Some (text, pending) =>
      let buffer := rd_buffer st ++ text in
      let lines := split_lines buffer in
      let buffer' := last lines EmptyString in
      let '(after, done) := on_lines (removelast lines) (rd_messages st) in
      Some {| rd_done := done; rd_buffer := buffer'; rd_pending := pending;
              rd_messages := after |}
  end.

(** [while (!done)] when every read is answered: [reader.read()] gives the
    chunks of the body one by one and then the end of the stream. *)
Fixpoint read_stream (chunks : list (list Byte.byte)) (st : Reading) : option Reading :=
  match chunks with
  | [] =>
      Some {| rd_done := true; rd_buffer := rd_buffer st; rd_pending := rd_pending st;
              rd_messages := rd_messages st |}
  | value :: rest =>
      match on_value value st with
      | None => None
      | Some st' => if rd_done st' then Some st' else read_stream rest st'
      end
  end.

Definition start_reading (current : list ChatMessage) : Reading :=
  {| rd_done := false; rd_buffer := EmptyString; rd_pending := None;
     rd_messages := current |}.

(** How the loop ends: [done] is set, or [await reader.read()] throws with
    the variables as they are then. *)
Inductive read_result : Type :=
| ReadEnds (st : Reading)
| ReadThrows (e : js_error) (st : Reading).

(** The variables of the loop when it ends. *)
Definition state_of (r : read_result) : Reading :=
  match r with
  | ReadEnds st => st
  | ReadThrows _ st => st
  end.

(** [while (!done)] in full: [reader.read()] gives the chunks one by one,
    and then the end of the stream or, when the connection was lost, a
    rejection ([failure]).  A loop that met the sentinel reads no more, so
    it does not see the rejection. *)
Fixpoint read_body (chunks : list (list Byte.byte)) (failure : option js_error)
    (st : Reading) : option read_result :=
  match chunks with
  | [] =>
      match failure with
      | None =>
          Some (ReadEnds {| rd_done := true; rd_buffer := rd_buffer st;
                            rd_pending := rd_pending st;
                            rd_messages := rd_messages st |})
      | Some e => Some (ReadThrows e st)
      end
  | value :: rest =>
      match on_value value st with
      | None => None
      | Some st' => if rd_done st' then Some (ReadEnds st') else read_body rest failure st'
      end
  end.

End Reading.

(** ** The handlers *)

(** The setters of [useState]; [setMessages] and [setHistory] take the
    function from the current value, as the handlers call them. *)
Definition setMessages (f : list ChatMessage -> list ChatMessage) (s : PanelState)
  : PanelState :=
  {| messages := f (messages s); input := input s; isSending := isSending s;
     error := error s; pendingImage := pendingImage s; history := history s;
     isFlashing := isFlashing s |}.

Definition setInput (value : string) (s : PanelState) : PanelState :=
  {| messages := messages s; input := value; isSending := isSending s;
     error := error s; pendingImage := pendingImage s; history := history s;
     isFlashing := isFlashing s |}.

Definition setIsSending (value : bool) (s : PanelState) : PanelState :=
  {| messages := messages s; input := input s; isSending := value;
     error := error s; pendingImage := pendingImage s; history := history s;
     isFlashing := isFlashing s |}.

Definition setError (value : option string) (s : PanelState) : PanelState :=
  {| messages := messages s; input := input s; isSending := isSending s;
     error := value; pendingImage := pendingImage s; history := history s;
     isFlashing := isFlashing s |}.

Definition setPendingImage (value : option string) (s : PanelState) : PanelState :=
  {| messages := messages s; input := input s; isSending := isSending s;
     error := error s; pendingImage := value; history := history s;
     isFlashing := isFlashing s |}.

Definition setHistory (f : list ChatTranscript -> list ChatTranscript) (s : PanelState)
  : PanelState :=
  {| messages := messages s; input := input s; isSending := isSending s;
     error := error s; pendingImage := pendingImage s; history := f (history s);
     isFlashing := isFlashing s |}.

Definition setIsFlashing (value : bool) (s : PanelState) : PanelState :=
  {| messages := messages s; input := input s; isSending := isSending s;
     error := error s; pendingImage := pendingImage s; history := history s;
     isFlashing := value |}.

(** [handleNewChat]; [createdAt] is [new Date().toISOString()].  The
    timer it starts runs [flash_timeout] later. *)
Definition handleNewChat (createdAt : string) (s : PanelState) : PanelState :=
  let s1 :=
    if (0 <? List.length (messages s))%nat then
      let transcript :=
        {| ct_id := createdAt; ct_createdAt := createdAt; ct_messages := messages s |} in
      setHistory (fun current => Str.list_slice0 (transcript :: current) 20) s
    else s in
  setIsFlashing true
    (setError None (setPendingImage None (setInput "" (setMessages (fun _ => []) s1)))).

Definition flash_timeout (s : PanelState) : PanelState := setIsFlashing false s.

(** The click on a chat of the history. *)
Definition restore (session : ChatTranscript) (s : PanelState) : PanelState :=
  setError None
    (setPendingImage None (setInput "" (setMessages (fun _ => ct_messages session) s))).

(** The click on the delete button of a chat of the history. *)
Definition delete (session : ChatTranscript) (s : PanelState) : PanelState :=
  setHistory
    (fun current =>
       List.filter (fun item => negb (String.eqb (ct_id item) (ct_id session))) current)
    s.

(** [handleImageChange]: no file, or a file that the [FileReader] reads
    with [result] as its result ([None] when the result is no string). *)
Definition handleImageChange (file : option (option string)) (s : PanelState)
  : PanelState :=
  match file with
  | None => setPendingImage None s
  | Some (Some result) => setPendingImage (Some result) s
  | Some None => s
  end.

(** What the panel reads of the response of [fetch("/api/chat")]: when
    there is a body, the chunks that its reader gives, and the rejection
    of the read that follows them when the connection is lost before the
    end of the stream. *)
Record PanelResponse : Type := mkPanelResponse {
  pr_ok : bool;
  pr_statusText : string;
  pr_text : settled string;
  pr_body : option (list (list Byte.byte));
  pr_read_failure : option js_error
}.

(** [a || b] on strings. *)
Definition or_else (a b : string) : string := if Str.is_empty a then b else a.

(** [handleSubmit], run from the event to its end with no other event in
    between.  [uuid1] and [uuid2] are the two results of
    [crypto.randomUUID()]; [fetch] is the answer of the network to the body
    of the request.  The result is the state after and the requests made;
    [None] where a chunk has no text in the model. *)
Definition handleSubmit (JSON_parse_chunk : string -> chunk_outcome)
    (uuid1 uuid2 : string) (fetch : RequestBody -> settled PanelResponse)
    (s : PanelState) : option (PanelState * list RequestBody) :=
  let trimmed := trim (input s) in
  if Str.is_empty trimmed && negb (truthy (pendingImage s)) then Some (s, [])
  else if isSending s then Some (s, [])
  else
    let userMessage :=
      {| cm_id := uuid1; cm_role := ChatUser; cm_content := trimmed;
         cm_imageDataUrl := pendingImage s |} in
    let s1 :=
      setError None
        (setIsSending true
           (setPendingImage None
              (setInput "" (setMessages (fun current => current ++ [userMessage])%list s)))) in
    let assistantId := uuid2 in
    let s2 :=
      setMessages
        (fun current =>
           current ++ [ {| cm_id := assistantId; cm_role := ChatAssistant;
                           cm_content := ""; cm_imageDataUrl := None |} ])%list
        s1 in
    let request := request_body (messages s) userMessage in
    let finally := setIsSending false in
    match fetch request with
    | Rejected _ =>
        Some (finally (setError (Some "Erro ao falar com o modelo local.") s2), [request])
    | Fulfilled response =>
        match (if pr_ok response then pr_body response else None) with
        | None =>
            let text := catch_with (pr_text response) "" in
            Some (finally
                    (setError
                       (Some (or_else (or_else text (pr_statusText response))
                                "Request failed"))
                       s2),
                  [request])
        | Some chunks =>
            match read_body JSON_parse_chunk assistantId chunks (pr_read_failure response)
                    (start_reading (messages s2)) with
            | None => None
            | Some (ReadEnds final) =>
                Some (finally (setMessages (fun _ => rd_messages final) s2), [request])
            | Some (ReadThrows _ final) =>
                Some (finally
                        (setError (Some "Erro ao falar com o modelo local.")
                           (setMessages (fun _ => rd_messages final) s2)),
                      [request])
            end
        end
    end.

(** ** The events of the panel *)

(** What can happen to the panel: a click on the button of a new chat and
    the timer it starts, a click on a chat of the history or on its delete
    button, a choice of file, a click on the button that removes the
    image, a key typed into the input, and a submit with what the
    environment gives it. *)
Inductive Event : Type :=
| NewChat (createdAt : string)
| FlashTimeout
| Restore (session : ChatTranscript)
| Delete (session : ChatTranscript)
| ImageChange (file : option (option string))
| RemoveImage
| Typed (value : string)
| Submit (JSON_parse_chunk : string -> chunk_outcome) (uuid1 uuid2 : string)
    (fetch : RequestBody -> settled PanelResponse).

Definition handle (e : Event) (s : PanelState) : option PanelState :=
  match e with
  | NewChat createdAt => Some (handleNewChat createdAt s)
  | FlashTimeout => Some (flash_timeout s)
  | Restore session => Some (restore session s)
  | Delete session => Some (delete session s)
  | ImageChange file => Some (handleImageChange file s)
  | RemoveImage => Some (setPendingImage None s)
  | Typed value => Some (setInput value s)
  | Submit JSON_parse_chunk uuid1 uuid2 fetch =>
      option_map fst (handleSubmit JSON_parse_chunk uuid1 uuid2 fetch s)
  end.

(** The events one after the other, each run to its end. *)
Fixpoint run (events : list Event) (s : PanelState) : option PanelState :=
  match events with
  | [] => Some s
  | e :: rest =>
      match handle e s with
      | Some s' => run rest s'
      | None => None
      end
  end.

End Panel.

(* ===================================================================== *)
(** * The chat panel that reads a JSON answer *)
(* ===================================================================== *)

(** The version of [LocalChatPanel] that reads the whole body of the
    response as one chat completion. *)
Module JsonPanel.

Import Route Panel.

(** The state of the component, one field for each [useState]. *)
Record State : Type := mkState {
  messages : list ChatMessage;
  input : string;
  isSending : bool;
  error : option string;
  pendingImage : option string
}.

(** [type ChoiceMessage], its content optional as the code reads it. *)
Record ChoiceMessage : Type := mkChoiceMessage {
  chm_content : option string
}.

Record CompletionChoice : Type := mkCompletionChoice {
  cc_message : option ChoiceMessage
}.

(** The [error] field that is present: a string, or an object whose
    [message] is a string or is missing. *)
Inductive ErrorField : Type :=
| ErrorText (text : string)
| ErrorObject (message : option string).

(** [type ChatCompletionResponse]. *)
Record ChatCompletionResponse : Type := mkChatCompletionResponse {
  cr_choices : option (list (option CompletionChoice));
  cr_error : option ErrorField
}.

(** [JSON.parse(text) as ChatCompletionResponse]. *)
Inductive completion_outcome : Type :=
| CompletionThrows
| CompletionNull
| CompletionValue (data : ChatCompletionResponse).

(** What the panel reads of the response of [fetch("/api/chat")]. *)
Record JsonResponse : Type := mkJsonResponse {
  jr_ok : bool;
  jr_statusText : string;
  jr_text : settled string
}.

Section Submit.

Variable JSON_parse_completion : string -> completion_outcome.

(** [let data = null; if (text) { try { data = JSON.parse(text) } catch
    { data = null } }]. *)
Definition data_of (text : string) : option ChatCompletionResponse :=
  if Str.is_empty text then None
  else
    match JSON_parse_completion text with
    | CompletionValue data => Some data
    | CompletionNull | CompletionThrows => None
    end.

(** The detail of a response that is not ok, before [|| "Request
    failed"]. *)
Definition detail_of (data : option ChatCompletionResponse) (statusText : string)
  : string :=
  match opt_chain data cr_error with
  | Some (ErrorText text) => text
  | Some (ErrorObject message) => message ?? statusText
  | None => statusText
  end.

(** [data?.choices?.[0]?.message?.content?.trim() || "Sem resposta do
    modelo."]. *)
Definition content_of (data : option ChatCompletionResponse) : string :=
  let choice := opt_chain (opt_chain (opt_chain data cr_choices) (fun cs => nth_error cs 0))
                  (fun c => c) in
  let content := opt_chain (opt_chain choice cc_message) chm_content in
  or_else (match content with Some c => trim c | None => "" end)
    "Sem resposta do modelo.".

(** [handleSubmit], run from the event to its end with no other event in
    between; the result is the state after and the requests made. *)
Definition handleSubmit (uuid1 uuid2 : string) (fetch : RequestBody -> settled JsonResponse)
    (s : State) : State * list RequestBody :=
  let trimmed := trim (input s) in
  if Str.is_empty trimmed && negb (truthy (pendingImage s)) then (s, [])
  else if isSending s then (s, [])
  else
    let userMessage :=
      {| cm_id := uuid1; cm_role := ChatUser; cm_content := trimmed;
         cm_imageDataUrl := pendingImage s |} in
    let shown := (messages s ++ [userMessage])%list in
    let request := request_body (messages s) userMessage in
    let finish (messages' : list ChatMessage) (error' : option string) : State :=
      {| messages := messages'; input := ""; isSending := false; error := error';
         pendingImage := None |} in
    let failed := finish shown (Some "Erro ao falar com o modelo local.") in
    match fetch request with
    | Rejected _ => (failed, [request])
    | Fulfilled response =>
        match jr_text response with
        | Rejected _ => (failed, [request])
        | Fulfilled text =>
            let data := data_of text in
            if negb (jr_ok response) then
              let detail := detail_of data (jr_statusText response) in
              (finish shown (Some (or_else detail "Request failed")), [request])
            else
              let assistantMessage :=
                {| cm_id := uuid2; cm_role := ChatAssistant;
                   cm_content := content_of data; cm_imageDataUrl := None |} in
              (finish (shown ++ [assistantMessage])%list None, [request])
        end
    end.

End Submit.

End JsonPanel.

(* ===================================================================== *)
(** * app/api/chat/route.ts without tools: the forwarding route *)
(* ===================================================================== *)

(** The version of the route that has no tool loop: one call to the
    backend, whose answer is handed back as it came. *)
Module SimpleRoute.

Import Route.

Definition SYSTEM_PROMPT : string :=
  Str.of_utf8
    "Você é direto, objetivo e não divaga. Responda sempre claro, de forma curta, exceto quando o usuário pedir profundidade.".

Definition SYSTEM_MESSAGE : UpstreamMessage :=
  {| role := system; content := Text SYSTEM_PROMPT |}.

(** The object handed to [JSON.stringify] for the backend. *)
Record Payload : Type := mkPayload {
  sp_model : string;
  sp_messages : list UpstreamMessage;
  sp_stream : bool
}.

(** What the route reads of the response of the backend: the status, the
    promise of [text()] and [headers.get("content-type")]. *)
Record UpstreamResponse : Type := mkUpstreamResponse {
  up_status : N;
  up_text : settled string;
  up_content_type : option string
}.

(** The statuses of a response that has no body. *)
Definition null_body_status (status : N) : bool :=
  ((status =? 101) || (status =? 103) || (status =? 204) || (status =? 205)
   || (status =? 304))%N.

(** [new Response(body, { status, headers })] with a body that is a
    string: the constructor throws a RangeError for a status outside
    200 to 599, and a TypeError for a status that admits no body. *)
Definition new_Response (text : string) (status : N) (headers : list (string * string))
  : settled HttpResponse :=
  if ((status <? 200) || (599 <? status))%N
  then Rejected (Rejection "RangeError: init.status must be in the range of 200 to 599")
  else if null_body_status status
  then Rejected (TypeError "Response constructor: Invalid response status code")
  else Fulfilled {| status := status; headers := headers; body := TextBody text |}.

(** [export async function POST(request)]; the state is the list of the
    payloads sent to the backend. *)
Definition POST (backend : Payload -> settled UpstreamResponse)
    (request_json : settled (option RequestBody)) : M (list Payload) HttpResponse :=
  try_catch
    (let body := catch_with request_json None in
     let messages := opt_chain body rb_messages ?? [] in
     let model := opt_chain body rb_model ?? "Ministral-3-8B-Reasoning-2512" in
     let payload :=
       {| sp_model := model; sp_messages := SYSTEM_MESSAGE :: messages;
          sp_stream := false |} in
     upstreamResponse <- (fun sent => (backend payload, (sent ++ [payload])%list)) ;;
     text <- await (up_text upstreamResponse) ;;
     await
       (new_Response (if Str.is_empty text then "{}" else text)
          (up_status upstreamResponse)
          [ ("Content-Type",
             up_content_type upstreamResponse ?? "application/json; charset=utf-8") ]))
    (fun error => ret error_response).

End SimpleRoute.

(* ===================================================================== *)
(** * Vocabulary of the properties *)
(* ===================================================================== *)

Import Serper WebSearchTool Route.

(** From here on [++] is the append of lists; the append of strings is
    marked. *)
Open Scope list_scope.

(** The stream the encoder is expected to leave for an answer. *)
Definition frames_of (finalContent : string) : list (list Byte.byte) :=
  ((if Str.is_empty finalContent then [] else [encode (data_frame finalContent)])
     ++ [encode DONE_FRAME])%list.

Definition sse (finalContent : string) : Controller :=
  {| queue := frames_of finalContent; closed := true |}.

(** The text of the data frame around the quoted answer. *)
Definition FRAME_PREFIX : string :=
  ("data: {" ++ Str.DQUOTE ++ "choices" ++ Str.DQUOTE ++ ":[{" ++ Str.DQUOTE ++ "delta"
     ++ Str.DQUOTE ++ ":{" ++ Str.DQUOTE ++ "content" ++ Str.DQUOTE ++ ":" ++ Str.DQUOTE)%string.

Definition FRAME_SUFFIX : string := (Str.DQUOTE ++ "}}]}" ++ Str.LF ++ Str.LF)%string.

(** The body of the error response, as text. *)
Definition ERROR_BODY : string :=
  ("{" ++ Str.DQUOTE ++ "error" ++ Str.DQUOTE ++ ":" ++ Str.DQUOTE
     ++ "Failed to call local chat backend" ++ Str.DQUOTE ++ "}")%string.

Fixpoint replicate (n : nat) (c : ascii) : string :=
  match n with
  | O => EmptyString
  | S n' => String c (replicate n' c)
  end.

Definition is_search_call (c : call) : bool :=
  match c with
  | SearchCall _ => true
  | ChatCall _ => false
  end.

(** [toolCall.function?.arguments ?? "{}"]. *)
Definition raw_arguments (tc : ToolCall) : string :=
  opt_chain (tc_function tc) fn_arguments ?? "{}"%string.

(** A web_search request of type "function": the requests whose decoded
    arguments the loop goes on to read. *)
Definition reads_arguments (tc : ToolCall) : bool :=
  String.eqb (tc_type tc) "function"
  && is_web_search (option_map fn_name (tc_function tc)).

(** The message pushed for a tool call and the result of its search. *)
Definition tool_message (tc : ToolCall) (result : WebSearchResult) : ToolMessage := {|
  tm_role := "tool";
  tm_tool_call_id := tc_id tc;
  tm_name := "web_search";
  tm_content := Json.stringify (to_json result)
|}.

(** What the handler reads off the inbound request and off a completion. *)
Definition messages_of (request_json : settled (option RequestBody))
  : list UpstreamMessage :=
  opt_chain (catch_with request_json None) rb_messages ?? [].

Definition model_of (request_json : settled (option RequestBody)) : string :=
  opt_chain (catch_with request_json None) rb_model ?? DEFAULT_MODEL.

Definition toolCalls_of (response : option ChatCompletion) : list (option ToolCall) :=
  am_tool_calls (message_of response) ?? [].

Definition answer_of (response : option ChatCompletion) : string :=
  am_content (message_of response) ?? ""%string.

(** The tool results a payload carries. *)
Definition tool_results (p : ChatPayload) : list ToolMessage :=
  flat_map (fun m => match m with ToolResult t => [t] | Plain _ => [] end) (p_messages p).

(** The phase-2 call is the one that forbids tools. *)
Definition is_phase_two (p : ChatPayload) : bool := String.eqb (p_tool_choice p) "none".

(** The body of the request is not JSON, or is null, or has no [messages]
    field. *)
Definition lacks_messages (request_json : settled (option RequestBody)) : bool :=
  match request_json with
  | Rejected _ => true
  | Fulfilled None => true
  | Fulfilled (Some body) =>
      match rb_messages body with
      | None => true
      | Some _ => false
      end
  end.

Section Vocabulary.

Variable w : World.
Variable client : SerperClient.

(** A call failed: its [fetch] was rejected (a network failure, the
    timeout) or answered with a status that is not a success. *)
Definition call_failed (before : trace) (c : call) : bool :=
  match c with
  | ChatCall payload =>
      match chat_backend w before payload with
      | Rejected _ => true
      | Fulfilled res => negb (res_ok res)
      end
  | SearchCall request =>
      match serper_api w before request with
      | Rejected _ => true
      | Fulfilled res => negb (res_ok res)
      end
  end.

(** No call of [calls] failed, the first being made after [before]. *)
Fixpoint all_succeeded (before : trace) (calls : list call) : Prop :=
  match calls with
  | [] => True
  | c :: rest => call_failed before c = false /\ all_succeeded (before ++ [c]) rest
  end.

(** An accepted request, in the words of the specification: its type is
    "function", its tool name is web_search, its argument payload decodes,
    and the decoded payload has a non-empty query.  The function gives the
    request with that query and the [max_results] it asks for. *)
Definition accepted_call (toolCall : option ToolCall)
  : option (ToolCall * string * option Z) :=
  match toolCall with
  | None => None
  | Some tc =>
      if String.eqb (tc_type tc) "function"
         && is_web_search (option_map fn_name (tc_function tc))
      then
        match JSON_parse w (raw_arguments tc) with
        | ParsedValue args =>
            match query args with
            | Some q => if Str.is_empty q then None else Some (tc, q, max_results args)
            | None => None
            end
        | ParsedNull | ParseThrows => None
        end
      else None
  end.

Definition accepted (toolCall : option ToolCall) : bool :=
  match accepted_call toolCall with
  | Some _ => true
  | None => false
  end.

(** The search call of an accepted request: the adapter's clamp of
    [max_results ?? 3] is what reaches the gateway. *)
Definition search_call_of (toolCall : option ToolCall) : list call :=
  match accepted_call toolCall with
  | Some (_, q, mr) => [SearchCall (search_request client q (limit_of (mr ?? 3)))]
  | None => []
  end.

Definition expected_calls (toolCalls : list (option ToolCall)) : list call :=
  flat_map search_call_of toolCalls.

(** [tm] is the result of the accepted request [toolCall]. *)
Definition result_for (toolCall : option ToolCall) (tm : ToolMessage) : Prop :=
  match accepted_call toolCall with
  | Some (tc, q, _) => exists result, r_query result = q /\ tm = tool_message tc result
  | None => False
  end.

End Vocabulary.

(** The [toolCalls] of a turn: what phase 1 asked for ([[]] when the
    phase-1 call failed). *)
Definition toolCalls_of_turn (w : World) (model : string) (messages : list UpstreamMessage)
  : list (option ToolCall) :=
  match fst (callLocalChat w (firstPayload model messages) []) with
  | Fulfilled first => toolCalls_of first
  | Rejected _ => []
  end.

(** The claim as the specification words it: a phase-2 call carries the
    result of at least one executed tool. *)
Definition phase_two_only_after_a_tool_ran (calls : trace) : Prop :=
  forall p, In (ChatCall p) calls -> is_phase_two p = true -> tool_results p <> [].



(** The claim as it is worded: the loop over the requests of phase 1,
    run after the calls [t], leaves a sequence of results, one for each
    accepted request and in their order. *)
Definition leaves_the_accepted_results (w : World) (client : SerperClient)
    (toolCalls : list (option ToolCall)) (t : trace) : Prop :=
  exists toolMessages calls,
    run_tool_calls w client toolCalls [] t = (Fulfilled toolMessages, calls)
    /\ Forall2 (result_for w) (filter (accepted w) toolCalls) toolMessages.

(** The claim as it is worded: phase 1 is called with the synthetic system
    message alone and with the default model. *)
Definition proceeds_with_defaults (w : World) (client : SerperClient)
    (request_json : settled (option RequestBody)) : Prop :=
  hd_error (snd (POST w client request_json []))
  = Some (ChatCall (firstPayload DEFAULT_MODEL [])).

(* ===================================================================== *)
(** * Scenarios *)
(* ===================================================================== *)

(** Concrete environments, after the end-to-end scenarios of the
    specification.  They are the inputs of the examples below. *)
Module Scenario.

Open Scope string_scope.

Definition env : ProcessEnv := {|
  SERPER_API_KEY := Some "test-key";
  SERPER_BASE_URL := Some "https://serper.test/";
  SEARCH_TIMEOUT := None;
  SEARCH_MAX_RESULTS_env := None;
  SEARCH_MAX_CHARS_env := None
|}.

Definition client : SerperClient :=
  {| apiKey := "test-key"; baseUrl := "https://serper.test"; timeout := 20 |}.

(** Argument texts of tool calls. *)
Definition member (key value : string) : string :=
  Str.DQUOTE ++ key ++ Str.DQUOTE ++ ":" ++ value.

Definition text (s : string) : string := Str.DQUOTE ++ s ++ Str.DQUOTE.

Definition ARGS_UNPARSABLE : string := "{".
Definition ARGS_EMPTY_OBJECT : string := "{}".
Definition ARGS_NULL : string := "null".
Definition ARGS_LISBON : string := "{" ++ member "query" (text "weather Lisbon today") ++ "}".
Definition ARGS_NINE : string :=
  "{" ++ member "query" (text "rocq release") ++ "," ++ member "max_results" "9" ++ "}".
Definition ARGS_ZERO : string :=
  "{" ++ member "query" (text "rocq release") ++ "," ++ member "max_results" "0" ++ "}".
Definition ARGS_EMPTY_QUERY : string := "{" ++ member "query" (text "") ++ "}".

(** What [JSON.parse], read through [WebSearchArgs], makes of each. *)
Definition parse_table : list (string * parse_outcome) :=
  [ (ARGS_UNPARSABLE, ParseThrows);
    (ARGS_EMPTY_OBJECT, ParsedValue {| query := None; max_results := None |});
    (ARGS_NULL, ParsedNull);
    (ARGS_LISBON, ParsedValue {| query := Some "weather Lisbon today"; max_results := None |});
    (ARGS_NINE, ParsedValue {| query := Some "rocq release"; max_results := Some 9%Z |});
    (ARGS_ZERO, ParsedValue {| query := Some "rocq release"; max_results := Some 0%Z |});
    (ARGS_EMPTY_QUERY, ParsedValue {| query := Some ""; max_results := None |}) ].

Fixpoint lookup (table : list (string * parse_outcome)) (s : string) : parse_outcome :=
  match table with
  | [] => ParseThrows
  | (key, outcome) :: rest => if String.eqb key s then outcome else lookup rest s
  end.

(** [JSON.parse] on the argument texts of the scenarios; no other text
    occurs in them. *)
Definition parse : string -> parse_outcome := lookup parse_table.

(** Answers of the two services. *)
Definition ok_response {B : Type} (json : B) : FetchResponse B := {|
  res_ok := true;
  res_status := 200;
  res_statusText := "OK";
  res_text := Rejected (Rejection "body already read");
  res_json := Fulfilled json
|}.

Definition completion (m : AssistantMessage) : option ChatCompletion :=
  Some {| choices := Some [ {| ch_message := Some m |} ] |}.

Definition says (s : string) : AssistantMessage :=
  {| am_content := Some s; am_tool_calls := None |}.

Definition calls_tools (toolCalls : list (option ToolCall)) : AssistantMessage :=
  {| am_content := None; am_tool_calls := Some toolCalls |}.

Definition web_search_call (id arguments : string) : option ToolCall :=
  Some {| tc_id := id;
          tc_type := "function";
          tc_function := Some {| fn_name := "web_search"; fn_arguments := Some arguments |} |}.

(** A backend that answers the first payload (tool choice "auto") with
    [first] and any other payload with [second]. *)
Definition backend (first second : settled (FetchResponse (option ChatCompletion)))
  : trace -> ChatPayload -> settled (FetchResponse (option ChatCompletion)) :=
  fun _ payload => if String.eqb (p_tool_choice payload) "auto" then first else second.

Definition hit (n : string) : SearchItem := {|
  it_title := Some ("Result " ++ n);
  it_link := Some ("https://example.test/" ++ n);
  it_url := None;
  it_snippet := Some ("Snippet " ++ n);
  it_description := None
|}.

(** A provider with seven results for every query. *)
Definition provider : trace -> SerperRequest -> settled (FetchResponse (option SerperData)) :=
  fun _ _ =>
    Fulfilled (ok_response
      (Some {| organic := Some (List.map hit ["1"; "2"; "3"; "4"; "5"; "6"; "7"]) |})).

(** A provider whose call runs into the timeout. *)
Definition provider_timeout
  : trace -> SerperRequest -> settled (FetchResponse (option SerperData)) :=
  fun _ _ => Rejected (Rejection "The operation was aborted due to timeout").

Definition world (first second : settled (FetchResponse (option ChatCompletion)))
    (serper : trace -> SerperRequest -> settled (FetchResponse (option SerperData)))
  : World :=
  {| JSON_parse := parse; chat_backend := backend first second; serper_api := serper |}.

Definition user_says (s : string) : UpstreamMessage :=
  {| role := user; content := Text s |}.

Definition request (model : option string) (messages : list UpstreamMessage)
  : settled (option RequestBody) :=
  Fulfilled (Some {| rb_messages := Some messages; rb_model := model |}).

End Scenario.

(** Scenario A: the user asks for the capital of France and the model
    answers at once. *)
Definition scenario_A : World :=
  Scenario.world
    (Fulfilled (Scenario.ok_response (Scenario.completion (Scenario.says "Paris."))))
    (Rejected (Rejection "unreachable"))
    Scenario.provider.

Definition request_A : settled (option RequestBody) :=
  Scenario.request None [Scenario.user_says "capital of France?"].

(** Scenario C: one tool call whose arguments are the text of an open
    brace. *)
Definition scenario_C : World :=
  Scenario.world
    (Fulfilled (Scenario.ok_response
       (Scenario.completion
          (Scenario.calls_tools [Scenario.web_search_call "call_1" Scenario.ARGS_UNPARSABLE]))))
    (Fulfilled (Scenario.ok_response
       (Scenario.completion (Scenario.says "I could not search the web."))))
    Scenario.provider.

Definition request_C : settled (option RequestBody) :=
  Scenario.request None [Scenario.user_says "weather in Lisbon today?"].

(** Scenario B: the model asks for one search on the weather in Lisbon,
    the provider has seven results, and phase 2 sums them up. *)
Definition toolCalls_B : list (option ToolCall) :=
  [Scenario.web_search_call "call_1" Scenario.ARGS_LISBON].

Definition scenario_B : World :=
  Scenario.world
    (Fulfilled (Scenario.ok_response (Scenario.completion (Scenario.calls_tools toolCalls_B))))
    (Fulfilled (Scenario.ok_response
       (Scenario.completion (Scenario.says "Sunny, see https://example.test/1"))))
    Scenario.provider.

Definition messages_B : list UpstreamMessage :=
  [Scenario.user_says "weather in Lisbon today?"].

Definition request_B : settled (option RequestBody) := Scenario.request None messages_B.

Definition toolMessages_B : list ToolMessage :=
  match fst (run_tool_calls scenario_B Scenario.client toolCalls_B []
               [ChatCall (firstPayload DEFAULT_MODEL messages_B)]) with
  | Fulfilled toolMessages => toolMessages
  | Rejected _ => []
  end.

(** Three requests: an accepted one, one whose arguments do not decode,
    and one for a tool that does not exist. *)
Definition toolCalls_mixed : list (option ToolCall) :=
  [ Scenario.web_search_call "call_1" Scenario.ARGS_UNPARSABLE;
    Scenario.web_search_call "call_2" Scenario.ARGS_LISBON;
    Some {| tc_id := "call_3";
            tc_type := "function";
            tc_function := Some {| fn_name := "calculator";
                                   fn_arguments := Some Scenario.ARGS_LISBON |} |};
    None;
    Scenario.web_search_call "call_5" Scenario.ARGS_EMPTY_QUERY ].

Definition toolMessages_mixed : list ToolMessage :=
  match fst (run_tool_calls scenario_B Scenario.client toolCalls_mixed [] []) with
  | Fulfilled toolMessages => toolMessages
  | Rejected _ => []
  end.

(** The backend answers phase 1 with status 200 and a body that is not
    JSON. *)
Definition malformed_response : FetchResponse (option ChatCompletion) := {|
  res_ok := true;
  res_status := 200;
  res_statusText := "OK";
  res_text := Fulfilled "<html>busy</html>"%string;
  res_json := Rejected (Rejection "Unexpected token < in JSON at position 0")
|}.

Definition scenario_malformed : World :=
  Scenario.world (Fulfilled malformed_response) (Fulfilled malformed_response)
    Scenario.provider.

(** Scenario D: the model asks for a search and the gateway runs into its
    timeout. *)
Definition scenario_D : World :=
  Scenario.world
    (Fulfilled (Scenario.ok_response (Scenario.completion (Scenario.calls_tools toolCalls_B))))
    (Fulfilled (Scenario.ok_response (Scenario.completion (Scenario.says "unused"))))
    Scenario.provider_timeout.

(** A body that names a model and has no messages. *)
Definition request_model_only : settled (option RequestBody) :=
  Fulfilled (Some {| rb_messages := None; rb_model := Some "llama-3"%string |}).

(** A request whose body is not JSON. *)
Definition request_not_json : settled (option RequestBody) :=
  Rejected (Rejection "Unexpected end of JSON input").

(** A snippet of 601 characters, and a provider that has it. *)
Definition long_snippet : string := replicate 601 "x".

Definition scenario_long : World :=
  Scenario.world
    (Rejected (Rejection "unused")) (Rejected (Rejection "unused"))
    (fun _ _ =>
       Fulfilled (Scenario.ok_response
         (Some {| organic :=
                    Some [ {| it_title := Some "Long";
                              it_link := Some "https://example.test/long";
                              it_url := None;
                              it_snippet := Some long_snippet;
                              it_description := None |} ] |}))).

(* ===================================================================== *)
(** * Vocabulary and scenarios of the further properties *)
(* ===================================================================== *)

Open Scope list_scope.

(** A gateway item has its three fields and no other. *)
Definition is_normal (item : SearchItem) : Prop :=
  exists t u s,
    item = {| it_title := Some t; it_link := None; it_url := Some u;
              it_snippet := Some s; it_description := None |}.

(** Three requests: a search, a request with the arguments [null], and a
    request that is never reached. *)
Definition toolCalls_null : list (option ToolCall) :=
  [ Scenario.web_search_call "call_1" Scenario.ARGS_LISBON;
    Scenario.web_search_call "call_2" Scenario.ARGS_NULL;
    Scenario.web_search_call "call_3" Scenario.ARGS_NINE ].

(** The model asks for these three. *)
Definition scenario_null : World :=
  Scenario.world
    (Fulfilled (Scenario.ok_response (Scenario.completion (Scenario.calls_tools toolCalls_null))))
    (Fulfilled (Scenario.ok_response (Scenario.completion (Scenario.says "unused"))))
    Scenario.provider.

(** [AbortSignal.timeout(this.timeout * 1000)] accepts the delay of the
    client: a whole number of milliseconds from 0 to 4294967295.  For
    another delay it throws before [fetch] is called, and [search] makes no
    request. *)
Definition delay_accepted (this : SerperClient) : Prop :=
  0 <= timeout this * 1000 <= 4294967295.

(** The payload that the forwarding route makes of a request. *)
Definition forwarded_payload (request_json : settled (option RequestBody))
  : SimpleRoute.Payload :=
  {| SimpleRoute.sp_model := model_of request_json;
     SimpleRoute.sp_messages := (SimpleRoute.SYSTEM_MESSAGE :: messages_of request_json)%list;
     SimpleRoute.sp_stream := false |}.

(** A status that a response with a body can have. *)
Definition forwardable (status : N) : bool :=
  ((200 <=? status) && (status <=? 599))%N && negb (SimpleRoute.null_body_status status).

(** The answer of the backend, handed back. *)
Definition handed_back (up : SimpleRoute.UpstreamResponse) (text : string) : HttpResponse :=
  {| status := SimpleRoute.up_status up;
     headers := [ ("Content-Type",
                   SimpleRoute.up_content_type up ?? "application/json; charset=utf-8") ]%list;
     body := TextBody (if Str.is_empty text then "{}" else text) |}.

(** A backend with nothing to say: status 204 and an empty text. *)
Definition backend_no_content : SimpleRoute.Payload -> settled SimpleRoute.UpstreamResponse :=
  fun _ => Fulfilled {| SimpleRoute.up_status := 204;
                        SimpleRoute.up_text := Fulfilled "";
                        SimpleRoute.up_content_type := None |}.

(** The vocabulary of the properties of the panels; the names of [Panel]
    are in use inside. *)
Module PanelVocabulary.

Import Panel.

Open Scope string_scope.

(** The string holds a line feed. *)
Fixpoint has_LF (s : string) : bool :=
  match s with
  | EmptyString => false
  | String c rest => Ascii.eqb c "010"%char || has_LF rest
  end.

(** The lines of a chunk and what is left in the buffer, in one pass over
    the text of the chunk: [line] is the line read so far. *)
Fixpoint feed (parse : string -> chunk_outcome) (assistantId : string)
    (line text : string) (current : list ChatMessage)
  : string * list ChatMessage * bool :=
  match text with
  | EmptyString => (line, current, false)
  | String c rest =>
      if Ascii.eqb c "010"%char then
        match on_line parse assistantId line current with
        | (after, true) => (last (split_from "" rest) "", after, true)
        | (after, false) => feed parse assistantId "" rest after
        end
      else feed parse assistantId (line ++ String c "") rest current
  end.

(** What the loop has done to the messages, and whether it met the
    sentinel. *)
Definition outcome (r : string * list ChatMessage * bool) : list ChatMessage * bool :=
  (snd (fst r), snd r).

(** What [JSON.parse] gives for the object of the data frame. *)
Definition chunk_of (text : string) : StreamChunk :=
  {| sc_choices := Some [Some {| cc_delta := Some {| d_content := Some text |} |}]%list |}.

(** A reader of the data of a frame, for the frames the route writes: the
    text of [content] is read back with [Json.unquote_body]. *)
Definition read_chunk (data : string) : chunk_outcome :=
  let opening :=
    "{" ++ Str.DQUOTE ++ "choices" ++ Str.DQUOTE ++ ":[{" ++ Str.DQUOTE ++ "delta"
      ++ Str.DQUOTE ++ ":{" ++ Str.DQUOTE ++ "content" ++ Str.DQUOTE ++ ":" ++ Str.DQUOTE in
  if String.prefix opening data then
    match Json.unquote_body (slice_from data (String.length opening)) with
    | Some (text, rest) =>
        if String.eqb rest "}}]}" then ChunkValue (chunk_of text) else ChunkThrows
    | None => ChunkThrows
    end
  else ChunkThrows.

(** The text of the body of the route. *)
Definition body_text (finalContent : string) : string :=
  (if Str.is_empty finalContent then "" else data_frame finalContent) ++ DONE_FRAME.

(** The message of the user that [handleSubmit] makes of the state, and
    the message of the assistant once it holds [answer]. *)
Definition userMessage_of (uuid1 : string) (s : PanelState) : ChatMessage :=
  {| cm_id := uuid1; cm_role := ChatUser; cm_content := trim (input s);
     cm_imageDataUrl := pendingImage s |}.

Definition assistant_says (uuid2 answer : string) : ChatMessage :=
  {| cm_id := uuid2; cm_role := ChatAssistant; cm_content := answer;
     cm_imageDataUrl := None |}.

(** The state lets a submit through: there is a text or an image, and no
    request is under way. *)
Definition submits (s : PanelState) : bool :=
  negb (Str.is_empty (trim (input s)) && negb (truthy (pendingImage s)))
  && negb (isSending s).

(** The id of the message of the assistant is the id of no other message. *)
Definition fresh_id (uuid1 uuid2 : string) (s : PanelState) : Prop :=
  uuid1 <> uuid2 /\ Forall (fun m => cm_id m <> uuid2) (messages s).

(** [response.ok]. *)
Definition status_ok (status : N) : bool := ((200 <=? status) && (status <=? 299))%N.

(** The response of the route as the panel receives it: the bytes of a
    closed stream arrive as chunks, cut in any way, and no read is
    rejected; a text arrives as the text of the body. *)
Definition delivers (response : settled HttpResponse) (p : PanelResponse) : Prop :=
  match response with
  | Fulfilled r =>
      pr_ok p = status_ok (status r)
      /\ match body r with
         | StreamBody stream =>
             closed stream = true
             /\ exists chunks,
                  pr_body p = Some chunks
                  /\ pr_read_failure p = None
                  /\ List.concat chunks = List.concat (queue stream)
         | TextBody text => pr_text p = Fulfilled text
         end
  | Rejected _ => False
  end.

(** A panel with one exchange in its transcript and a question typed
    in. *)
Definition panel_typing : PanelState := {|
  messages := [ mkChatMessage "u0" ChatUser "oi" None;
                mkChatMessage "a0" ChatAssistant "Oi!" None ]%list;
  input := "  weather in Lisbon today? ";
  isSending := false;
  error := None;
  pendingImage := None;
  history := []%list;
  isFlashing := false
|}.

(** The network is down. *)
Definition offline : RequestBody -> settled PanelResponse :=
  fun _ => Rejected (Rejection "Failed to fetch").

(** The reading of the body was cut: the response had a body to read and
    the read after its chunks was rejected. *)
Definition read_was_cut (fetch : RequestBody -> settled PanelResponse)
    (request : RequestBody) : Prop :=
  exists response chunks e,
    fetch request = Fulfilled response
    /\ pr_ok response = true
    /\ pr_body response = Some chunks
    /\ pr_read_failure response = Some e.

(** The connection is lost after a first data frame. *)
Definition cut_after_delta : RequestBody -> settled PanelResponse :=
  fun _ =>
    Fulfilled {| pr_ok := true;
                 pr_statusText := "OK";
                 pr_text := Rejected (TypeError "Body is unusable");
                 pr_body := Some [encode (data_frame "Sunny")]%list;
                 pr_read_failure := Some (TypeError "terminated") |}.

(** The panel of [panel_typing] after a submit answered that way. *)
Definition panel_cut : PanelState := {|
  messages := [ mkChatMessage "u0" ChatUser "oi" None;
                mkChatMessage "a0" ChatAssistant "Oi!" None;
                mkChatMessage "u1" ChatUser "weather in Lisbon today?" None;
                mkChatMessage "a1" ChatAssistant "Sunny" None ]%list;
  input := "";
  isSending := false;
  error := Some "Erro ao falar com o modelo local.";
  pendingImage := None;
  history := []%list;
  isFlashing := false
|}.

(** The route behind the panel: the response of [POST] to the request,
    its body delivered as the chunks that were enqueued. *)
Definition served_by (w : World) (client : SerperClient) (request : RequestBody)
  : settled PanelResponse :=
  match fst (POST w client (Fulfilled (Some request)) []%list) with
  | Fulfilled r =>
      let bytes :=
        match body r with
        | StreamBody stream => queue stream
        | TextBody text => [encode text]%list
        end in
      Fulfilled {| pr_ok := status_ok (status r);
                   pr_statusText := "";
                   pr_text := match decode None (List.concat bytes) with
                              | Some (text, _) => Fulfilled text
                              | None => Rejected (Rejection "not in the model")
                              end;
                   pr_body := Some bytes;
                   pr_read_failure := None |}
  | Rejected e => Rejected e
  end.

(** A chat of the history as [handleNewChat] files it: it has messages,
    and its id is the time of its filing. *)
Definition filed (t : ChatTranscript) : Prop :=
  ct_messages t <> []%list /\ ct_id t = ct_createdAt t.

(** The history has at most twenty chats, each as filed. *)
Definition history_ok (s : PanelState) : Prop :=
  (List.length (history s) <= 20)%nat /\ Forall filed (history s).

(** A session: a question answered by the route, a new chat, a greeting
    sent while the network is down, a new chat again, and the first chat
    deleted from the history. *)
Definition a_session : list Event :=
  [ Submit read_chunk "u1" "a1" (served_by scenario_B Scenario.client);
    NewChat "2026-01-01T10:00:00.000Z";
    Typed "oi";
    Submit read_chunk "u2" "a2" offline;
    NewChat "2026-01-01T10:05:00.000Z";
    Delete (mkChatTranscript "2026-01-01T10:00:00.000Z" "" []) ]%list.

(** The panel after that session, from [panel_typing]. *)
Definition panel_after_session : PanelState := {|
  messages := []%list;
  input := "";
  isSending := false;
  error := None;
  pendingImage := None;
  history :=
    [ {| ct_id := "2026-01-01T10:05:00.000Z";
         ct_createdAt := "2026-01-01T10:05:00.000Z";
         ct_messages := [ mkChatMessage "u2" ChatUser "oi" None;
                          mkChatMessage "a2" ChatAssistant "" None ]%list |} ]%list;
  isFlashing := true
|}.

(** A message as the panel writes it: of the user or of the assistant,
    with a text or with parts that end with an image, after at most one
    text that is not empty. *)
Definition from_panel (u : UpstreamMessage) : Prop :=
  role u <> system
  /\ match content u with
     | Text _ => True
     | Parts parts =>
         role u = user
         /\ exists url,
              parts = [ImageUrlPart url]%list
              \/ exists text, text <> "" /\ parts = [TextPart text; ImageUrlPart url]%list
     end.

(** A message of a payload that is a tool result or comes from the
    panel. *)
Definition panel_or_tool (m : PayloadMessage) : Prop :=
  match m with
  | Plain u => from_panel u
  | ToolResult _ => True
  end.

(** The message of the user that the panel makes of its state. *)
Definition json_userMessage_of (uuid1 : string) (s : JsonPanel.State) : ChatMessage :=
  {| cm_id := uuid1; cm_role := ChatUser; cm_content := trim (JsonPanel.input s);
     cm_imageDataUrl := JsonPanel.pendingImage s |}.

(** The state lets a submit through. *)
Definition json_submits (s : JsonPanel.State) : bool :=
  negb (Str.is_empty (trim (JsonPanel.input s)) && negb (truthy (JsonPanel.pendingImage s)))
  && negb (JsonPanel.isSending s).

(** The response of the forwarding route as the panel receives it. *)
Definition json_delivers (response : settled HttpResponse) (p : JsonPanel.JsonResponse)
  : Prop :=
  match response with
  | Fulfilled r =>
      JsonPanel.jr_ok p = status_ok (status r)
      /\ match body r with
         | TextBody text => JsonPanel.jr_text p = Fulfilled text
         | StreamBody _ => False
         end
  | Rejected _ => False
  end.

(** What [JSON.parse] gives for the error body of the route. *)
Definition error_data : JsonPanel.ChatCompletionResponse :=
  {| JsonPanel.cr_choices := None;
     JsonPanel.cr_error := Some (JsonPanel.ErrorText "Failed to call local chat backend") |}.

(** A panel with a question typed in, a reader of the error body, and
    the forwarding route in front of a backend with nothing to say. *)
Definition json_panel_typing : JsonPanel.State := {|
  JsonPanel.messages := []%list;
  JsonPanel.input := "capital of France?";
  JsonPanel.isSending := false;
  JsonPanel.error := None;
  JsonPanel.pendingImage := None
|}.

(** [JSON.parse] on the error body of the route; no other text occurs in
    the scenario. *)
Definition read_completion (text : string) : JsonPanel.completion_outcome :=
  if String.eqb text ERROR_BODY then JsonPanel.CompletionValue error_data
  else JsonPanel.CompletionThrows.

(** The forwarding route behind the panel. *)
Definition forwarded_by (backend : SimpleRoute.Payload -> settled SimpleRoute.UpstreamResponse)
    (request : RequestBody) : settled JsonPanel.JsonResponse :=
  match fst (SimpleRoute.POST backend (Fulfilled (Some request)) []%list) with
  | Fulfilled r =>
      Fulfilled {| JsonPanel.jr_ok := status_ok (status r);
                   JsonPanel.jr_statusText := "";
                   JsonPanel.jr_text :=
                     match body r with
                     | TextBody text => Fulfilled text
                     | StreamBody _ => Rejected (Rejection "not a text")
                     end |}
  | Rejected e => Rejected e
  end.

(** The frames of a streamed answer, one for each delta. *)
Definition frames_text (texts : list string) : string :=
  fold_right append "" (List.map data_frame texts).

End PanelVocabulary.

(* ===================================================================== *)
(** * Lemmas *)
(* ===================================================================== *)

(** ** Strings and slices *)

(** In this part [++] is the append of strings. *)
Open Scope string_scope.

Lemma substring_0_length (n : nat) (s : string) :
  (n <= String.length s)%nat -> String.length (substring 0 n s) = n.
Proof.
  revert s. induction n as [|n IH]; intros s Hn.
  - destruct s; reflexivity.
  - destruct s as [|c s]; simpl in *; [lia|].
    rewrite IH; [reflexivity | lia].
Qed.

Lemma string_length_app (a b : string) :
  String.length (a ++ b) = (String.length a + String.length b)%nat.
Proof.
  induction a as [|c a IH]; simpl; [reflexivity | now rewrite IH].
Qed.

(** ** [truncate], the helper that [runWebSearch] leaves unused *)

Lemma truncate_long (text : string) (max : Z) :
  0 <= max -> max < Z.of_nat (String.length text) ->
  truncate text max = substring 0 (Z.to_nat max) text ++ "..."
  /\ Z.of_nat (String.length (truncate text max)) = max + 3.
Proof.
  intros Hmax Hlen. unfold truncate.
  destruct text as [|c text]; [simpl in Hlen; lia|].
  cbn [Str.is_empty].
  destruct (Z.gtb_spec (Z.of_nat (String.length (String c text))) max) as [_|Hle]; [|lia].
  unfold Str.slice0.
  destruct (Z.ltb_spec max 0) as [Hneg|_]; [lia|].
  rewrite Z.min_l by lia.
  split; [reflexivity|].
  rewrite string_length_app, substring_0_length by lia.
  simpl String.length. lia.
Qed.

Lemma truncate_short (text : string) (max : Z) :
  Z.of_nat (String.length text) <= max -> truncate text max = text.
Proof.
  intros Hlen. unfold truncate.
  destruct text as [|c text]; [reflexivity|].
  cbn [Str.is_empty].
  destruct (Z.gtb_spec (Z.of_nat (String.length (String c text))) max) as [Hgt|_];
    [lia | reflexivity].
Qed.

(** ** The event stream *)

Lemma new_ReadableStream_start (finalContent : string) :
  new_ReadableStream (start finalContent) = Fulfilled (sse finalContent).
Proof.
  unfold new_ReadableStream, start, sse, frames_of, bind, ret,
    controller_enqueue, controller_close.
  destruct (Str.is_empty finalContent); reflexivity.
Qed.

Lemma append_assoc (a b c : string) : (a ++ b) ++ c = a ++ (b ++ c).
Proof.
  induction a as [|x a IH]; simpl; [reflexivity | now rewrite IH].
Qed.

Lemma data_frame_text (finalContent : string) :
  data_frame finalContent
  = FRAME_PREFIX ++ Json.quote_body finalContent ++ FRAME_SUFFIX.
Proof.
  unfold data_frame. cbn. rewrite !append_assoc. reflexivity.
Qed.

(** The text between the quotes of a JSON string literal reads back as the
    string that was quoted. *)
Lemma unquote_quote_body (s rest : string) :
  Json.unquote_body (Json.quote_body s ++ String "034"%char rest) = Some (s, rest).
Proof.
  induction s as [|c s IH]; [reflexivity|].
  destruct c as [[] [] [] [] [] [] [] []]; cbn; rewrite IH; reflexivity.
Qed.

(** ** Runs of the gateway and of the adapter *)

(** From here on [++] is the append of lists again. *)
Open Scope list_scope.

Section Runs.

Variable w : World.
Variable client : SerperClient.



(** [search] makes exactly one call; when that call failed it throws. *)
Lemma search_run (q : string) (n : Z) (t : trace) :
  exists out,
    search w client q n t = (out, (t ++ [SearchCall (search_request client q n)])%list)
    /\ (call_failed w t (SearchCall (search_request client q n)) = true ->
        exists e, out = Rejected e).
Proof.
  unfold search, bind, fetch_serper, call_failed.
  destruct (serper_api w t (search_request client q n)) as [res|e].
  - destruct (res_ok res); cbn [negb].
    + unfold await. destruct (res_json res) as [[data|]|e]; cbn;
        eexists; (split; [reflexivity | discriminate]).
    + cbn. eexists; split; [reflexivity | eauto].
  - eexists; split; [reflexivity | eauto].
Qed.

Lemma runWebSearch_run (q : string) (maxResults : Z) (t : trace) :
  exists out,
    runWebSearch w client q maxResults t
    = (out, (t ++ [SearchCall (search_request client q (limit_of maxResults))])%list)
    /\ (call_failed w t (SearchCall (search_request client q (limit_of maxResults))) = true ->
        exists e, out = Rejected e)
    /\ (forall result, out = Fulfilled result -> r_query result = q).
Proof.
  unfold runWebSearch, bind.
  destruct (search_run q (limit_of maxResults) t) as (out & Hrun & Hfail).
  rewrite Hrun. destruct out as [results|e]; cbn.
  - eexists; split; [reflexivity|]. split.
    + intros H. destruct (Hfail H) as [e He]. discriminate.
    + intros result [= <-]. reflexivity.
  - eexists; split; [reflexivity|]. split; [eauto | discriminate].
Qed.

(** ** Runs of [callLocalChat] *)

Lemma callLocalChat_trace (p : ChatPayload) (t : trace) :
  snd (callLocalChat w p t) = t ++ [ChatCall p].
Proof.
  unfold callLocalChat, bind, fetch_chat.
  destruct (chat_backend w t p) as [res|e]; [|reflexivity].
  destruct (res_ok res); reflexivity.
Qed.

Lemma callLocalChat_ok (p : ChatPayload) (t : trace)
    (res : FetchResponse (option ChatCompletion)) :
  chat_backend w t p = Fulfilled res -> res_ok res = true ->
  callLocalChat w p t = (Fulfilled (catch_with (res_json res) None), t ++ [ChatCall p]).
Proof.
  intros Hres Hok. unfold callLocalChat, bind, fetch_chat.
  rewrite Hres, Hok. reflexivity.
Qed.

Lemma callLocalChat_failed (p : ChatPayload) (t : trace) :
  call_failed w t (ChatCall p) = true ->
  exists e, callLocalChat w p t = (Rejected e, t ++ [ChatCall p]).
Proof.
  unfold call_failed, callLocalChat, bind, fetch_chat.
  destruct (chat_backend w t p) as [res|e]; [|eauto].
  destruct (res_ok res); [discriminate|]. cbn. intros _. eexists. reflexivity.
Qed.


(** ** The tool loop *)

(** One round on an accepted request runs the adapter with the query and
    [max_results ?? 3], and pushes the message of its result. *)
Lemma tool_call_step_accepted (toolCall : option ToolCall) (tc : ToolCall)
    (q : string) (mr : option Z) (acc : list ToolMessage) :
  accepted_call w toolCall = Some (tc, q, mr) ->
  tool_call_step w client toolCall acc
  = (result <- runWebSearch w client q (mr ?? 3) ;;
     ret (acc ++ [tool_message tc result])).
Proof.
  unfold accepted_call, tool_call_step, raw_arguments.
  destruct toolCall as [tc'|]; [|discriminate].
  destruct (String.eqb (tc_type tc') "function"); cbn [andb negb]; [|discriminate].
  destruct (tc_function tc') as [f|]; cbn [option_map is_web_search opt_chain];
    [|discriminate].
  destruct (String.eqb_spec (fn_name f) "web_search") as [Hname|]; [|discriminate].
  destruct (JSON_parse w (fn_arguments f ?? "{}"%string)) as [| |args]; try discriminate.
  destruct (query args) as [q'|]; [|discriminate].
  destruct (Str.is_empty q'); [discriminate|].
  intros [= <- <- <-]. unfold tool_message. cbn [nullish]. rewrite Hname. reflexivity.
Qed.

(** Any other request pushes nothing and calls nothing: it is skipped, or
    (a web_search request whose payload is the JSON text [null]) the read
    of its query throws. *)
Lemma tool_call_step_other (toolCall : option ToolCall) (acc : list ToolMessage)
    (t : trace) :
  accepted_call w toolCall = None ->
  tool_call_step w client toolCall acc t = (Fulfilled acc, t)
  \/ exists e, tool_call_step w client toolCall acc t = (Rejected e, t).
Proof.
  unfold accepted_call, tool_call_step, raw_arguments.
  destruct toolCall as [tc|]; [|now left].
  destruct (String.eqb (tc_type tc) "function"); cbn [andb negb]; [|now left].
  destruct (is_web_search (option_map fn_name (tc_function tc))); [|now left].
  destruct (JSON_parse w (opt_chain (tc_function tc) fn_arguments ?? "{}"%string))
    as [| |args].
  - now left.
  - right. eexists. reflexivity.
  - destruct (query args) as [q|]; [|now left].
    destruct (Str.is_empty q); [now left | discriminate].
Qed.

(** What a run of the loop leaves: the search calls of the accepted
    requests, in order, up to the point it reached.  When it completes,
    every call succeeded and the messages pushed are the results of the
    accepted requests, one for one.  When it throws, every call but
    possibly the last one succeeded. *)
Lemma run_tool_calls_run (toolCalls : list (option ToolCall)) :
  forall (acc : list ToolMessage) (t : trace),
  exists out calls more,
    run_tool_calls w client toolCalls acc t = (out, t ++ calls)
    /\ expected_calls w client toolCalls = calls ++ more
    /\ match out with
       | Fulfilled tms =>
           more = [] /\ all_succeeded w t calls
           /\ exists pushed, tms = acc ++ pushed
                /\ Forall2 (result_for w) (filter (accepted w) toolCalls) pushed
       | Rejected _ =>
           exists pre rest, calls = pre ++ rest /\ (List.length rest <= 1)%nat
                            /\ all_succeeded w t pre
       end.
Proof.
  unfold expected_calls.
  induction toolCalls as [|toolCall rest IH]; intros acc t.
  - exists (Fulfilled acc), [], []. cbn. rewrite !app_nil_r.
    repeat split; auto. exists []. rewrite app_nil_r. split; [reflexivity | constructor].
  - cbn [run_tool_calls flat_map filter].
    unfold accepted at 1, search_call_of at 1, bind.
    destruct (accepted_call w toolCall) as [[[tc q] mr]|] eqn:Hacc.
    + rewrite (tool_call_step_accepted _ acc Hacc). unfold bind.
      destruct (runWebSearch_run q (mr ?? 3) t) as (out1 & Hrun & Hfail & Hquery).
      rewrite Hrun. set (c := SearchCall (search_request client q (limit_of (mr ?? 3)))) in *.
      destruct out1 as [result|e].
      * cbn [ret].
        destruct (IH (acc ++ [tool_message tc result]) (t ++ [c]))
          as (out & calls & more & Hloop & Hexp & Hout).
        exists out, (c :: calls), more. rewrite Hloop, <- app_assoc.
        split; [reflexivity|]. split; [cbn; now rewrite Hexp|].
        assert (Hc : call_failed w t c = false).
        { destruct (call_failed w t c); [|reflexivity].
          destruct (Hfail eq_refl) as [e He]. discriminate. }
        destruct out as [tms|e].
        -- destruct Hout as (Hmore & Hall & pushed & Htms & Hres).
           split; [assumption|]. split; [cbn; auto|].
           exists (tool_message tc result :: pushed).
           split; [now rewrite Htms, <- app_assoc|].
           constructor; [|assumption].
           unfold result_for. rewrite Hacc. exists result. auto.
        -- destruct Hout as (pre & last & Hcalls & Hlen & Hall).
           exists (c :: pre), last. rewrite Hcalls. repeat split; cbn; auto.
      * exists (Rejected e), [c], (flat_map (search_call_of w client) rest).
        split; [reflexivity|]. split; [reflexivity|].
        exists [], [c]. repeat split; cbn; auto.
    + destruct (tool_call_step_other toolCall acc t Hacc) as [Hstep|[e Hstep]];
        rewrite Hstep.
      * destruct (IH acc t) as (out & calls & more & Hloop & Hexp & Hout).
        exists out, calls, more. cbn [app]. auto.
      * exists (Rejected e), [], (flat_map (search_call_of w client) rest). rewrite app_nil_r.
        split; [reflexivity|]. split; [reflexivity|].
        exists [], []. repeat split; cbn; auto.
Qed.

(** ** Runs of the handler *)

(** The route, call by call. *)
Lemma final_content_eq (model : string) (messages : list UpstreamMessage) (t : trace) :
  final_content w client model messages t
  = match callLocalChat w (firstPayload model messages) t with
    | (Rejected e, t1) => (Rejected e, t1)
    | (Fulfilled first, t1) =>
        match toolCalls_of first with
        | [] => (Fulfilled (answer_of first), t1)
        | toolCalls =>
            match run_tool_calls w client toolCalls [] t1 with
            | (Rejected e, t2) => (Rejected e, t2)
            | (Fulfilled toolMessages, t2) =>
                match callLocalChat w (secondPayload model messages toolMessages) t2 with
                | (Rejected e, t3) => (Rejected e, t3)
                | (Fulfilled second, t3) => (Fulfilled (answer_of second), t3)
                end
            end
        end
    end.
Proof.
  unfold final_content, bind, toolCalls_of, answer_of.
  destruct (callLocalChat w (firstPayload model messages) t) as [[first|e] t1];
    [|reflexivity].
  destruct (am_tool_calls (message_of first) ?? []) as [|tc tcs]; [reflexivity|].
  destruct (run_tool_calls w client (tc :: tcs) [] t1) as [[toolMessages|e] t2];
    [|reflexivity].
  destruct (callLocalChat w (secondPayload model messages toolMessages) t2)
    as [[second|e] t3]; reflexivity.
Qed.

Lemma POST_eq (request_json : settled (option RequestBody)) (t : trace) :
  POST w client request_json t
  = match final_content w client (model_of request_json) (messages_of request_json) t with
    | (Fulfilled finalContent, t') => (Fulfilled (stream_response (sse finalContent)), t')
    | (Rejected _, t') => (Fulfilled error_response, t')
    end.
Proof.
  unfold POST, try_catch, bind, model_of, messages_of.
  destruct (final_content w client _ _ t) as [[finalContent|e] t']; [|reflexivity].
  rewrite new_ReadableStream_start. reflexivity.
Qed.

(** The handler always answers: it never throws. *)
Lemma POST_total (request_json : settled (option RequestBody)) (t : trace) :
  exists response t', POST w client request_json t = (Fulfilled response, t').
Proof.
  rewrite POST_eq.
  destruct (final_content w client _ _ t) as [[finalContent|e] t']; eauto.
Qed.


End Runs.

(** ** Consequences for the loop and the handler *)

Lemma system_messages_differ : SECOND_SYSTEM_MESSAGE <> SYSTEM_MESSAGE.
Proof.
  intros H. apply (f_equal (fun m => match content m with
                                     | Text s => String.length s
                                     | Parts _ => 0%nat
                                     end)) in H.
  vm_compute in H. discriminate.
Qed.

Lemma expected_calls_are_searches (w : World) (client : SerperClient)
    (toolCalls : list (option ToolCall)) (c : call) :
  In c (expected_calls w client toolCalls) -> is_search_call c = true.
Proof.
  unfold expected_calls. rewrite in_flat_map. intros (toolCall & _ & Hin).
  unfold search_call_of in Hin.
  destruct (accepted_call w toolCall) as [[[tc q] mr]|]; [|contradiction].
  destruct Hin as [<-|[]]. reflexivity.
Qed.

(** The calls of a turn: the phase-1 call, then search calls, then at most
    the phase-2 call, made when the loop has completed. *)
Lemma POST_calls_shape (w : World) (client : SerperClient)
    (request_json : settled (option RequestBody)) :
  let model := model_of request_json in
  let messages := messages_of request_json in
  let p1 := firstPayload model messages in
  exists searches rest,
    snd (POST w client request_json []) = ChatCall p1 :: searches ++ rest
    /\ (forall c, In c searches -> is_search_call c = true)
    /\ (rest = []
        \/ exists toolMessages,
             run_tool_calls w client (toolCalls_of_turn w model messages) [] [ChatCall p1]
             = (Fulfilled toolMessages, ChatCall p1 :: searches)
             /\ rest = [ChatCall (secondPayload model messages toolMessages)]).
Proof.
  intros model messages p1.
  rewrite POST_eq, final_content_eq. unfold toolCalls_of_turn. fold model messages p1.
  pose proof (callLocalChat_trace w p1 []) as Htrace1.
  destruct (callLocalChat w p1 []) as [[first|e] t1]; cbn [fst snd app] in *; subst t1.
  - destruct (toolCalls_of first) as [|tc tcs] eqn:Hcalls.
    + exists [], []. cbn. auto.
    + destruct (run_tool_calls_run w client (tc :: tcs) [] [ChatCall p1])
        as (out & calls & more & Hloop & Hexp & Hout).
      assert (Hsearch : forall c, In c calls -> is_search_call c = true).
      { intros c Hin. apply (expected_calls_are_searches w client (tc :: tcs)).
        rewrite Hexp. apply in_or_app. now left. }
      rewrite Hloop. destruct out as [tms|e].
      * pose proof (callLocalChat_trace w (secondPayload model messages tms)
                      ([ChatCall p1] ++ calls)) as Htrace2.
        exists calls, [ChatCall (secondPayload model messages tms)].
        split; [|split; [assumption | right; exists tms; cbn; auto]].
        destruct (callLocalChat w (secondPayload model messages tms)
                    ([ChatCall p1] ++ calls)) as [[second|e] t3]; exact Htrace2.
      * exists calls, []. rewrite app_nil_r. cbn. auto.
  - exists [], []. cbn. auto.
Qed.

(** Every call of a turn but the first comes after tool-call requests. *)
Lemma POST_calls_without_requests (w : World) (client : SerperClient)
    (request_json : settled (option RequestBody)) :
  toolCalls_of_turn w (model_of request_json) (messages_of request_json) = [] ->
  snd (POST w client request_json [])
  = [ChatCall (firstPayload (model_of request_json) (messages_of request_json))].
Proof.
  unfold toolCalls_of_turn. intros Hcalls.
  rewrite POST_eq, final_content_eq.
  set (p1 := firstPayload _ _) in *.
  pose proof (callLocalChat_trace w p1 []) as Htrace.
  destruct (callLocalChat w p1 []) as [[first|e] t1]; cbn [fst snd] in *.
  - rewrite Hcalls. exact Htrace.
  - exact Htrace.
Qed.


(** The loop completes when every search is answered with data and no
    request that is read carries the JSON text [null]. *)
Lemma run_tool_calls_completes (w : World) (client : SerperClient)
    (toolCalls : list (option ToolCall)) :
  (forall t request, exists res data,
      serper_api w t request = Fulfilled res /\ res_ok res = true
      /\ res_json res = Fulfilled (Some data)) ->
  (forall tc, In (Some tc) toolCalls -> reads_arguments tc = true ->
              JSON_parse w (raw_arguments tc) <> ParsedNull) ->
  forall acc t, exists toolMessages calls,
    run_tool_calls w client toolCalls acc t = (Fulfilled toolMessages, calls).
Proof.
  intros Hserper. induction toolCalls as [|toolCall rest IH]; intros Hnull acc t.
  - cbn. unfold ret. eauto.
  - cbn [run_tool_calls]. unfold bind.
    assert (Hstep : exists pushed t1,
               tool_call_step w client toolCall acc t = (Fulfilled pushed, t1)).
    { destruct (accepted_call w toolCall) as [[[tc q] mr]|] eqn:Hacc.
      - rewrite (tool_call_step_accepted w client _ acc Hacc).
        cbv beta zeta delta [bind runWebSearch search fetch_serper].
        destruct (Hserper t (search_request client q (limit_of (mr ?? 3))))
          as (res & data & -> & Hok & Hjson).
        rewrite Hok, Hjson. cbn. unfold ret. eauto.
      - destruct toolCall as [tc|]; [|cbn; unfold ret; eauto].
        specialize (Hnull tc (or_introl eq_refl)).
        unfold accepted_call, reads_arguments, raw_arguments in *.
        unfold tool_call_step, ret.
        destruct (String.eqb (tc_type tc) "function"); cbn [negb andb] in *; [|eauto].
        destruct (is_web_search (option_map fn_name (tc_function tc))); [|eauto].
        destruct (JSON_parse w (opt_chain (tc_function tc) fn_arguments ?? "{}"%string))
          as [| |args]; [cbn; eauto | destruct (Hnull eq_refl eq_refl) |].
        destruct (query args) as [q|]; [|eauto].
        destruct (Str.is_empty q); [eauto | discriminate]. }
    destruct Hstep as (pushed & t1 & ->).
    apply IH. intros tc Hin. apply Hnull. now right.
Qed.

Lemma limit_of_bounds (maxResults : Z) : 1 <= limit_of maxResults <= 5.
Proof. unfold limit_of, SERPER_MAX_RESULTS. lia. Qed.


(** The snippet goes through the gateway and the adapter as it is. *)
Lemma enrich_normalize_snippet (item : SearchItem) :
  snippet (enrich (normalize item))
  = match it_snippet item with
    | Some s => s
    | None => it_description item ?? ""
    end.
Proof. destruct item as [t l u [s|] [d|]]; reflexivity. Qed.

(** What [runWebSearch] emits, for every provider: the first items of the
    list, each with the snippet the provider gave. *)
Lemma runWebSearch_snippets (w : World) (client : SerperClient) (q : string)
    (maxResults : Z) (t calls : trace) (result : WebSearchResult) :
  runWebSearch w client q maxResults t = (Fulfilled result, calls) ->
  exists res data,
    serper_api w t (search_request client q (limit_of maxResults)) = Fulfilled res
    /\ res_json res = Fulfilled (Some data)
    /\ List.map snippet (r_results result)
       = List.map (fun item => match it_snippet item with
                               | Some s => s
                               | None => it_description item ?? ""
                               end)
           (Str.list_slice0 (organic data ?? []) (limit_of maxResults)).
Proof.
  cbv beta zeta delta [runWebSearch search bind fetch_serper].
  destruct (serper_api w t _) as [res|e] eqn:Hres; [|discriminate].
  destruct (res_ok res); cbn [negb]; [|discriminate].
  unfold await. destruct (res_json res) as [[data|]|e] eqn:Hjson; cbn; try discriminate.
  intros [= <- <-]. exists res, data. split; [reflexivity|]. split; [exact Hjson|].
  cbn [r_results]. rewrite !map_map. apply map_ext. intros item.
  apply enrich_normalize_snippet.
Qed.

(** The two instructions have the lengths of the template literals of the
    source, in code units. *)
Example prompt_lengths :
  String.length SYSTEM_PROMPT = 1430%nat /\ String.length SECOND_SYSTEM_PROMPT = 583%nat.
Proof. split; vm_compute; reflexivity. Qed.

Example new_SerperClient_scenario :
  new_SerperClient Scenario.env = Fulfilled Scenario.client.
Proof. reflexivity. Qed.

(* ===================================================================== *)
(** * The claims *)
(* ===================================================================== *)

(** ** C1: the snippets of a search result *)

(** C1, on the code.  The provider gives a snippet of 601 characters, one
    more than the budget of 600.  [runWebSearch] emits all 601 of them;
    the first 600 followed by three dots, which [truncate] would give, are
    not what it emits. *)
Theorem C1_long_snippet_emitted_whole :
  String.length long_snippet = 601%nat
  /\ SEARCH_MAX_CHARS Scenario.env = 600%Z
  /\ (exists result calls,
        runWebSearch scenario_long Scenario.client "long" 3 [] = (Fulfilled result, calls)
        /\ List.map snippet (r_results result) = [long_snippet])
  /\ truncate long_snippet (SEARCH_MAX_CHARS Scenario.env)
     = (replicate 600 "x" ++ "...")%string
  /\ long_snippet <> truncate long_snippet (SEARCH_MAX_CHARS Scenario.env).
Proof.
  split; [reflexivity|]. split; [reflexivity|]. split.
  - do 2 eexists. split; [reflexivity|]. reflexivity.
  - split; [vm_compute; reflexivity|].
    intros H. apply (f_equal String.length) in H. vm_compute in H. discriminate H.
Qed.

(** ** C2: when phase 2 is called *)

(** In scenario C no tool is executed and phase 2 is called all the same:
    its payload carries no tool result. *)
Lemma C2_counterexample :
  ~ phase_two_only_after_a_tool_ran (snd (POST scenario_C Scenario.client request_C [])).
Proof.
  intros Hclaim.
  apply (Hclaim (secondPayload DEFAULT_MODEL
                   [Scenario.user_says "weather in Lisbon today?"] [])).
  - right. left. reflexivity.
  - reflexivity.
  - reflexivity.
Qed.

(** C2, amended.  Phase 2 is called only when the phase-1 response holds
    at least one tool-call request, whether or not a tool was executed for
    it.  When the phase-1 response holds none, its content is the answer
    and the phase-1 call is the only call of the turn. *)
Theorem C2_phase_two_follows_tool_call_requests
    (w : World) (client : SerperClient) (request_json : settled (option RequestBody)) :
  let model := model_of request_json in
  let messages := messages_of request_json in
  let p1 := firstPayload model messages in
  (forall p, In (ChatCall p) (snd (POST w client request_json [])) ->
             is_phase_two p = true ->
             toolCalls_of_turn w model messages <> [])
  /\ (forall first,
        callLocalChat w p1 [] = (Fulfilled first, [ChatCall p1]) ->
        toolCalls_of first = [] ->
        POST w client request_json []
        = (Fulfilled (stream_response (sse (answer_of first))), [ChatCall p1])).
Proof.
  intros model messages p1. split.
  - intros p Hin Hp2 Hnone.
    rewrite (POST_calls_without_requests w client request_json Hnone) in Hin.
    destruct Hin as [[= <-]|[]]. discriminate.
  - intros first Hfirst Hnone.
    rewrite POST_eq, final_content_eq. fold model messages p1.
    rewrite Hfirst, Hnone. reflexivity.
Qed.

(** ** C3: tool calls whose arguments do not decode *)



Example scenario_C_run :
  POST scenario_C Scenario.client request_C []
  = (Fulfilled (stream_response (sse "I could not search the web.")),
     [ ChatCall (firstPayload DEFAULT_MODEL [Scenario.user_says "weather in Lisbon today?"]);
       ChatCall (secondPayload DEFAULT_MODEL
                   [Scenario.user_says "weather in Lisbon today?"] []) ]).
Proof. reflexivity. Qed.

(** ** C4: the results of the tool loop *)

(** When the loop completes, the messages it leaves are the results of
    the accepted requests, one for each and in their order: the message of
    a request carries its id, the tool name, and the JSON text of a search
    result for its query.  No other request has a message, so the messages
    are never more than the requests; and the searches made are those of
    the accepted requests. *)
Lemma completed_loop_results
    (w : World) (client : SerperClient) (toolCalls : list (option ToolCall))
    (toolMessages : list ToolMessage) (t calls : trace) :
  run_tool_calls w client toolCalls [] t = (Fulfilled toolMessages, calls) ->
  Forall2 (result_for w) (filter (accepted w) toolCalls) toolMessages
  /\ (List.length toolMessages <= List.length toolCalls)%nat
  /\ calls = t ++ expected_calls w client toolCalls.
Proof.
  intros Hrun.
  destruct (run_tool_calls_run w client toolCalls [] t)
    as (out & made & more & Hloop & Hexp & Hout).
  rewrite Hrun in Hloop. injection Hloop as <- ->.
  destruct Hout as (-> & _ & pushed & -> & Hres).
  cbn [app]. rewrite app_nil_r in Hexp. split; [exact Hres|]. split.
  - rewrite <- (Forall2_length Hres). apply filter_length_le.
  - now rewrite Hexp.
Qed.

Example toolMessages_mixed_ids :
  List.map tm_tool_call_id toolMessages_mixed = ["call_2"%string]
  /\ filter (accepted scenario_B) toolCalls_mixed
     = [Scenario.web_search_call "call_2" Scenario.ARGS_LISBON].
Proof. split; vm_compute; reflexivity. Qed.

(** C4.  The loop does not leave a result for each accepted request of
    every list.  Phase 1 asks for three searches, the second with the JSON
    text [null] as its arguments, and the provider answers every search.
    In the words of the claim the first and the third request are accepted
    and the second is dropped.  The code decodes [null] without an error,
    so its fallback for arguments that do not decode is not taken, and the
    read of the query of [null] throws: the loop ends after the first
    search with no sequence of results, the third request has no result,
    and the turn is answered with the error response. *)
Theorem C4_null_arguments_leave_no_results :
  let p1 := firstPayload DEFAULT_MODEL messages_B in
  let search1 := SearchCall (search_request Scenario.client "weather Lisbon today" 3) in
  filter (accepted scenario_null) toolCalls_null
  = [ Scenario.web_search_call "call_1" Scenario.ARGS_LISBON;
      Scenario.web_search_call "call_3" Scenario.ARGS_NINE ]
  /\ toolCalls_of_turn scenario_null DEFAULT_MODEL messages_B = toolCalls_null
  /\ run_tool_calls scenario_null Scenario.client toolCalls_null [] [ChatCall p1]
     = (Rejected (TypeError "Cannot read properties of null (reading 'query')"),
        [ChatCall p1; search1])
  /\ ~ leaves_the_accepted_results scenario_null Scenario.client toolCalls_null
        [ChatCall p1]
  /\ POST scenario_null Scenario.client request_B []
     = (Fulfilled error_response, [ChatCall p1; search1]).
Proof.
  intros p1 search1.
  assert (Hrun : run_tool_calls scenario_null Scenario.client toolCalls_null []
                   [ChatCall p1]
                 = (Rejected (TypeError "Cannot read properties of null (reading 'query')"),
                    [ChatCall p1; search1]))
    by (vm_compute; reflexivity).
  split; [vm_compute; reflexivity|]. split; [vm_compute; reflexivity|].
  split; [exact Hrun|]. split.
  - intros (toolMessages & calls & Hloop & _). rewrite Hrun in Hloop. discriminate.
  - vm_compute. reflexivity.
Qed.

(** ** C5: no tool call requested *)

(** C5.  When the phase-1 response carries no tool-call request (the
    [tool_calls] field is missing, is not an array, or is empty), the turn
    makes the phase-1 call and no other (the search gateway is never
    called), and the answer streamed back is the content of the phase-1
    message as it stands (the empty text for a null content). *)
Theorem C5_direct_answer_without_search
    (w : World) (client : SerperClient) (request_json : settled (option RequestBody))
    (res : FetchResponse (option ChatCompletion)) (m : AssistantMessage) :
  let p1 := firstPayload (model_of request_json) (messages_of request_json) in
  chat_backend w [] p1 = Fulfilled res ->
  res_ok res = true ->
  message_of (catch_with (res_json res) None) = m ->
  am_tool_calls m ?? [] = [] ->
  exists calls,
    POST w client request_json []
    = (Fulfilled (stream_response (sse (am_content m ?? ""%string))), calls)
    /\ calls = [ChatCall p1]
    /\ (forall request, ~ In (SearchCall request) calls)
    /\ (forall s, am_content m = Some s -> am_content m ?? ""%string = s).
Proof.
  intros p1 Hres Hok Hm Hcalls.
  exists [ChatCall p1].
  rewrite POST_eq, final_content_eq.
  fold p1. rewrite (callLocalChat_ok w p1 [] Hres Hok).
  unfold toolCalls_of, answer_of. rewrite Hm, Hcalls. cbn [app].
  split; [reflexivity|]. split; [reflexivity|]. split.
  - intros request [H|[]]. discriminate.
  - intros s ->. reflexivity.
Qed.

(** The theorem on scenario A. *)
Lemma C5_direct_answer_without_search_witness :
  exists calls,
    POST scenario_A Scenario.client request_A []
    = (Fulfilled (stream_response (sse "Paris.")), calls)
    /\ calls = [ChatCall (firstPayload DEFAULT_MODEL [Scenario.user_says "capital of France?"])]
    /\ (forall request, ~ In (SearchCall request) calls)
    /\ (forall s, Some "Paris."%string = Some s -> "Paris."%string = s).
Proof.
  apply (@C5_direct_answer_without_search scenario_A Scenario.client request_A
           (Scenario.ok_response (Scenario.completion (Scenario.says "Paris.")))
           (Scenario.says "Paris."));
    reflexivity.
Defined.

(** ** C6: the messages of phase 2 *)

(** C6.  The messages of a phase-2 call are the phase-2 instruction, then
    the conversation of the client as it came, then the results of the tool
    loop in the order it pushed them, and nothing else: the assistant
    message of phase 1 is not among them.  The instruction at the head is
    not the phase-1 instruction, and the phase-1 instruction is nowhere in
    the sequence unless the client itself sent it. *)
Theorem C6_phase_two_message_sequence
    (w : World) (client : SerperClient) (request_json : settled (option RequestBody))
    (p : ChatPayload) :
  let model := model_of request_json in
  let messages := messages_of request_json in
  let p1 := firstPayload model messages in
  In (ChatCall p) (snd (POST w client request_json [])) ->
  is_phase_two p = true ->
  exists toolMessages calls,
    run_tool_calls w client (toolCalls_of_turn w model messages) [] [ChatCall p1]
    = (Fulfilled toolMessages, calls)
    /\ p_messages p
       = Plain SECOND_SYSTEM_MESSAGE :: List.map Plain messages
           ++ List.map ToolResult toolMessages
    /\ hd_error (p_messages p) <> Some (Plain SYSTEM_MESSAGE)
    /\ (In (Plain SYSTEM_MESSAGE) (p_messages p) -> In SYSTEM_MESSAGE messages)
    /\ List.length (p_messages p)
       = (1 + List.length messages + List.length toolMessages)%nat.
Proof.
  intros model messages p1 Hin Hp2.
  destruct (POST_calls_shape w client request_json)
    as (searches & rest & Hcalls & Hsearch & Hrest).
  fold model messages p1 in Hcalls, Hrest.
  rewrite Hcalls in Hin.
  destruct Hin as [[= <-]|Hin]; [discriminate|].
  apply in_app_or in Hin as [Hin|Hin];
    [apply Hsearch in Hin; discriminate|].
  destruct Hrest as [->|(toolMessages & Hloop & ->)]; [contradiction|].
  destruct Hin as [[= <-]|[]].
  exists toolMessages, (ChatCall p1 :: searches).
  split; [exact Hloop|]. split; [reflexivity|]. cbn [secondPayload p_messages hd_error].
  split; [|split].
  - intros H. apply system_messages_differ.
    exact (f_equal (fun o => match o with
                             | Some (Plain m) => m
                             | _ => SYSTEM_MESSAGE
                             end) H).
  - intros [H|H].
    { destruct system_messages_differ.
      exact (f_equal (fun m => match m with
                               | Plain m => m
                               | ToolResult _ => SYSTEM_MESSAGE
                               end) H). }
    apply in_app_or in H as [H|H].
    + apply in_map_iff in H as (m & [= ->] & Hm). exact Hm.
    + apply in_map_iff in H as (tm & Htm & _). discriminate.
  - cbn. now rewrite length_app, !length_map.
Qed.

Example scenario_B_run :
  POST scenario_B Scenario.client request_B []
  = (Fulfilled (stream_response (sse "Sunny, see https://example.test/1")),
     [ ChatCall (firstPayload DEFAULT_MODEL messages_B);
       SearchCall (search_request Scenario.client "weather Lisbon today" 3);
       ChatCall (secondPayload DEFAULT_MODEL messages_B toolMessages_B) ])
  /\ List.length toolMessages_B = 1%nat.
Proof. split; vm_compute; reflexivity. Qed.

(** In scenario B the adapter keeps the first three of the seven results. *)
Example scenario_B_results :
  exists result,
    fst (runWebSearch scenario_B Scenario.client "weather Lisbon today" 3 [])
    = Fulfilled result
    /\ List.map title (r_results result)
       = ["Result 1"; "Result 2"; "Result 3"]%string.
Proof. eexists. split; reflexivity. Qed.

(** The theorem on the phase-2 call of scenario B. *)
Lemma C6_phase_two_message_sequence_witness :
  let p := secondPayload DEFAULT_MODEL messages_B toolMessages_B in
  exists toolMessages calls,
    run_tool_calls scenario_B Scenario.client
      (toolCalls_of_turn scenario_B DEFAULT_MODEL messages_B) []
      [ChatCall (firstPayload DEFAULT_MODEL messages_B)]
    = (Fulfilled toolMessages, calls)
    /\ p_messages p
       = Plain SECOND_SYSTEM_MESSAGE :: List.map Plain messages_B
           ++ List.map ToolResult toolMessages
    /\ hd_error (p_messages p) <> Some (Plain SYSTEM_MESSAGE)
    /\ (In (Plain SYSTEM_MESSAGE) (p_messages p) -> In SYSTEM_MESSAGE messages_B)
    /\ List.length (p_messages p)
       = (1 + List.length messages_B + List.length toolMessages)%nat.
Proof.
  apply (C6_phase_two_message_sequence scenario_B Scenario.client request_B
           (secondPayload DEFAULT_MODEL messages_B toolMessages_B)).
  - vm_compute. right. right. left. reflexivity.
  - reflexivity.
Defined.

(** ** C7: the frames of the event stream *)

(** In this part [++] is the append of strings. *)
Open Scope string_scope.

(** C7.  For every answer text the encoder leaves a closed stream.  Its
    chunks are, for a text that is not empty, one data frame and then the
    sentinel frame, and for the empty text the sentinel frame alone.  The
    data frame is the text [data: ], the JSON object with the whole answer
    as the content of the delta of its one choice, and an empty line; read
    as JSON the content is the answer again.  Nothing can be queued on the
    stream any more. *)
Theorem C7_one_data_frame_then_done (finalContent : string) :
  exists stream,
    new_ReadableStream (start finalContent) = Fulfilled stream
    /\ queue stream
       = ((if Str.is_empty finalContent then [] else [encode (data_frame finalContent)])
            ++ [encode ("data: [DONE]" ++ Str.LF ++ Str.LF)])%list
    /\ data_frame finalContent
       = FRAME_PREFIX ++ Json.quote_body finalContent ++ FRAME_SUFFIX
    /\ Json.unquote_body (Json.quote_body finalContent ++ FRAME_SUFFIX)
       = Some (finalContent, "}}]}" ++ Str.LF ++ Str.LF)
    /\ closed stream = true
    /\ (forall chunk, exists e, controller_enqueue chunk stream = (Rejected e, stream))
    /\ (exists e, controller_close stream = (Rejected e, stream)).
Proof.
  exists (sse finalContent).
  split; [apply new_ReadableStream_start|].
  split; [reflexivity|].
  split; [apply data_frame_text|].
  split; [apply unquote_quote_body|].
  split; [reflexivity|].
  split.
  - intros chunk. unfold controller_enqueue. cbn. eexists. reflexivity.
  - unfold controller_close. cbn. eexists. reflexivity.
Qed.

(** The two streams of scenario A and of an empty answer, byte for byte. *)
Example frames_of_Paris :
  List.map (fun chunk => string_of_list_ascii (List.map ascii_of_byte chunk))
    (queue (sse "Paris."))
  = [ "data: {" ++ Str.DQUOTE ++ "choices" ++ Str.DQUOTE ++ ":[{" ++ Str.DQUOTE ++ "delta"
        ++ Str.DQUOTE ++ ":{" ++ Str.DQUOTE ++ "content" ++ Str.DQUOTE ++ ":" ++ Str.DQUOTE
        ++ "Paris." ++ Str.DQUOTE ++ "}}]}" ++ Str.LF ++ Str.LF;
      "data: [DONE]" ++ Str.LF ++ Str.LF ]
  /\ queue (sse "") = [encode ("data: [DONE]" ++ Str.LF ++ Str.LF)].
Proof. split; reflexivity. Qed.

(** ** C8: the number of results asked for *)

(** [++] is the append of lists again. *)
Open Scope list_scope.



(** The same on the three payloads of the specification: no
    [max_results], nine, and zero. *)
Example search_numbers :
  List.map (fun arguments =>
              snd (tool_call_step scenario_B Scenario.client
                     (Scenario.web_search_call "call" arguments) [] []))
    [Scenario.ARGS_LISBON; Scenario.ARGS_NINE; Scenario.ARGS_ZERO]
  = [ [SearchCall (search_request Scenario.client "weather Lisbon today" 3)];
      [SearchCall (search_request Scenario.client "rocq release" 5)];
      [SearchCall (search_request Scenario.client "rocq release" 1)] ].
Proof. vm_compute. reflexivity. Qed.

(** ** C9: a failed upstream call *)



Example scenario_D_run :
  POST scenario_D Scenario.client request_B []
  = (Fulfilled error_response,
     [ ChatCall (firstPayload DEFAULT_MODEL messages_B);
       SearchCall (search_request Scenario.client "weather Lisbon today" 3) ]).
Proof. reflexivity. Qed.


(** ** C10: a request without messages *)

(** A body with a model and no messages is served with that model, not
    with the default one. *)
Lemma C10_counterexample :
  lacks_messages request_model_only = true
  /\ hd_error (snd (POST scenario_B Scenario.client request_model_only []))
     = Some (ChatCall (firstPayload "llama-3" []))
  /\ ~ proceeds_with_defaults scenario_B Scenario.client request_model_only.
Proof.
  split; [reflexivity|]. split; [reflexivity|].
  unfold proceeds_with_defaults. intros H.
  apply (f_equal (fun o => match o with
                           | Some (ChatCall p) => p_model p
                           | _ => ""%string
                           end)) in H.
  vm_compute in H. discriminate H.
Qed.

(** C10, amended.  A request whose body is not JSON, or has no [messages]
    field, is not turned away.  Phase 1 is called with the synthetic system
    message alone, and with the model the body names, or the default model
    when the body is not JSON or names none.  The response has status 200
    or 500, never a client-error status: it is the stream of the answer
    when the turn reaches an answer, as it does when phase 1 answers
    without tool calls, and the generic error otherwise. *)
Theorem C10_request_without_messages_is_served
    (w : World) (client : SerperClient) (request_json : settled (option RequestBody)) :
  lacks_messages request_json = true ->
  let model :=
    match request_json with
    | Fulfilled (Some body) => rb_model body ?? DEFAULT_MODEL
    | Fulfilled None | Rejected _ => DEFAULT_MODEL
    end in
  let p1 := firstPayload model [] in
  p_messages p1 = [Plain SYSTEM_MESSAGE]
  /\ p_model p1 = model
  /\ (exists response rest,
        POST w client request_json [] = (Fulfilled response, ChatCall p1 :: rest)
        /\ ((exists finalContent, response = stream_response (sse finalContent))
            \/ response = error_response)
        /\ (status response = 200%N \/ status response = 500%N))
  /\ (forall res,
        chat_backend w [] p1 = Fulfilled res -> res_ok res = true ->
        toolCalls_of (catch_with (res_json res) None) = [] ->
        POST w client request_json []
        = (Fulfilled (stream_response (sse (answer_of (catch_with (res_json res) None)))),
           [ChatCall p1])).
Proof.
  intros Hlacks model p1.
  assert (Hmessages : messages_of request_json = []).
  { unfold messages_of. destruct request_json as [[body|]|e]; cbn in *; try reflexivity.
    destruct (rb_messages body); [discriminate | reflexivity]. }
  assert (Hmodel : model_of request_json = model).
  { unfold model_of, model. destruct request_json as [[body|]|e]; reflexivity. }
  split; [reflexivity|]. split; [reflexivity|]. split.
  - destruct (POST_calls_shape w client request_json)
      as (searches & rest & Hcalls & _).
    rewrite Hmessages, Hmodel in Hcalls. fold p1 in Hcalls.
    rewrite POST_eq in Hcalls |- *.
    destruct (final_content w client _ _ []) as [[finalContent|e] calls];
      cbn [snd] in Hcalls; subst calls.
    + exists (stream_response (sse finalContent)), (searches ++ rest).
      split; [reflexivity|]. split; [left; eauto | left; reflexivity].
    + exists error_response, (searches ++ rest).
      split; [reflexivity|]. split; right; reflexivity.
  - intros res Hres Hok Hnone.
    rewrite POST_eq, final_content_eq, Hmessages, Hmodel. fold p1.
    rewrite (callLocalChat_ok w p1 [] Hres Hok), Hnone. reflexivity.
Qed.

(** The theorem on a body that is not JSON, against the backend of
    scenario A. *)
Lemma C10_request_without_messages_is_served_witness :
  let p1 := firstPayload DEFAULT_MODEL [] in
  p_messages p1 = [Plain SYSTEM_MESSAGE]
  /\ p_model p1 = DEFAULT_MODEL
  /\ (exists response rest,
        POST scenario_A Scenario.client request_not_json []
        = (Fulfilled response, ChatCall p1 :: rest)
        /\ ((exists finalContent, response = stream_response (sse finalContent))
            \/ response = error_response)
        /\ (status response = 200%N \/ status response = 500%N))
  /\ (forall res,
        chat_backend scenario_A [] p1 = Fulfilled res -> res_ok res = true ->
        toolCalls_of (catch_with (res_json res) None) = [] ->
        POST scenario_A Scenario.client request_not_json []
        = (Fulfilled (stream_response (sse (answer_of (catch_with (res_json res) None)))),
           [ChatCall p1])).
Proof.
  apply (@C10_request_without_messages_is_served scenario_A Scenario.client
           request_not_json).
  reflexivity.
Defined.

Example request_not_json_run :
  POST scenario_A Scenario.client request_not_json []
  = (Fulfilled (stream_response (sse "Paris.")), [ChatCall (firstPayload DEFAULT_MODEL [])]).
Proof. reflexivity. Qed.

(* ===================================================================== *)
(** * Further properties of the code *)
(* ===================================================================== *)

(** ** [truncate] *)

Lemma substring_0_app_exact (a b : string) :
  substring 0 (String.length a) (a ++ b)%string = a.
Proof.
  induction a as [|c a IH]; simpl.
  - destruct b; reflexivity.
  - now rewrite IH.
Qed.

Lemma truncate_long_shape (text : string) (max : Z) :
  0 <= max -> max < Z.of_nat (String.length text) ->
  truncate text max = (substring 0 (Z.to_nat max) text ++ "...")%string
  /\ String.length (substring 0 (Z.to_nat max) text) = Z.to_nat max.
Proof.
  intros Hmax Hlen. split.
  - apply truncate_long; assumption.
  - apply substring_0_length. lia.
Qed.

(** X1.  For a budget that is not negative, [truncate] gives at most
    [max + 3] characters, leaves the first [max] characters of the text as
    they are, and gives the same again when it is applied to its own
    result. *)
Theorem truncate_bounded_and_idempotent (text : string) (max : Z) :
  0 <= max ->
  Z.of_nat (String.length (truncate text max)) <= max + 3
  /\ substring 0 (Z.to_nat max) (truncate text max) = substring 0 (Z.to_nat max) text
  /\ truncate (truncate text max) max = truncate text max.
Proof.
  intros Hmax.
  destruct (Z_le_gt_dec (Z.of_nat (String.length text)) max) as [Hshort|Hlong].
  - rewrite !(@truncate_short text max Hshort).
    split; [lia|]. split; reflexivity.
  - destruct (@truncate_long_shape text max Hmax) as [Hcut Hkept]; [lia|].
    set (kept := substring 0 (Z.to_nat max) text) in *.
    assert (Hprefix : substring 0 (Z.to_nat max) (kept ++ "...")%string = kept).
    { rewrite <- Hkept at 1. apply substring_0_app_exact. }
    rewrite Hcut. split; [|split].
    + rewrite string_length_app, Hkept. simpl String.length. lia.
    + exact Hprefix.
    + destruct (@truncate_long_shape (kept ++ "...")%string max Hmax) as [Hagain _].
      { rewrite string_length_app, Hkept. simpl String.length. lia. }
      rewrite Hagain, Hprefix. reflexivity.
Qed.

Lemma truncate_bounded_and_idempotent_witness :
  Z.of_nat (String.length (truncate "a long snippet" 6)) <= 6 + 3
  /\ substring 0 (Z.to_nat 6) (truncate "a long snippet" 6)
     = substring 0 (Z.to_nat 6) "a long snippet"
  /\ truncate (truncate "a long snippet" 6) 6 = truncate "a long snippet" 6.
Proof.
  apply (@truncate_bounded_and_idempotent "a long snippet" 6). lia.
Defined.

(** With a negative budget the cut counts from the end of the text, and
    the bound of [max + 3] characters is lost. *)
Example truncate_negative_budget :
  truncate "abcdef" (-2) = "abcd..."%string.
Proof. reflexivity. Qed.

(** ** The constructor of [SerperClient] *)

Lemma drop_trailing_slash_empty (u : string) :
  Str.drop_trailing_slash u = ""%string <-> u = ""%string \/ u = "/"%string.
Proof.
  destruct u as [|c [|d rest]]; cbn.
  - split; [now left | reflexivity].
  - destruct (Ascii.eqb_spec c "/"%char) as [->|Hc].
    + split; [now right | reflexivity].
    + split; [discriminate|]. intros [H|H]; [discriminate | congruence].
  - split; [discriminate|]. intros [H|H]; discriminate.
Qed.

Lemma drop_trailing_slash_app (u : string) :
  Str.drop_trailing_slash (u ++ "/")%string = u.
Proof.
  induction u as [|c u IH]; [reflexivity|].
  cbn [append Str.drop_trailing_slash].
  destruct (u ++ "/")%string as [|d rest] eqn:Htail.
  - destruct u; discriminate.
  - now rewrite IH.
Qed.

(** X2.  The constructor succeeds exactly when the key is set and not
    empty and the address is set and is neither empty nor a lone slash; it
    then holds the key, the address less one trailing slash, and the
    timeout of the environment or 20.  Otherwise it throws, and a missing
    key is reported before a missing address. *)
Theorem new_SerperClient_succeeds_iff_configured (env : ProcessEnv) :
  let key := SERPER_API_KEY env ?? ""%string in
  let address := SERPER_BASE_URL env ?? ""%string in
  (key <> ""%string /\ address <> ""%string /\ address <> "/"%string ->
   new_SerperClient env
   = Fulfilled {| apiKey := key;
                  baseUrl := Str.drop_trailing_slash address;
                  timeout := SEARCH_TIMEOUT env ?? 20 |})
  /\ (key = ""%string ->
      new_SerperClient env
      = Rejected (Error (Str.of_utf8 "SERPER_API_KEY não configurado.")))
  /\ (key <> ""%string -> address = ""%string \/ address = "/"%string ->
      new_SerperClient env
      = Rejected (Error (Str.of_utf8 "SERPER_BASE_URL não configurado.")))
  /\ ((exists c, new_SerperClient env = Fulfilled c)
      <-> key <> ""%string /\ address <> ""%string /\ address <> "/"%string).
Proof.
  intros key address. unfold new_SerperClient. fold key address.
  pose proof (drop_trailing_slash_empty address) as Hslash.
  destruct key as [|k key'] eqn:Hkey; cbn [Str.is_empty].
  - split; [intros (H & _); congruence|]. split; [reflexivity|].
    split; [congruence|]. split; [intros [c H]; discriminate | intros (H & _); congruence].
  - destruct (Str.drop_trailing_slash address) as [|a rest] eqn:Haddress; cbn [Str.is_empty].
    + assert (Hbad : address = ""%string \/ address = "/"%string) by (apply Hslash; reflexivity).
      split; [intros (_ & H1 & H2); destruct Hbad; congruence|].
      split; [discriminate|]. split; [reflexivity|].
      split; [intros [c H]; discriminate|].
      intros (_ & H1 & H2). destruct Hbad; congruence.
    + assert (Hgood : address <> ""%string /\ address <> "/"%string).
      { split; intros H; assert (Hnil : String a rest = ""%string)
          by (apply Hslash; auto); discriminate. }
      split; [reflexivity|]. split; [discriminate|].
      split; [intros _ [H|H]; destruct Hgood; congruence|].
      split; [intros _; split; [discriminate | exact Hgood] | eauto].
Qed.

(** An address given with one more slash at its end makes the same
    client. *)
Lemma new_SerperClient_trailing_slash (key address : string) (seconds : option Z) :
  let env := fun u => {| SERPER_API_KEY := Some key;
                         SERPER_BASE_URL := Some u;
                         SEARCH_TIMEOUT := seconds;
                         SEARCH_MAX_RESULTS_env := None;
                         SEARCH_MAX_CHARS_env := None |} in
  Str.drop_trailing_slash address = address ->
  new_SerperClient (env (address ++ "/")%string) = new_SerperClient (env address).
Proof.
  intros env Hplain. unfold new_SerperClient, env. cbn [SERPER_API_KEY SERPER_BASE_URL
    SEARCH_TIMEOUT nullish].
  now rewrite drop_trailing_slash_app, Hplain.
Qed.

(** ** The gateway and the adapter *)

(** The outcome of [search], by the answer of the provider. *)
Lemma search_outcome (w : World) (this : SerperClient) (q : string) (n : Z) (t : trace) :
  fst (search w this q n t)
  = match serper_api w t (search_request this q n) with
    | Rejected e => Rejected e
    | Fulfilled res =>
        if res_ok res then
          match res_json res with
          | Rejected e => Rejected e
          | Fulfilled None =>
              Rejected (TypeError "Cannot read properties of null (reading 'organic')")
          | Fulfilled (Some data) =>
              Fulfilled (List.map normalize (Str.list_slice0 (organic data ?? []) n))
          end
        else Rejected (Error ("Serper error: " ++ Str.of_N (res_status res) ++ " "
                                ++ res_statusText res)%string)
    end.
Proof.
  unfold search, bind, fetch_serper.
  destruct (serper_api w t (search_request this q n)) as [res|e]; [|reflexivity].
  destruct (res_ok res); cbn [negb]; [|reflexivity].
  unfold await. destruct (res_json res) as [[data|]|e]; reflexivity.
Qed.

Lemma list_slice0_firstn {A : Type} (xs : list A) (n : Z) :
  0 <= n -> Str.list_slice0 xs n = firstn (Z.to_nat n) xs.
Proof.
  intros Hn. unfold Str.list_slice0.
  destruct (Z.ltb_spec n 0) as [Hneg|_]; [lia|].
  destruct (Z.le_gt_cases n (Z.of_nat (List.length xs))) as [Hle|Hgt].
  - now rewrite Z.min_l by lia.
  - rewrite Z.min_r by lia. rewrite Nat2Z.id.
    rewrite firstn_all. symmetry. apply firstn_all2. lia.
Qed.

Lemma normalize_is_normal (item : SearchItem) : is_normal (normalize item).
Proof. unfold is_normal, normalize. eauto. Qed.

Lemma search_returns_the_first_results_aux
    (w : World) (this : SerperClient) (q : string) (maxResults : Z) (t : trace)
    (items : list SearchItem) :
  fst (search w this q maxResults t) = Fulfilled items ->
  0 <= maxResults ->
  exists res data,
    serper_api w t (search_request this q maxResults) = Fulfilled res
    /\ res_json res = Fulfilled (Some data)
    /\ items = List.map normalize (firstn (Z.to_nat maxResults) (organic data ?? [])).
Proof.
  intros Hrun Hn. rewrite search_outcome in Hrun.
  destruct (serper_api w t (search_request this q maxResults)) as [res|e]; [|discriminate].
  destruct (res_ok res) eqn:Hok; [|discriminate].
  destruct (res_json res) as [[data|]|e] eqn:Hjson; try discriminate.
  injection Hrun as <-. rewrite list_slice0_firstn by exact Hn.
  exists res, data. auto.
Qed.

(** X3.  When [search] succeeds for a number of results that is not
    negative, the provider answered with a success status and a JSON body,
    and the items returned are the first [maxResults] items of its
    [organic] list (all of them when there are fewer, none when the list
    is missing), in the order of the provider, each with its title, url
    and snippet filled in. *)
Theorem search_returns_the_first_results
    (w : World) (this : SerperClient) (q : string) (maxResults : Z) (t : trace)
    (items : list SearchItem) :
  fst (search w this q maxResults t) = Fulfilled items ->
  0 <= maxResults ->
  exists res data,
    serper_api w t (search_request this q maxResults) = Fulfilled res
    /\ res_ok res = true
    /\ res_json res = Fulfilled (Some data)
    /\ items = List.map normalize (firstn (Z.to_nat maxResults) (organic data ?? []))
    /\ Z.of_nat (List.length items) <= maxResults
    /\ (List.length items <= List.length (organic data ?? []))%nat
    /\ Forall is_normal items.
Proof.
  intros Hrun Hn. rewrite search_outcome in Hrun.
  destruct (serper_api w t (search_request this q maxResults)) as [res|e]; [|discriminate].
  destruct (res_ok res) eqn:Hok; [|discriminate].
  destruct (res_json res) as [[data|]|e] eqn:Hjson; try discriminate.
  injection Hrun as <-. rewrite list_slice0_firstn by exact Hn.
  exists res, data. repeat split; try assumption.
  - rewrite length_map, length_firstn. lia.
  - rewrite length_map, length_firstn. lia.
  - apply Forall_forall. intros item Hin.
    apply in_map_iff in Hin as (raw & <- & _). apply normalize_is_normal.
Qed.

Lemma search_returns_the_first_results_witness :
  exists res data,
    serper_api scenario_B [] (search_request Scenario.client "rocq" 2) = Fulfilled res
    /\ res_ok res = true
    /\ res_json res = Fulfilled (Some data)
    /\ List.map normalize (List.map Scenario.hit ["1"; "2"]%string)
       = List.map normalize (firstn (Z.to_nat 2) (organic data ?? []))
    /\ Z.of_nat (List.length (List.map normalize (List.map Scenario.hit ["1"; "2"]%string)))
       <= 2
    /\ (List.length (List.map normalize (List.map Scenario.hit ["1"; "2"]%string))
        <= List.length (organic data ?? []))%nat
    /\ Forall is_normal (List.map normalize (List.map Scenario.hit ["1"; "2"]%string)).
Proof.
  apply (@search_returns_the_first_results scenario_B Scenario.client "rocq" 2 []).
  - reflexivity.
  - lia.
Defined.

(** X4.  For a client whose delay [AbortSignal.timeout] accepts, [search]
    makes one request and no other, whatever the provider answers: to the
    address of the client followed by [/search], with its key, the query,
    the number asked for and the timeout in milliseconds.  A status that
    is not a success is thrown as an error that names the status, whatever
    the body holds.  (For another client, one with a negative timeout for
    instance, the signal cannot be built and no request is made.) *)
Theorem search_makes_one_request
    (w : World) (this : SerperClient) (q : string) (maxResults : Z) (t : trace) :
  delay_accepted this ->
  snd (search w this q maxResults t)
  = t ++ [SearchCall {| sr_url := (baseUrl this ++ "/search")%string;
                        sr_api_key := apiKey this;
                        sr_q := q;
                        sr_num := maxResults;
                        sr_timeout_ms := timeout this * 1000 |}]
  /\ (forall res,
        serper_api w t (search_request this q maxResults) = Fulfilled res ->
        res_ok res = false ->
        fst (search w this q maxResults t)
        = Rejected (Error ("Serper error: " ++ Str.of_N (res_status res) ++ " "
                             ++ res_statusText res)%string))
  /\ (forall e,
        serper_api w t (search_request this q maxResults) = Rejected e ->
        fst (search w this q maxResults t) = Rejected e).
Proof.
  intros _. split; [|split].
  - destruct (search_run w this q maxResults t) as (out & Hrun & _).
    rewrite Hrun. reflexivity.
  - intros res Hres Hok. rewrite search_outcome, Hres, Hok. reflexivity.
  - intros e Hres. rewrite search_outcome, Hres. reflexivity.
Qed.

Lemma search_makes_one_request_witness :
  snd (search scenario_B Scenario.client "rocq" 2 [])
  = [] ++ [SearchCall {| sr_url := (baseUrl Scenario.client ++ "/search")%string;
                         sr_api_key := apiKey Scenario.client;
                         sr_q := "rocq";
                         sr_num := 2;
                         sr_timeout_ms := timeout Scenario.client * 1000 |}]
  /\ (forall res,
        serper_api scenario_B [] (search_request Scenario.client "rocq" 2) = Fulfilled res ->
        res_ok res = false ->
        fst (search scenario_B Scenario.client "rocq" 2 [])
        = Rejected (Error ("Serper error: " ++ Str.of_N (res_status res) ++ " "
                             ++ res_statusText res)%string))
  /\ (forall e,
        serper_api scenario_B [] (search_request Scenario.client "rocq" 2) = Rejected e ->
        fst (search scenario_B Scenario.client "rocq" 2 []) = Rejected e).
Proof.
  apply (@search_makes_one_request scenario_B Scenario.client "rocq" 2 []).
  unfold delay_accepted. cbn. lia.
Defined.

(** The fallbacks of the adapter, applied after those of the gateway,
    change nothing: an item comes out of both as it comes out of one. *)
Lemma enrich_normalize (item : SearchItem) : enrich (normalize item) = enrich item.
Proof. destruct item as [[t|] [l|] [u|] [s|] [d|]]; reflexivity. Qed.

Lemma normalize_idempotent (item : SearchItem) :
  normalize (normalize item) = normalize item.
Proof. destruct item as [[t|] [l|] [u|] [s|] [d|]]; reflexivity. Qed.

Lemma runWebSearch_outcome (w : World) (client : SerperClient) (q : string)
    (maxResults : Z) (t : trace) :
  runWebSearch w client q maxResults t
  = (match fst (search w client q (limit_of maxResults) t) with
     | Fulfilled items =>
         Fulfilled {| r_query := q; r_results := List.map enrich items |}
     | Rejected e => Rejected e
     end,
     snd (search w client q (limit_of maxResults) t)).
Proof.
  unfold runWebSearch, bind.
  destruct (search w client q (limit_of maxResults) t) as [[items|e] t']; reflexivity.
Qed.

(** X5.  Whatever number of results is asked for, a result of
    [runWebSearch] holds the query as it was given and at most five
    results: the first items of the provider's list, as many as the number
    asked for brought into 1..5 allows, in the provider's order, each with
    the title, the link or else the url, and the snippet or else the
    description of its item, and the empty text for what is missing. *)
Theorem runWebSearch_returns_at_most_five
    (w : World) (client : SerperClient) (q : string) (maxResults : Z) (t : trace)
    (result : WebSearchResult) :
  fst (runWebSearch w client q maxResults t) = Fulfilled result ->
  exists res data,
    serper_api w t (search_request client q (limit_of maxResults)) = Fulfilled res
    /\ res_json res = Fulfilled (Some data)
    /\ r_query result = q
    /\ r_results result
       = List.map enrich (firstn (Z.to_nat (limit_of maxResults)) (organic data ?? []))
    /\ (List.length (r_results result) <= 5)%nat
    /\ Z.of_nat (List.length (r_results result)) <= Z.max maxResults 1.
Proof.
  intros Hrun. rewrite runWebSearch_outcome in Hrun. cbn [fst] in Hrun.
  destruct (fst (search w client q (limit_of maxResults) t)) as [items|e] eqn:Hsearch;
    [|discriminate].
  injection Hrun as <-.
  pose proof (limit_of_bounds maxResults) as Hlimit.
  destruct (@search_returns_the_first_results_aux w client q (limit_of maxResults) t items Hsearch)
    as (res & data & Hres & Hjson & ->); [lia|].
  exists res, data. split; [exact Hres|]. split; [exact Hjson|]. split; [reflexivity|].
  cbn [r_results]. rewrite map_map.
  rewrite (map_ext _ _ enrich_normalize).
  split; [reflexivity|]. rewrite length_map, length_firstn.
  unfold limit_of, SERPER_MAX_RESULTS in *. split; lia.
Qed.

(** Nine results are asked for, the provider has seven: five come back. *)
Lemma runWebSearch_returns_at_most_five_witness :
  exists res data,
    serper_api scenario_B [] (search_request Scenario.client "rocq" (limit_of 9))
    = Fulfilled res
    /\ res_json res = Fulfilled (Some data)
    /\ "rocq"%string = "rocq"%string
    /\ List.map enrich (List.map Scenario.hit ["1"; "2"; "3"; "4"; "5"]%string)
       = List.map enrich (firstn (Z.to_nat (limit_of 9)) (organic data ?? []))
    /\ (List.length (List.map enrich (List.map Scenario.hit ["1"; "2"; "3"; "4"; "5"]%string))
        <= 5)%nat
    /\ Z.of_nat
         (List.length (List.map enrich (List.map Scenario.hit ["1"; "2"; "3"; "4"; "5"]%string)))
       <= Z.max 9 1.
Proof.
  apply (@runWebSearch_returns_at_most_five scenario_B Scenario.client "rocq" 9 []
           {| r_query := "rocq";
              r_results :=
                List.map enrich (List.map Scenario.hit ["1"; "2"; "3"; "4"; "5"]%string) |}).
  reflexivity.
Defined.

(** X6.  [runWebSearch] fails exactly when the gateway fails, with the
    error of the gateway: it catches nothing and retries nothing.  For a
    client whose delay [AbortSignal.timeout] accepts it makes the one
    request of the gateway, for the number asked for brought into 1..5. *)
Theorem runWebSearch_fails_as_the_gateway
    (w : World) (client : SerperClient) (q : string) (maxResults : Z) (t : trace) :
  (delay_accepted client ->
   snd (runWebSearch w client q maxResults t)
   = t ++ [SearchCall (search_request client q (Z.min (Z.max maxResults 1) 5))])
  /\ (forall e,
        fst (runWebSearch w client q maxResults t) = Rejected e
        <-> fst (search w client q (Z.min (Z.max maxResults 1) 5) t) = Rejected e)
  /\ (call_failed w t (SearchCall (search_request client q (Z.min (Z.max maxResults 1) 5)))
      = true ->
      exists e, fst (runWebSearch w client q maxResults t) = Rejected e).
Proof.
  change (Z.min (Z.max maxResults 1) 5) with (limit_of maxResults).
  rewrite runWebSearch_outcome. cbn [fst snd].
  destruct (search_run w client q (limit_of maxResults) t) as (out & Hrun & Hfail).
  rewrite Hrun. cbn [fst snd]. split; [intros _; reflexivity|]. split.
  - intros e. destruct out as [items|e']; split; intros H; congruence.
  - intros Hfailed. destruct (Hfail Hfailed) as [e ->]. eauto.
Qed.

(** ** [callLocalChat] *)

(** X7.  [callLocalChat] makes one call whatever comes of it.  With a
    success status it never throws: the body read as JSON is returned, and
    null when the body is not JSON.  With another status it throws an
    error whose message is never empty: the body of the response when
    there is one, and else a text that names the status. *)
Theorem callLocalChat_outcome_by_status (w : World) (payload : ChatPayload) (t : trace) :
  snd (callLocalChat w payload t) = t ++ [ChatCall payload]
  /\ (forall res,
        chat_backend w t payload = Fulfilled res -> res_ok res = true ->
        fst (callLocalChat w payload t)
        = Fulfilled (match res_json res with
                     | Fulfilled completion => completion
                     | Rejected _ => None
                     end))
  /\ (forall res,
        chat_backend w t payload = Fulfilled res -> res_ok res = false ->
        exists message,
          fst (callLocalChat w payload t) = Rejected (Error message)
          /\ message <> ""%string
          /\ (forall text, res_text res = Fulfilled text -> text <> ""%string ->
                           message = text)
          /\ (res_text res = Fulfilled ""%string \/ (exists e, res_text res = Rejected e) ->
              message = ("Upstream chat backend error (" ++ Str.of_N (res_status res)
                           ++ " " ++ res_statusText res ++ ")")%string))
  /\ (forall e,
        chat_backend w t payload = Rejected e ->
        fst (callLocalChat w payload t) = Rejected e).
Proof.
  split; [apply callLocalChat_trace|].
  unfold callLocalChat, bind, fetch_chat. split; [|split].
  - intros res -> ->. reflexivity.
  - intros res -> ->. cbn [negb fst]. eexists. split; [reflexivity|].
    destruct (res_text res) as [[|c text]|e]; cbn [catch_with Str.is_empty].
    + split; [discriminate|]. split; [intros text [= <-] H; congruence | reflexivity].
    + split; [discriminate|]. split; [intros text' [= <-] _; reflexivity|].
      intros [H|[e H]]; discriminate.
    + split; [discriminate|]. split; [intros text H; discriminate | reflexivity].
  - intros e ->. reflexivity.
Qed.

(** ** The tool loop *)

(** The loop over two lists of requests, one after the other. *)
Lemma run_tool_calls_app (w : World) (client : SerperClient)
    (first second : list (option ToolCall)) :
  forall acc t,
    run_tool_calls w client (first ++ second) acc t
    = match run_tool_calls w client first acc t with
      | (Fulfilled pushed, t') => run_tool_calls w client second pushed t'
      | (Rejected e, t') => (Rejected e, t')
      end.
Proof.
  induction first as [|toolCall first IH]; intros acc t; [reflexivity|].
  cbn [app run_tool_calls]. unfold bind.
  destruct (tool_call_step w client toolCall acc t) as [[pushed|e] t1]; [|reflexivity].
  apply IH.
Qed.

(** X8.  A web_search request whose arguments are the JSON text [null]
    is not skipped: the read of its query throws.  The loop ends there,
    with what it has done for the requests before and nothing for the
    requests after, and the turn is answered with the error response,
    without a phase-2 call.  On a request for another tool the same
    arguments are skipped. *)
Theorem null_arguments_abort_the_turn
    (w : World) (client : SerperClient) (tc : ToolCall)
    (before after : list (option ToolCall)) (acc pushed : list ToolMessage)
    (t t' : trace) :
  String.eqb (tc_type tc) "function" = true ->
  JSON_parse w (raw_arguments tc) = ParsedNull ->
  run_tool_calls w client before acc t = (Fulfilled pushed, t') ->
  (is_web_search (option_map fn_name (tc_function tc)) = true ->
   run_tool_calls w client (before ++ Some tc :: after) acc t
   = (Rejected (TypeError "Cannot read properties of null (reading 'query')"), t'))
  /\ (is_web_search (option_map fn_name (tc_function tc)) = false ->
      run_tool_calls w client (before ++ Some tc :: after) acc t
      = run_tool_calls w client after pushed t')
  /\ (forall request_json res1,
        let p1 := firstPayload (model_of request_json) (messages_of request_json) in
        is_web_search (option_map fn_name (tc_function tc)) = true ->
        chat_backend w [] p1 = Fulfilled res1 -> res_ok res1 = true ->
        toolCalls_of (catch_with (res_json res1) None) = before ++ Some tc :: after ->
        acc = [] -> t = [ChatCall p1] ->
        POST w client request_json [] = (Fulfilled error_response, t')).
Proof.
  intros Htype Hnull Hbefore.
  assert (Hloop : is_web_search (option_map fn_name (tc_function tc)) = true ->
                  run_tool_calls w client (before ++ Some tc :: after) acc t
                  = (Rejected (TypeError "Cannot read properties of null (reading 'query')"),
                     t')).
  { intros Hname. rewrite run_tool_calls_app, Hbefore. cbn [run_tool_calls]. unfold bind.
    unfold tool_call_step. rewrite Htype, Hname. cbn [negb].
    unfold raw_arguments in Hnull. rewrite Hnull. reflexivity. }
  split; [exact Hloop|]. split.
  - intros Hname. rewrite run_tool_calls_app, Hbefore. cbn [run_tool_calls]. unfold bind.
    unfold tool_call_step. rewrite Htype, Hname. reflexivity.
  - intros request_json res1 p1 Hname Hres1 Hok1 Hcalls -> ->.
    rewrite POST_eq, final_content_eq. fold p1.
    rewrite (callLocalChat_ok w p1 [] Hres1 Hok1), Hcalls. cbn [app].
    destruct (before ++ Some tc :: after) as [|x xs] eqn:Hlist.
    { destruct before; discriminate. }
    rewrite (Hloop Hname). reflexivity.
Qed.

Example scenario_null_run :
  POST scenario_null Scenario.client request_B []
  = (Fulfilled error_response,
     [ ChatCall (firstPayload DEFAULT_MODEL messages_B);
       SearchCall (search_request Scenario.client "weather Lisbon today" 3) ]).
Proof. vm_compute. reflexivity. Qed.

Lemma null_arguments_abort_the_turn_witness :
  let tc := {| tc_id := "call_2";
               tc_type := "function";
               tc_function := Some {| fn_name := "web_search";
                                      fn_arguments := Some Scenario.ARGS_NULL |} |} in
  let before := [Scenario.web_search_call "call_1" Scenario.ARGS_LISBON] in
  let after := [Scenario.web_search_call "call_3" Scenario.ARGS_NINE] in
  let t := [ChatCall (firstPayload DEFAULT_MODEL messages_B)] in
  let t' := t ++ [SearchCall (search_request Scenario.client "weather Lisbon today" 3)] in
  (is_web_search (option_map fn_name (tc_function tc)) = true ->
   run_tool_calls scenario_null Scenario.client (before ++ Some tc :: after) [] t
   = (Rejected (TypeError "Cannot read properties of null (reading 'query')"), t'))
  /\ (is_web_search (option_map fn_name (tc_function tc)) = false ->
      run_tool_calls scenario_null Scenario.client (before ++ Some tc :: after) [] t
      = run_tool_calls scenario_null Scenario.client after toolMessages_B t')
  /\ (forall request_json res1,
        let p1 := firstPayload (model_of request_json) (messages_of request_json) in
        is_web_search (option_map fn_name (tc_function tc)) = true ->
        chat_backend scenario_null [] p1 = Fulfilled res1 -> res_ok res1 = true ->
        toolCalls_of (catch_with (res_json res1) None) = before ++ Some tc :: after ->
        @nil ToolMessage = [] -> t = [ChatCall p1] ->
        POST scenario_null Scenario.client request_json [] = (Fulfilled error_response, t')).
Proof.
  apply (@null_arguments_abort_the_turn scenario_null Scenario.client).
  - reflexivity.
  - reflexivity.
  - vm_compute. reflexivity.
Defined.

(** The messages pushed before a round stay as they are: the loop only
    appends. *)
Lemma tool_call_step_appends (w : World) (client : SerperClient)
    (toolCall : option ToolCall) (acc : list ToolMessage) (t : trace) :
  tool_call_step w client toolCall acc t
  = match tool_call_step w client toolCall [] t with
    | (Fulfilled pushed, t') => (Fulfilled (acc ++ pushed), t')
    | (Rejected e, t') => (Rejected e, t')
    end.
Proof.
  unfold tool_call_step.
  destruct toolCall as [tc|]; [|cbn; now rewrite app_nil_r].
  destruct (negb (String.eqb (tc_type tc) "function")); [cbn; now rewrite app_nil_r|].
  destruct (is_web_search (option_map fn_name (tc_function tc)));
    [|cbn; now rewrite app_nil_r].
  destruct (JSON_parse w (opt_chain (tc_function tc) fn_arguments ?? "{}"%string))
    as [| |args]; [cbn; now rewrite app_nil_r | reflexivity |].
  destruct (query args) as [q|]; [|cbn; now rewrite app_nil_r].
  destruct (Str.is_empty q); [cbn; now rewrite app_nil_r|].
  unfold bind.
  destruct (runWebSearch w client q (max_results args ?? 3) t) as [[result|e] t'];
    reflexivity.
Qed.

(** X9.  The loop only appends: run with messages already pushed, it
    leaves them as they are and adds after them what it adds when it is run
    with none, making the same calls; and the loop over two lists of
    requests, one after the other, is the loop over the first followed,
    when it completes, by the loop over the second. *)
Theorem run_tool_calls_only_appends (w : World) (client : SerperClient)
    (toolCalls : list (option ToolCall)) (acc : list ToolMessage) (t : trace) :
  run_tool_calls w client toolCalls acc t
  = match run_tool_calls w client toolCalls [] t with
    | (Fulfilled pushed, t') => (Fulfilled (acc ++ pushed), t')
    | (Rejected e, t') => (Rejected e, t')
    end
  /\ (forall first second,
        toolCalls = first ++ second ->
        run_tool_calls w client toolCalls acc t
        = match run_tool_calls w client first acc t with
          | (Fulfilled pushed, t') => run_tool_calls w client second pushed t'
          | (Rejected e, t') => (Rejected e, t')
          end).
Proof.
  split; [|intros first second ->; apply run_tool_calls_app].
  revert acc t. induction toolCalls as [|toolCall rest IH]; intros acc t.
  - cbn. now rewrite app_nil_r.
  - cbn [run_tool_calls]. unfold bind.
    rewrite (tool_call_step_appends w client toolCall acc t).
    destruct (tool_call_step w client toolCall [] t) as [[pushed|e] t1]; [|reflexivity].
    rewrite (IH (acc ++ pushed) t1), (IH pushed t1). cbn [app].
    destruct (run_tool_calls w client rest [] t1) as [[more|e] t2]; [|reflexivity].
    now rewrite app_assoc.
Qed.

(** ** The handler *)

(** X10.  When phase 1 answers with a success status and nothing to read
    an answer or a tool call from (the body is not JSON, or is null, or has
    no [choices], or an empty list of them, or a first choice without a
    message) the turn does not fail: it makes no other call and streams
    the empty answer, which is the sentinel frame alone, with status 200. *)
Theorem unreadable_completion_streams_the_empty_answer
    (w : World) (client : SerperClient) (request_json : settled (option RequestBody))
    (res : FetchResponse (option ChatCompletion)) :
  let p1 := firstPayload (model_of request_json) (messages_of request_json) in
  chat_backend w [] p1 = Fulfilled res ->
  res_ok res = true ->
  (exists e, res_json res = Rejected e)
  \/ res_json res = Fulfilled None
  \/ res_json res = Fulfilled (Some {| choices := None |})
  \/ res_json res = Fulfilled (Some {| choices := Some [] |})
  \/ (exists rest,
        res_json res = Fulfilled (Some {| choices := Some ({| ch_message := None |} :: rest) |})) ->
  POST w client request_json []
  = (Fulfilled {| status := 200;
                  headers := [ ("Content-Type", "text/event-stream; charset=utf-8");
                               ("Cache-Control", "no-cache");
                               ("Connection", "keep-alive") ]%string;
                  body := StreamBody {| queue := [encode DONE_FRAME]; closed := true |} |},
     [ChatCall p1]).
Proof.
  intros p1 Hres Hok Hbody.
  rewrite POST_eq, final_content_eq. fold p1.
  rewrite (callLocalChat_ok w p1 [] Hres Hok).
  assert (Hmessage : message_of (catch_with (res_json res) None)
                     = {| am_content := None; am_tool_calls := None |}).
  { destruct Hbody as [[e ->]|[->|[->|[->|[rest ->]]]]]; reflexivity. }
  unfold toolCalls_of, answer_of. rewrite Hmessage. reflexivity.
Qed.

Lemma unreadable_completion_streams_the_empty_answer_witness :
  POST scenario_malformed Scenario.client request_B []
  = (Fulfilled {| status := 200;
                  headers := [ ("Content-Type", "text/event-stream; charset=utf-8");
                               ("Cache-Control", "no-cache");
                               ("Connection", "keep-alive") ]%string;
                  body := StreamBody {| queue := [encode DONE_FRAME]; closed := true |} |},
     [ChatCall (firstPayload DEFAULT_MODEL messages_B)]).
Proof.
  apply (@unreadable_completion_streams_the_empty_answer scenario_malformed Scenario.client
           request_B malformed_response).
  - reflexivity.
  - reflexivity.
  - left. eexists. reflexivity.
Defined.

Lemma expected_calls_length (w : World) (client : SerperClient)
    (toolCalls : list (option ToolCall)) :
  (List.length (expected_calls w client toolCalls) <= List.length toolCalls)%nat.
Proof.
  unfold expected_calls. induction toolCalls as [|toolCall rest IH]; [cbn; lia|].
  cbn [flat_map]. rewrite length_app. unfold search_call_of at 1.
  destruct (accepted_call w toolCall) as [[[tc q] mr]|]; cbn; lia.
Qed.

(** X11.  The calls of a turn are the phase-1 call, then searches, then
    at most the phase-2 call.  The searches are those of the accepted
    requests of phase 1, in the order of the requests, up to the point the
    loop reached; the phase-2 call is made only when all of them were
    made.  So a turn makes at most two calls to the inference backend and
    at most one search for each tool-call request, and one call in all
    when phase 1 asks for no tool. *)
Theorem turn_calls_are_bounded_and_ordered
    (w : World) (client : SerperClient) (request_json : settled (option RequestBody)) :
  let model := model_of request_json in
  let messages := messages_of request_json in
  let p1 := firstPayload model messages in
  let toolCalls := toolCalls_of_turn w model messages in
  exists searches rest more,
    snd (POST w client request_json []) = ChatCall p1 :: searches ++ rest
    /\ expected_calls w client toolCalls = searches ++ more
    /\ (rest = []
        \/ (more = []
            /\ exists toolMessages,
                 rest = [ChatCall (secondPayload model messages toolMessages)]))
    /\ (List.length searches <= List.length toolCalls)%nat
    /\ (List.length (snd (POST w client request_json [])) <= 2 + List.length toolCalls)%nat
    /\ (toolCalls = [] -> snd (POST w client request_json []) = [ChatCall p1]).
Proof.
  intros model messages p1 toolCalls.
  assert (Hshape : exists searches rest more,
             snd (POST w client request_json []) = ChatCall p1 :: searches ++ rest
             /\ expected_calls w client toolCalls = searches ++ more
             /\ (rest = []
                 \/ (more = []
                     /\ exists toolMessages,
                          rest = [ChatCall (secondPayload model messages toolMessages)]))).
  { rewrite POST_eq, final_content_eq. unfold toolCalls, toolCalls_of_turn.
    fold model messages p1.
    pose proof (callLocalChat_trace w p1 []) as Htrace1.
    destruct (callLocalChat w p1 []) as [[first|e] t1]; cbn [fst snd app] in *; subst t1.
    - destruct (toolCalls_of first) as [|tc tcs] eqn:Hcalls.
      + exists [], [], []. cbn. auto.
      + destruct (run_tool_calls_run w client (tc :: tcs) [] [ChatCall p1])
          as (out & calls & more & Hloop & Hexp & Hout).
        rewrite Hloop. destruct out as [tms|e].
        * destruct Hout as (-> & _).
          pose proof (callLocalChat_trace w (secondPayload model messages tms)
                        ([ChatCall p1] ++ calls)) as Htrace2.
          exists calls, [ChatCall (secondPayload model messages tms)], [].
          split; [|split; [exact Hexp | right; eauto]].
          destruct (callLocalChat w (secondPayload model messages tms)
                      ([ChatCall p1] ++ calls)) as [[second|e] t3]; exact Htrace2.
        * exists calls, [], more. rewrite app_nil_r. cbn. auto.
    - exists [], [], (expected_calls w client []). cbn. auto. }
  destruct Hshape as (searches & rest & more & Hcalls & Hexp & Hrest).
  exists searches, rest, more.
  pose proof (expected_calls_length w client toolCalls) as Hlen.
  rewrite Hexp, length_app in Hlen.
  split; [exact Hcalls|]. split; [exact Hexp|]. split; [exact Hrest|].
  split; [lia|]. split.
  - rewrite Hcalls. cbn [List.length]. rewrite length_app.
    destruct Hrest as [->|(_ & tms & ->)]; cbn [List.length]; lia.
  - intros Hnone. rewrite Hcalls.
    rewrite Hnone in Hexp. cbn in Hexp.
    symmetry in Hexp. apply app_eq_nil in Hexp as [-> ->].
    destruct Hrest as [->|(_ & tms & ->)]; [reflexivity|].
    exfalso. revert Hcalls. rewrite POST_eq, final_content_eq.
    fold model messages p1. unfold toolCalls, toolCalls_of_turn in Hnone.
    fold model messages p1 in Hnone.
    pose proof (callLocalChat_trace w p1 []) as Htrace1.
    destruct (callLocalChat w p1 []) as [[first|e] t1]; cbn [fst snd app] in *; subst t1.
    + rewrite Hnone. cbn. discriminate.
    + cbn. discriminate.
Qed.

(** X12.  Whatever the request and the environment, and whatever calls
    were made before, the handler answers and does not throw.  Its
    response is the error response (status 500 and a JSON body) or a
    stream with status 200 that is closed, holds one or two chunks, and
    ends with the sentinel frame; it holds the sentinel frame alone exactly
    when the answer is the empty text. *)
Theorem response_is_a_closed_stream_or_the_error
    (w : World) (client : SerperClient) (request_json : settled (option RequestBody))
    (t : trace) :
  exists response t',
    POST w client request_json t = (Fulfilled response, t')
    /\ (response = error_response
        \/ exists finalContent stream,
             fst (final_content w client (model_of request_json)
                    (messages_of request_json) t) = Fulfilled finalContent
             /\ response = stream_response stream
             /\ status response = 200%N
             /\ closed stream = true
             /\ last (queue stream) [] = encode DONE_FRAME
             /\ (1 <= List.length (queue stream) <= 2)%nat
             /\ (queue stream = [encode DONE_FRAME] <-> finalContent = ""%string)).
Proof.
  rewrite POST_eq.
  destruct (final_content w client (model_of request_json) (messages_of request_json) t)
    as [[finalContent|e] t']; [|eauto].
  do 2 eexists. split; [reflexivity|]. right.
  exists finalContent, (sse finalContent). cbn [fst].
  split; [reflexivity|]. split; [reflexivity|]. split; [reflexivity|].
  split; [reflexivity|]. unfold sse, frames_of. cbn [queue].
  destruct finalContent as [|c rest]; cbn [Str.is_empty app].
  - split; [reflexivity|]. split; [cbn; lia|]. split; reflexivity.
  - split; [reflexivity|]. split; [cbn; lia|]. split; discriminate.
Qed.

(** ** The reading loop of the panel *)

Import Panel PanelVocabulary.

(** In this part [++] is the append of strings. *)
Open Scope string_scope.

Lemma has_LF_app (a b : string) : has_LF (a ++ b) = has_LF a || has_LF b.
Proof.
  induction a as [|c a IH]; [reflexivity|].
  cbn. rewrite IH. now rewrite orb_assoc.
Qed.

Lemma append_nil_r (s : string) : s ++ "" = s.
Proof. induction s as [|c s IH]; [reflexivity | cbn; now rewrite IH]. Qed.

Lemma split_from_nonempty (line s : string) : split_from line s <> []%list.
Proof.
  revert line. induction s as [|c s IH]; intros line; cbn; [discriminate|].
  destruct (Ascii.eqb c "010"%char); [discriminate | apply IH].
Qed.

Lemma split_from_app (line a s : string) :
  has_LF a = false -> split_from line (a ++ s) = split_from (line ++ a) s.
Proof.
  revert line. induction a as [|c a IH]; intros line Ha.
  - now rewrite append_nil_r.
  - cbn in Ha. apply orb_false_iff in Ha as [Hc Ha].
    cbn [append split_from]. rewrite Hc, (IH _ Ha), append_assoc. reflexivity.
Qed.

Lemma split_from_last (line s : string) :
  has_LF line = false -> has_LF (last (split_from line s) "") = false.
Proof.
  revert line. induction s as [|c s IH]; intros line Hline; [exact Hline|].
  cbn [split_from]. destruct (Ascii.eqb c "010"%char) eqn:Hc.
  - pose proof (split_from_nonempty "" s) as Hne.
    destruct (split_from "" s) as [|l ls] eqn:Hsplit; [congruence|].
    change (has_LF (last (l :: ls) "") = false). rewrite <- Hsplit. now apply IH.
  - apply IH. rewrite has_LF_app, Hline. cbn. now rewrite Hc.
Qed.

Lemma on_lines_feed (parse : string -> chunk_outcome) (assistantId : string)
    (text line : string) (current : list ChatMessage) :
  (last (split_from line text) "",
   on_lines parse assistantId (removelast (split_from line text)) current)
  = let '(buffer, after, done) := feed parse assistantId line text current in
    (buffer, (after, done)).
Proof.
  revert line current. induction text as [|c text IH]; intros line current; [reflexivity|].
  cbn [split_from feed]. destruct (Ascii.eqb c "010"%char).
  - pose proof (split_from_nonempty "" text) as Hne.
    specialize (IH "").
    destruct (split_from "" text) as [|l ls] eqn:Hsplit; [congruence|].
    change (removelast (line :: l :: ls)) with (line :: removelast (l :: ls))%list.
    change (last (line :: l :: ls) "") with (last (l :: ls) "").
    cbn [on_lines].
    destruct (on_line parse assistantId line current) as [after [|]]; [reflexivity|].
    apply IH.
  - apply IH.
Qed.

Lemma on_value_feed (parse : string -> chunk_outcome) (assistantId : string)
    (value : list Byte.byte) (st : Reading) :
  has_LF (rd_buffer st) = false ->
  on_value parse assistantId value st
  = match decode (rd_pending st) value with
    | None => None
    | Some (text, pending) =>
        let '(buffer, after, done) :=
          feed parse assistantId (rd_buffer st) text (rd_messages st) in
        Some {| rd_done := done; rd_buffer := buffer; rd_pending := pending;
                rd_messages := after |}
    end.
Proof.
  intros Hbuffer. unfold on_value.
  destruct (decode (rd_pending st) value) as [[text pending]|]; [|reflexivity].
  unfold split_lines.
  change (split_from "" (rd_buffer st ++ text))
    with (split_from "" (rd_buffer st ++ text)).
  rewrite (split_from_app "" (rd_buffer st) text Hbuffer). cbn [append].
  pose proof (on_lines_feed parse assistantId text (rd_buffer st) (rd_messages st)) as H.
  destruct (feed parse assistantId (rd_buffer st) text (rd_messages st))
    as [[buffer after] done].
  injection H as Hlast Hlines. rewrite Hlast, Hlines. reflexivity.
Qed.

Lemma feed_buffer_no_LF (parse : string -> chunk_outcome) (assistantId : string)
    (text line : string) (current : list ChatMessage) :
  has_LF line = false ->
  has_LF (fst (fst (feed parse assistantId line text current))) = false.
Proof.
  intros Hline.
  pose proof (on_lines_feed parse assistantId text line current) as H.
  destruct (feed parse assistantId line text current) as [[buffer after] done].
  injection H as Hlast _. cbn [fst]. rewrite <- Hlast. now apply split_from_last.
Qed.

(** A text fed in two parts: the second part is fed after the first,
    unless the first held the sentinel. *)
Lemma feed_app (parse : string -> chunk_outcome) (assistantId : string)
    (a b line : string) (current : list ChatMessage) :
  outcome (feed parse assistantId line (a ++ b) current)
  = match feed parse assistantId line a current with
    | (_, after, true) => (after, true)
    | (line', after, false) => outcome (feed parse assistantId line' b after)
    end.
Proof.
  revert line current. induction a as [|c a IH]; intros line current; [reflexivity|].
  cbn [append feed]. destruct (Ascii.eqb c "010"%char).
  - destruct (on_line parse assistantId line current) as [after [|]]; [reflexivity|].
    apply IH.
  - apply IH.
Qed.

Lemma decode_app (pending : option N) (a b : list Byte.byte) :
  decode pending (a ++ b)%list
  = match decode pending a with
    | None => None
    | Some (text, pending') =>
        match decode pending' b with
        | None => None
        | Some (more, pending'') => Some (text ++ more, pending'')
        end
    end.
Proof.
  revert pending. induction a as [|x a IH]; intros pending.
  - cbn. destruct (decode pending b) as [[more pending'']|]; reflexivity.
  - cbn [app decode]. destruct (decode_byte pending x) as [[text pending']|]; [|reflexivity].
    rewrite IH. destruct (decode pending' a) as [[t1 p1]|]; [|reflexivity].
    destruct (decode p1 b) as [[t2 p2]|]; [|reflexivity].
    now rewrite append_assoc.
Qed.

(** The loop over the chunks of a body does to the messages what one
    pass over the whole text of the body does. *)
Lemma read_stream_feed (parse : string -> chunk_outcome) (assistantId : string)
    (chunks : list (list Byte.byte)) :
  forall (st : Reading) (text : string) (pending : option N),
    has_LF (rd_buffer st) = false ->
    decode (rd_pending st) (List.concat chunks) = Some (text, pending) ->
    exists final,
      read_stream parse assistantId chunks st = Some final
      /\ rd_done final = true
      /\ rd_messages final
         = fst (outcome (feed parse assistantId (rd_buffer st) text (rd_messages st))).
Proof.
  induction chunks as [|value rest IH]; intros st text pending Hbuffer Hdecode.
  - cbn in Hdecode. injection Hdecode as <- <-. cbn. eexists. repeat split.
  - cbn [List.concat] in Hdecode. rewrite decode_app in Hdecode.
    cbn [read_stream]. rewrite (on_value_feed parse assistantId value st Hbuffer).
    destruct (decode (rd_pending st) value) as [[t1 p1]|]; [|discriminate].
    destruct (decode p1 (List.concat rest)) as [[t2 p2]|] eqn:Hrest; [|discriminate].
    injection Hdecode as <- <-.
    pose proof (feed_app parse assistantId t1 t2 (rd_buffer st) (rd_messages st)) as Happ.
    pose proof (feed_buffer_no_LF parse assistantId t1 (rd_buffer st) (rd_messages st)
                  Hbuffer) as Hline.
    destruct (feed parse assistantId (rd_buffer st) t1 (rd_messages st))
      as [[line after] [|]]; cbn [rd_done fst] in *.
    + eexists. split; [reflexivity|]. split; [reflexivity|].
      rewrite Happ. reflexivity.
    + destruct (IH {| rd_done := false; rd_buffer := line; rd_pending := p1;
                      rd_messages := after |} t2 p2 Hline Hrest)
        as (final & Hfinal & Hdone & Hmessages).
      exists final. split; [exact Hfinal|]. split; [exact Hdone|].
      rewrite Hmessages, Happ. reflexivity.
Qed.

(** *** The body of the route, read by the panel *)

Lemma read_chunk_stringify (text : string) :
  read_chunk (Json.stringify (chunk_json text)) = ChunkValue (chunk_of text).
Proof.
  unfold read_chunk. cbn. rewrite !append_assoc. cbn.
  replace (slice_from (Json.quote_body text ++ String "034"%char "}}]}") 0)
    with (Json.quote_body text ++ String "034"%char "}}]}")
    by (now destruct (Json.quote_body text ++ String "034"%char "}}]}")).
  rewrite (unquote_quote_body text "}}]}").
  now destruct (Json.quote_body text ++ String "034"%char "}}]}").
Qed.

Lemma has_LF_quote_body (s : string) : has_LF (Json.quote_body s) = false.
Proof.
  induction s as [|c s IH]; [reflexivity|].
  cbn [Json.quote_body]. rewrite has_LF_app, IH, orb_false_r.
  destruct c as [[] [] [] [] [] [] [] []]; reflexivity.
Qed.

(** The text of the object of the data frame: one line between braces. *)
Lemma stringify_chunk_json (text : string) :
  exists inner,
    Json.stringify (chunk_json text) = String "{" (inner ++ "}")
    /\ has_LF inner = false.
Proof.
  exists (Str.DQUOTE ++ "choices" ++ Str.DQUOTE ++ ":[{" ++ Str.DQUOTE ++ "delta"
            ++ Str.DQUOTE ++ ":{" ++ Str.DQUOTE ++ "content" ++ Str.DQUOTE ++ ":"
            ++ Str.DQUOTE ++ Json.quote_body text ++ Str.DQUOTE ++ "}}]").
  split.
  - cbn. rewrite !append_assoc. reflexivity.
  - cbn. rewrite has_LF_app, has_LF_quote_body. reflexivity.
Qed.

Lemma trim_end_keeps (s : string) (c : ascii) :
  is_space c = false -> trim_end (s ++ String c "") = s ++ String c "".
Proof.
  intros Hc. induction s as [|d s IH]; cbn.
  - now rewrite Hc.
  - rewrite IH. destruct s; reflexivity.
Qed.

Lemma feed_line (parse : string -> chunk_outcome) (assistantId : string)
    (a rest line : string) (current : list ChatMessage) :
  has_LF a = false ->
  feed parse assistantId line (a ++ rest) current
  = feed parse assistantId (line ++ a) rest current.
Proof.
  revert line. induction a as [|c a IH]; intros line Ha.
  - now rewrite append_nil_r.
  - cbn in Ha. apply orb_false_elim in Ha as [Hc Ha].
    cbn [append feed]. rewrite Hc, (IH _ Ha), append_assoc. reflexivity.
Qed.

(** The line of the data frame: the delta is the answer. *)
Lemma on_line_data (parse : string -> chunk_outcome) (assistantId : string)
    (text : string) (current : list ChatMessage) :
  parse (Json.stringify (chunk_json text)) = ChunkValue (chunk_of text) ->
  on_line parse assistantId ("data: " ++ Json.stringify (chunk_json text)) current
  = (if Str.is_empty text then current else append_delta assistantId text current, false).
Proof.
  intros Hparse.
  destruct (stringify_chunk_json text) as (inner & Htext & _).
  unfold on_line, trim. rewrite Htext in *.
  change (trim_start ("data: " ++ String "{" (inner ++ "}")))
    with (("data: {" ++ inner) ++ "}").
  rewrite (trim_end_keeps _ "}" eq_refl).
  change (slice_from (("data: {" ++ inner) ++ "}") (String.length "data:"))
    with (" " ++ String "{" (inner ++ "}")).
  change (trim_start (" " ++ String "{" (inner ++ "}"))) with (("{" ++ inner) ++ "}").
  rewrite (trim_end_keeps _ "}" eq_refl).
  change (("{" ++ inner) ++ "}") with (String "{" (inner ++ "}")).
  rewrite Hparse. cbn. destruct (Str.is_empty text); reflexivity.
Qed.

Lemma append_delta_empty (assistantId : string) (current : list ChatMessage) :
  append_delta assistantId "" current = current.
Proof.
  unfold append_delta. induction current as [|m rest IH]; [reflexivity|].
  cbn [List.map]. rewrite IH, append_nil_r.
  destruct m; cbn. now destruct (String.eqb _ _).
Qed.

Lemma decode_encode_unit (c : ascii) (rest : list Byte.byte) :
  decode None (encode_unit c ++ rest)%list
  = match decode None rest with
    | Some (more, pending) => Some (String c more, pending)
    | None => None
    end.
Proof.
  destruct c as [[] [] [] [] [] [] [] []]; cbn;
    destruct (decode None rest) as [[more pending]|]; reflexivity.
Qed.

(** The decoder reads back what the encoder wrote. *)
Lemma decode_encode (s : string) : decode None (encode s) = Some (s, None).
Proof.
  induction s as [|c s IH]; [reflexivity|].
  cbn [encode]. now rewrite decode_encode_unit, IH.
Qed.

Lemma encode_app (a b : string) : encode (a ++ b) = (encode a ++ encode b)%list.
Proof.
  induction a as [|c a IH]; [reflexivity|].
  cbn [append encode]. now rewrite IH, app_assoc.
Qed.

Lemma frames_of_text (finalContent : string) :
  List.concat (frames_of finalContent) = encode (body_text finalContent).
Proof.
  unfold frames_of, body_text. destruct (Str.is_empty finalContent).
  - cbn [app List.concat append]. now rewrite app_nil_r.
  - cbn [app List.concat]. now rewrite app_nil_r, encode_app.
Qed.

Lemma feed_body_text (parse : string -> chunk_outcome) (assistantId : string)
    (text : string) (current : list ChatMessage) :
  parse (Json.stringify (chunk_json text)) = ChunkValue (chunk_of text) ->
  outcome (feed parse assistantId "" (body_text text) current)
  = (append_delta assistantId text current, true).
Proof.
  intros Hparse. unfold body_text.
  destruct (Str.is_empty text) eqn:Hempty.
  - destruct text; [|discriminate]. now rewrite append_delta_empty.
  - unfold data_frame.
    destruct (stringify_chunk_json text) as (inner & Htext & Hinner).
    replace (("data: " ++ Json.stringify (chunk_json text) ++ Str.LF ++ Str.LF) ++ DONE_FRAME)
      with (("data: " ++ Json.stringify (chunk_json text))
              ++ (Str.LF ++ Str.LF ++ DONE_FRAME))
      by now rewrite !append_assoc.
    rewrite feed_line.
    + cbn [append Str.LF feed Ascii.eqb Bool.eqb].
      pose proof (@on_line_data parse assistantId text current Hparse) as Hline.
      cbn [append] in Hline. rewrite Hline, Hempty. reflexivity.
    + rewrite Htext. cbn. rewrite has_LF_app, Hinner. reflexivity.
Qed.

(** X13.  The reading loop of the panel does not depend on how the body of
    the response is cut into chunks: two sequences of chunks with the same
    bytes leave the same messages, a line or a two-byte character cut by a
    chunk border included.  (The bytes are UTF-8 for code units below 256,
    the strings of this model.)  The loop ends with [done] set in both. *)
Theorem reading_is_independent_of_the_chunking
    (parse : string -> chunk_outcome) (assistantId : string)
    (chunks1 chunks2 : list (list Byte.byte)) (current : list ChatMessage)
    (text : string) (pending : option N) :
  List.concat chunks1 = List.concat chunks2 ->
  decode None (List.concat chunks1) = Some (text, pending) ->
  exists final1 final2,
    read_stream parse assistantId chunks1 (start_reading current) = Some final1
    /\ read_stream parse assistantId chunks2 (start_reading current) = Some final2
    /\ rd_messages final1 = rd_messages final2
    /\ rd_done final1 = true
    /\ rd_done final2 = true.
Proof.
  intros Hsame Hdecode.
  destruct (@read_stream_feed parse assistantId chunks1 (start_reading current)
              text pending eq_refl Hdecode) as (final1 & H1 & Hdone1 & Hm1).
  rewrite Hsame in Hdecode.
  destruct (@read_stream_feed parse assistantId chunks2 (start_reading current)
              text pending eq_refl Hdecode) as (final2 & H2 & Hdone2 & Hm2).
  exists final1, final2. repeat split; try assumption.
  now rewrite Hm1, Hm2.
Qed.

Lemma reading_is_independent_of_the_chunking_witness :
  exists final1 final2,
    read_stream read_chunk "a1" (frames_of (Str.of_utf8 "olá"))
      (start_reading [mkChatMessage "a1" ChatAssistant "" None]%list) = Some final1
    /\ read_stream read_chunk "a1"
         (List.map (fun b => [b]%list) (List.concat (frames_of (Str.of_utf8 "olá"))))
         (start_reading [mkChatMessage "a1" ChatAssistant "" None]%list) = Some final2
    /\ rd_messages final1 = rd_messages final2
    /\ rd_done final1 = true
    /\ rd_done final2 = true.
Proof.
  apply (@reading_is_independent_of_the_chunking read_chunk "a1"
           (frames_of (Str.of_utf8 "olá"))
           (List.map (fun b => [b]%list) (List.concat (frames_of (Str.of_utf8 "olá"))))
           [mkChatMessage "a1" ChatAssistant "" None]%list
           (body_text (Str.of_utf8 "olá")) None).
  - vm_compute. reflexivity.
  - vm_compute. reflexivity.
Defined.

(** The reading loop on the frames of an answer. *)
Lemma read_stream_frames (parse : string -> chunk_outcome) (assistantId : string)
    (finalContent : string) (chunks : list (list Byte.byte))
    (current : list ChatMessage) :
  parse (Json.stringify (chunk_json finalContent)) = ChunkValue (chunk_of finalContent) ->
  List.concat chunks = List.concat (frames_of finalContent) ->
  exists final,
    read_stream parse assistantId chunks (start_reading current) = Some final
    /\ rd_done final = true
    /\ rd_messages final = append_delta assistantId finalContent current.
Proof.
  intros Hparse Hchunks. rewrite frames_of_text in Hchunks.
  destruct (@read_stream_feed parse assistantId chunks (start_reading current)
              (body_text finalContent) None eq_refl) as (final & Hfinal & Hdone & Hm).
  - cbn [start_reading rd_pending]. rewrite Hchunks. apply decode_encode.
  - exists final. split; [exact Hfinal|]. split; [exact Hdone|].
    cbn [start_reading rd_buffer rd_messages] in Hm.
    now rewrite (@feed_body_text parse assistantId finalContent current Hparse) in Hm.
Qed.

(** X14.  The panel reads the answer of the route: when [JSON.parse] gives
    the object of the data frame back, the reading loop run on the body
    that [start] wrote, cut into chunks in any way, ends with [done] set and
    with the answer appended to the message of the assistant, and to no
    other message.  An empty answer leaves the messages as they were. *)
Theorem panel_reads_the_answer_of_the_route
    (parse : string -> chunk_outcome) (assistantId : string)
    (finalContent : string) (stream : Controller)
    (chunks : list (list Byte.byte)) (current : list ChatMessage) :
  parse (Json.stringify (chunk_json finalContent)) = ChunkValue (chunk_of finalContent) ->
  new_ReadableStream (start finalContent) = Fulfilled stream ->
  List.concat chunks = List.concat (queue stream) ->
  exists final,
    read_stream parse assistantId chunks (start_reading current) = Some final
    /\ rd_done final = true
    /\ rd_messages final = append_delta assistantId finalContent current
    /\ (finalContent = "" -> rd_messages final = current).
Proof.
  intros Hparse Hstream Hchunks.
  rewrite new_ReadableStream_start in Hstream. injection Hstream as <-.
  cbn [queue sse] in Hchunks.
  destruct (@read_stream_frames parse assistantId finalContent chunks current
              Hparse Hchunks) as (final & Hfinal & Hdone & Hm).
  exists final. split; [exact Hfinal|]. split; [exact Hdone|].
  split; [exact Hm|]. intros ->. now rewrite Hm, append_delta_empty.
Qed.

Lemma panel_reads_the_answer_of_the_route_witness :
  exists final,
    read_stream read_chunk "a1"
      (List.map (fun b => [b]%list) (List.concat (queue (sse (Str.of_utf8 "olá")))))
      (start_reading [mkChatMessage "u1" ChatUser "oi" None;
                      mkChatMessage "a1" ChatAssistant "" None]%list) = Some final
    /\ rd_done final = true
    /\ rd_messages final
       = append_delta "a1" (Str.of_utf8 "olá")
           [mkChatMessage "u1" ChatUser "oi" None;
            mkChatMessage "a1" ChatAssistant "" None]%list
    /\ (Str.of_utf8 "olá" = "" ->
        rd_messages final
        = [mkChatMessage "u1" ChatUser "oi" None;
           mkChatMessage "a1" ChatAssistant "" None]%list).
Proof.
  apply (@panel_reads_the_answer_of_the_route read_chunk "a1" (Str.of_utf8 "olá")
           (sse (Str.of_utf8 "olá"))).
  - vm_compute. reflexivity.
  - vm_compute. reflexivity.
  - vm_compute. reflexivity.
Defined.

(** ** [handleSubmit] *)

Lemma append_delta_compose (assistantId d1 d2 : string) (current : list ChatMessage) :
  append_delta assistantId d2 (append_delta assistantId d1 current)
  = append_delta assistantId (d1 ++ d2) current.
Proof.
  unfold append_delta. rewrite map_map. apply map_ext. intros m.
  destruct (String.eqb (cm_id m) assistantId) eqn:Hid; cbn [cm_id cm_role cm_content
    cm_imageDataUrl]; rewrite Hid; [now rewrite append_assoc | reflexivity].
Qed.

(** A line only ever appends to the message of the assistant. *)
Lemma on_line_appends (parse : string -> chunk_outcome) (assistantId : string)
    (rawLine : string) (current : list ChatMessage) :
  exists delta,
    fst (on_line parse assistantId rawLine current) = append_delta assistantId delta current.
Proof.
  unfold on_line.
  destruct (_ || _); [exists ""; now rewrite append_delta_empty|].
  destruct (String.eqb _ _); [exists ""; now rewrite append_delta_empty|].
  destruct (parse _) as [| |parsed]; try (exists ""; now rewrite append_delta_empty).
  destruct (Str.is_empty (delta_of parsed)); [exists ""; now rewrite append_delta_empty|].
  now exists (delta_of parsed).
Qed.

Lemma on_lines_appends (parse : string -> chunk_outcome) (assistantId : string)
    (lines : list string) (current : list ChatMessage) :
  exists delta,
    fst (on_lines parse assistantId lines current) = append_delta assistantId delta current.
Proof.
  revert current. induction lines as [|rawLine rest IH]; intros current.
  - exists "". cbn. now rewrite append_delta_empty.
  - cbn [on_lines].
    destruct (on_line_appends parse assistantId rawLine current) as (d1 & H1).
    destruct (on_line parse assistantId rawLine current) as [after [|]]; cbn [fst] in *.
    + now exists d1.
    + destruct (IH after) as (d2 & H2). exists (d1 ++ d2).
      now rewrite H2, H1, append_delta_compose.
Qed.

(** When no read is rejected the loop in full is [read_stream]. *)
Lemma read_body_whole (parse : string -> chunk_outcome) (assistantId : string)
    (chunks : list (list Byte.byte)) (st : Reading) :
  read_body parse assistantId chunks None st
  = option_map ReadEnds (read_stream parse assistantId chunks st).
Proof.
  revert st. induction chunks as [|value rest IH]; intros st; [reflexivity|].
  cbn [read_body read_stream].
  destruct (on_value parse assistantId value st) as [st'|]; [|reflexivity].
  destruct (rd_done st'); [reflexivity | apply IH].
Qed.

(** A loop that ends with a throw was given the rejection. *)
Lemma read_body_throws (parse : string -> chunk_outcome) (assistantId : string)
    (chunks : list (list Byte.byte)) (failure : option js_error) (e : js_error) :
  forall (st final : Reading),
    read_body parse assistantId chunks failure st = Some (ReadThrows e final) ->
    failure = Some e.
Proof.
  induction chunks as [|value rest IH]; intros st final Hread.
  - cbn in Hread. destruct failure; [now injection Hread as -> _ | discriminate].
  - cbn [read_body] in Hread.
    destruct (on_value parse assistantId value st) as [st'|]; [|discriminate].
    destruct (rd_done st'); [discriminate | now apply IH in Hread].
Qed.

(** However the loop ends, it has only appended to the message of the
    assistant. *)
Lemma read_body_appends (parse : string -> chunk_outcome) (assistantId : string)
    (chunks : list (list Byte.byte)) (failure : option js_error) :
  forall (st : Reading) (r : read_result),
    read_body parse assistantId chunks failure st = Some r ->
    exists delta,
      rd_messages (state_of r) = append_delta assistantId delta (rd_messages st).
Proof.
  induction chunks as [|value rest IH]; intros st r Hread.
  - cbn in Hread. exists "". rewrite append_delta_empty.
    destruct failure; injection Hread as <-; reflexivity.
  - cbn [read_body] in Hread. unfold on_value in Hread.
    destruct (decode (rd_pending st) value) as [[text pending]|]; [|discriminate].
    destruct (on_lines_appends parse assistantId
                (removelast (split_lines (rd_buffer st ++ text))) (rd_messages st))
      as (d1 & H1).
    destruct (on_lines parse assistantId _ (rd_messages st)) as [after done].
    cbn [fst rd_done] in *. destruct done.
    + injection Hread as <-. now exists d1.
    + apply IH in Hread as (d2 & H2). cbn [rd_messages] in H2.
      exists (d1 ++ d2). now rewrite H2, H1, append_delta_compose.
Qed.

(** With an id that no other message has, the delta goes to the last
    message alone. *)
Lemma append_delta_fresh (assistantId delta : string) (before : list ChatMessage)
    (m : ChatMessage) :
  Forall (fun other => cm_id other <> assistantId) before ->
  cm_id m = assistantId ->
  append_delta assistantId delta (before ++ [m])%list
  = (before ++ [ {| cm_id := cm_id m; cm_role := cm_role m;
                    cm_content := cm_content m ++ delta;
                    cm_imageDataUrl := cm_imageDataUrl m |} ])%list.
Proof.
  intros Hfresh Hid. unfold append_delta. rewrite map_app. f_equal.
  - induction Hfresh as [|other rest Hother _ IH]; [reflexivity|].
    cbn [List.map]. rewrite IH.
    apply String.eqb_neq in Hother. now rewrite Hother.
  - cbn. apply String.eqb_eq in Hid. now rewrite Hid.
Qed.

Lemma handleSubmit_shown (uuid1 uuid2 answer : string) (s : PanelState) :
  fresh_id uuid1 uuid2 s ->
  append_delta uuid2 answer
    ((messages s ++ [userMessage_of uuid1 s]) ++ [assistant_says uuid2 ""])%list
  = (messages s ++ [userMessage_of uuid1 s; assistant_says uuid2 answer])%list.
Proof.
  intros [Hdiff Hfresh].
  rewrite append_delta_fresh; [now rewrite <- app_assoc | | reflexivity].
  apply Forall_app. split; [exact Hfresh|]. constructor; [exact Hdiff | constructor].
Qed.

(** X15.  A submit is one exchange or nothing.  With a blank input and no
    image, or while a request is under way, [handleSubmit] makes no request
    and leaves the state as it is.  Otherwise it makes exactly one request,
    for the transcript followed by the trimmed input, and whatever the
    network answers (a rejected [fetch], a response that is not ok or has
    no body, a body read to its end or to the sentinel, a body whose
    reading is cut by a rejected read) it ends with [isSending] false, the
    input and the pending image cleared, the history untouched, and the
    transcript longer by two messages: the one of the user and the one of
    the assistant.  When an error is shown the message of the assistant is
    empty, but for one case: the reading of the body was cut, and then
    the deltas read before the cut stay.  (The two ids are those of
    [crypto.randomUUID()], taken to differ from each other and from the ids
    of the transcript.) *)
Theorem handleSubmit_is_one_exchange_or_nothing
    (parse : string -> chunk_outcome) (uuid1 uuid2 : string)
    (fetch : RequestBody -> settled PanelResponse)
    (s s' : PanelState) (requests : list RequestBody) :
  fresh_id uuid1 uuid2 s ->
  handleSubmit parse uuid1 uuid2 fetch s = Some (s', requests) ->
  if submits s then
    requests = [request_body (messages s) (userMessage_of uuid1 s)]%list
    /\ isSending s' = false
    /\ input s' = ""
    /\ pendingImage s' = None
    /\ history s' = history s
    /\ exists answer,
         messages s'
         = (messages s ++ [userMessage_of uuid1 s; assistant_says uuid2 answer])%list
         /\ (error s' <> None ->
             answer = ""
             \/ read_was_cut fetch (request_body (messages s) (userMessage_of uuid1 s)))
         /\ (read_was_cut fetch (request_body (messages s) (userMessage_of uuid1 s)) ->
             error s' = None \/ error s' = Some "Erro ao falar com o modelo local.")
  else s' = s /\ requests = []%list.
Proof.
  intros Hfresh Hrun. unfold handleSubmit, submits in *.
  destruct (Str.is_empty (trim (input s)) && negb (truthy (pendingImage s)));
    [injection Hrun as <- <-; now split|].
  destruct (isSending s); [injection Hrun as <- <-; now split|].
  cbn [negb andb].
  fold (userMessage_of uuid1 s) in Hrun. fold (assistant_says uuid2 "") in Hrun.
  pose proof (@handleSubmit_shown uuid1 uuid2 "" s Hfresh) as Hempty.
  rewrite append_delta_empty in Hempty.
  set (request := request_body (messages s) (userMessage_of uuid1 s)) in *.
  destruct (fetch request) as [response|e] eqn:Hfetch.
  - destruct (pr_ok response) eqn:Hok;
      [destruct (pr_body response) as [chunks|] eqn:Hbody|].
    + destruct (read_body parse uuid2 chunks _ _) as [r|] eqn:Hread; [|discriminate].
      destruct (read_body_appends _ _ _ _ _ Hread) as (delta & Hdelta).
      cbn [start_reading rd_messages messages setMessages setError setIsSending
           setPendingImage setInput] in Hdelta.
      rewrite (@handleSubmit_shown uuid1 uuid2 delta s Hfresh) in Hdelta.
      destruct r as [final|e final]; cbn [state_of] in Hdelta;
        injection Hrun as <- <-; repeat (split; [reflexivity|]);
        exists delta; (split; [exact Hdelta|]); split.
      * intros Herror. now contradiction Herror.
      * intros _. now left.
      * intros _. right. exists response, chunks, e.
        apply read_body_throws in Hread. now repeat split.
      * intros _. now right.
    + injection Hrun as <- <-. repeat (split; [reflexivity|]).
      exists "". split; [exact Hempty|]. split; [intros _; now left|].
      intros (response' & chunks & e & Hf & _ & Hb & _). congruence.
    + injection Hrun as <- <-. repeat (split; [reflexivity|]).
      exists "". split; [exact Hempty|]. split; [intros _; now left|].
      intros (response' & chunks & e & Hf & Ho & _). congruence.
  - injection Hrun as <- <-. repeat (split; [reflexivity|]).
    exists "". split; [exact Hempty|]. split; [intros _; now left|].
    intros (response' & chunks & e' & Hf & _). congruence.
Qed.

Lemma handleSubmit_is_one_exchange_or_nothing_witness :
  if submits panel_typing then
    [request_body (messages panel_typing) (userMessage_of "u1" panel_typing)]%list
    = [request_body (messages panel_typing) (userMessage_of "u1" panel_typing)]%list
    /\ isSending panel_cut = false
    /\ input panel_cut = ""
    /\ pendingImage panel_cut = None
    /\ history panel_cut = history panel_typing
    /\ exists answer,
         messages panel_cut
         = (messages panel_typing
              ++ [userMessage_of "u1" panel_typing; assistant_says "a1" answer])%list
         /\ (error panel_cut <> None ->
             answer = ""
             \/ read_was_cut cut_after_delta
                  (request_body (messages panel_typing) (userMessage_of "u1" panel_typing)))
         /\ (read_was_cut cut_after_delta
               (request_body (messages panel_typing) (userMessage_of "u1" panel_typing)) ->
             error panel_cut = None
             \/ error panel_cut = Some "Erro ao falar com o modelo local.")
  else panel_cut = panel_typing
       /\ [request_body (messages panel_typing) (userMessage_of "u1" panel_typing)]%list
          = []%list.
Proof.
  apply (@handleSubmit_is_one_exchange_or_nothing read_chunk "u1" "a1" cut_after_delta
           panel_typing panel_cut
           [request_body (messages panel_typing) (userMessage_of "u1" panel_typing)]%list).
  - split; [discriminate | repeat constructor; discriminate].
  - vm_compute. reflexivity.
Defined.

(** The submit of the witness: the delta read before the cut stays
    beside the error. *)
Example cut_reading_keeps_the_delta :
  handleSubmit read_chunk "u1" "a1" cut_after_delta panel_typing
  = Some (panel_cut,
          [request_body (messages panel_typing) (userMessage_of "u1" panel_typing)]%list).
Proof. vm_compute. reflexivity. Qed.

(** X16.  The panel shows the answer of the turn.  When the route is what
    answers the request of the panel and its turn ends with an answer,
    [handleSubmit] ends with the transcript followed by the message of the
    user and by a message of the assistant that holds exactly that
    answer, with no error shown and [isSending] false.  The turn is the
    one for the model that the panel names and for the messages of the
    transcript, each as [to_upstream] writes it. *)
Theorem panel_shows_the_answer_of_the_turn
    (w : World) (client : SerperClient) (t t' : trace)
    (parse : string -> chunk_outcome) (uuid1 uuid2 : string)
    (fetch : RequestBody -> settled PanelResponse) (p : PanelResponse)
    (s : PanelState) (answer : string) :
  let request := request_body (messages s) (userMessage_of uuid1 s) in
  submits s = true ->
  fresh_id uuid1 uuid2 s ->
  final_content w client "Ministral-3-8B-Reasoning-2512"
    (List.map to_upstream (messages s ++ [userMessage_of uuid1 s])%list) t
  = (Fulfilled answer, t') ->
  parse (Json.stringify (chunk_json answer)) = ChunkValue (chunk_of answer) ->
  fetch request = Fulfilled p ->
  delivers (fst (POST w client (Fulfilled (Some request)) t)) p ->
  exists s',
    handleSubmit parse uuid1 uuid2 fetch s = Some (s', [request]%list)
    /\ messages s'
       = (messages s ++ [userMessage_of uuid1 s; assistant_says uuid2 answer])%list
    /\ error s' = None
    /\ isSending s' = false.
Proof.
  intros request Hsubmits Hfresh Hturn Hparse Hfetch Hdelivers.
  rewrite POST_eq in Hdelivers.
  unfold model_of, messages_of in Hdelivers. cbn [catch_with opt_chain request
    request_body rb_model rb_messages nullish] in Hdelivers.
  rewrite Hturn in Hdelivers.
  destruct Hdelivers as (Hok & _ & chunks & Hbody & Hwhole & Hchunks).
  cbn in Hok.
  destruct (@read_stream_frames parse uuid2 answer chunks
              ((messages s ++ [userMessage_of uuid1 s]) ++ [assistant_says uuid2 ""])%list
              Hparse Hchunks) as (final & Hfinal & _ & Hmessages).
  unfold submits in Hsubmits. apply andb_prop in Hsubmits as [Hguard Hsending].
  apply negb_true_iff in Hguard, Hsending.
  unfold handleSubmit. rewrite Hguard, Hsending.
  fold (userMessage_of uuid1 s). fold (assistant_says uuid2 ""). fold request.
  rewrite Hfetch, Hok, Hbody, Hwhole, read_body_whole.
  cbn [messages setMessages setError setIsSending setPendingImage setInput].
  rewrite Hfinal. cbn [option_map]. eexists. split; [reflexivity|]. cbn.
  split; [|split; reflexivity].
  rewrite Hmessages. now apply handleSubmit_shown.
Qed.

Lemma panel_shows_the_answer_of_the_turn_witness :
  exists s',
    handleSubmit read_chunk "u1" "a1" (served_by scenario_B Scenario.client) panel_typing
    = Some (s', [request_body (messages panel_typing)
                   (userMessage_of "u1" panel_typing)]%list)
    /\ messages s'
       = (messages panel_typing
            ++ [userMessage_of "u1" panel_typing;
                assistant_says "a1" "Sunny, see https://example.test/1"])%list
    /\ error s' = None
    /\ isSending s' = false.
Proof.
  apply (@panel_shows_the_answer_of_the_turn scenario_B Scenario.client []%list
           (snd (final_content scenario_B Scenario.client "Ministral-3-8B-Reasoning-2512"
                   (List.map to_upstream
                      (messages panel_typing ++ [userMessage_of "u1" panel_typing])%list)
                   []%list))
           read_chunk "u1" "a1" (served_by scenario_B Scenario.client)
           (match served_by scenario_B Scenario.client
                    (request_body (messages panel_typing)
                       (userMessage_of "u1" panel_typing)) with
            | Fulfilled p => p
            | Rejected _ => mkPanelResponse false "" (Fulfilled "") None None
            end)
           panel_typing "Sunny, see https://example.test/1").
  - vm_compute. reflexivity.
  - split; [discriminate | repeat constructor; discriminate].
  - vm_compute. reflexivity.
  - vm_compute. reflexivity.
  - vm_compute. reflexivity.
  - vm_compute. repeat split. eexists. repeat split; reflexivity.
Defined.

(** X17.  The panel shows the failure of the turn as the route words it.
    When the route is what answers the request of the panel and its turn
    fails (the backend or the search gateway failed), [handleSubmit] ends
    with the JSON text of the error body as the error shown, as it came,
    whatever the status text; the message of the assistant stays in the
    transcript, empty, after the message of the user. *)
Theorem panel_shows_the_failure_of_the_turn
    (w : World) (client : SerperClient) (t t' : trace) (e : js_error)
    (parse : string -> chunk_outcome) (uuid1 uuid2 : string)
    (fetch : RequestBody -> settled PanelResponse) (p : PanelResponse)
    (s : PanelState) :
  let request := request_body (messages s) (userMessage_of uuid1 s) in
  submits s = true ->
  final_content w client "Ministral-3-8B-Reasoning-2512"
    (List.map to_upstream (messages s ++ [userMessage_of uuid1 s])%list) t
  = (Rejected e, t') ->
  fetch request = Fulfilled p ->
  delivers (fst (POST w client (Fulfilled (Some request)) t)) p ->
  exists s',
    handleSubmit parse uuid1 uuid2 fetch s = Some (s', [request]%list)
    /\ messages s'
       = (messages s ++ [userMessage_of uuid1 s; assistant_says uuid2 ""])%list
    /\ error s' = Some ERROR_BODY
    /\ isSending s' = false.
Proof.
  intros request Hsubmits Hturn Hfetch Hdelivers.
  rewrite POST_eq in Hdelivers.
  unfold model_of, messages_of in Hdelivers. cbn [catch_with opt_chain request
    request_body rb_model rb_messages nullish] in Hdelivers.
  rewrite Hturn in Hdelivers. destruct Hdelivers as (Hok & Htext).
  cbn in Hok, Htext.
  unfold submits in Hsubmits. apply andb_prop in Hsubmits as [Hguard Hsending].
  apply negb_true_iff in Hguard, Hsending.
  unfold handleSubmit. rewrite Hguard, Hsending.
  fold (userMessage_of uuid1 s). fold (assistant_says uuid2 ""). fold request.
  rewrite Hfetch, Hok, Htext. eexists. split; [reflexivity|]. cbn.
  split; [now rewrite <- app_assoc | split; reflexivity].
Qed.

Lemma panel_shows_the_failure_of_the_turn_witness :
  exists s',
    handleSubmit read_chunk "u1" "a1" (served_by scenario_D Scenario.client) panel_typing
    = Some (s', [request_body (messages panel_typing)
                   (userMessage_of "u1" panel_typing)]%list)
    /\ messages s'
       = (messages panel_typing
            ++ [userMessage_of "u1" panel_typing; assistant_says "a1" ""])%list
    /\ error s' = Some ERROR_BODY
    /\ isSending s' = false.
Proof.
  apply (@panel_shows_the_failure_of_the_turn scenario_D Scenario.client []%list
           (snd (final_content scenario_D Scenario.client "Ministral-3-8B-Reasoning-2512"
                   (List.map to_upstream
                      (messages panel_typing ++ [userMessage_of "u1" panel_typing])%list)
                   []%list))
           (Rejection "The operation was aborted due to timeout")
           read_chunk "u1" "a1" (served_by scenario_D Scenario.client)
           (match served_by scenario_D Scenario.client
                    (request_body (messages panel_typing)
                       (userMessage_of "u1" panel_typing)) with
            | Fulfilled p => p
            | Rejected _ => mkPanelResponse false "" (Fulfilled "") None None
            end)
           panel_typing).
  - vm_compute. reflexivity.
  - vm_compute. reflexivity.
  - vm_compute. reflexivity.
  - vm_compute. split; reflexivity.
Defined.

(** ** The history of chats *)

Lemma handleSubmit_history (parse : string -> chunk_outcome) (uuid1 uuid2 : string)
    (fetch : RequestBody -> settled PanelResponse)
    (s s' : PanelState) (requests : list RequestBody) :
  handleSubmit parse uuid1 uuid2 fetch s = Some (s', requests) ->
  history s' = history s.
Proof.
  unfold handleSubmit. intros Hrun.
  destruct (_ && _); [now injection Hrun as <- _|].
  destruct (isSending s); [now injection Hrun as <- _|].
  destruct (fetch _) as [response|e]; [|now injection Hrun as <- _].
  destruct (if pr_ok response then pr_body response else None) as [chunks|];
    [|now injection Hrun as <- _].
  destruct (read_body _ _ _ _ _) as [[final|e final]|]; [| |discriminate];
    now injection Hrun as <- _.
Qed.

Lemma Forall_firstn {A : Type} (P : A -> Prop) (n : nat) (xs : list A) :
  Forall P xs -> Forall P (firstn n xs).
Proof.
  intros H. revert n. induction H as [|x xs Hx _ IH]; intros [|n]; cbn; auto.
Qed.

Lemma Forall_filter {A : Type} (P : A -> Prop) (f : A -> bool) (xs : list A) :
  Forall P xs -> Forall P (List.filter f xs).
Proof.
  induction 1 as [|x xs Hx _ IH]; cbn; [constructor|].
  destruct (f x); auto.
Qed.

Lemma filter_length_le {A : Type} (f : A -> bool) (xs : list A) :
  (List.length (List.filter f xs) <= List.length xs)%nat.
Proof.
  induction xs as [|x xs IH]; cbn; [lia|]. destruct (f x); cbn; lia.
Qed.

Lemma handle_history_ok (e : Event) (s s' : PanelState) :
  history_ok s -> handle e s = Some s' -> history_ok s'.
Proof.
  intros [Hlen Hfiled] Hstep. destruct e; cbn in Hstep;
    try (injection Hstep as <-; now split).
  - injection Hstep as <-. unfold handleNewChat.
    destruct (0 <? List.length (messages s))%nat eqn:Hany; [|now split].
    unfold history_ok.
    cbn [history setIsFlashing setError setPendingImage setInput setMessages setHistory].
    rewrite list_slice0_firstn by lia. split.
    + rewrite length_firstn. lia.
    + apply Forall_firstn. constructor; [|exact Hfiled].
      split; [|reflexivity]. cbn. apply Nat.ltb_lt in Hany.
      intros Hnone. rewrite Hnone in Hany. cbn in Hany. lia.
  - injection Hstep as <-. unfold history_ok, delete. cbn [history setHistory]. split.
    + pose proof (filter_length_le
                    (fun item => negb (String.eqb (ct_id item) (ct_id session)))
                    (history s)). lia.
    + now apply Forall_filter.
  - injection Hstep as <-. destruct file as [[result|]|]; now split.
  - destruct (handleSubmit _ _ _ _ s) as [[after requests]|] eqn:Hrun; [|discriminate].
    injection Hstep as <-. apply handleSubmit_history in Hrun.
    unfold history_ok. rewrite Hrun. now split.
Qed.

(** X18.  The history of chats stays as [handleNewChat] files it.  From a
    state whose history has at most twenty chats, each with messages and
    with the time of its filing as its id, no sequence of events of the
    panel leads to a state whose history has more than twenty chats, a
    chat without messages, or a chat with another id. *)
Theorem history_stays_well_formed (events : list Event) (s s' : PanelState) :
  history_ok s -> run events s = Some s' -> history_ok s'.
Proof.
  revert s. induction events as [|e rest IH]; intros s Hok Hrun.
  - now injection Hrun as <-.
  - cbn [run] in Hrun. destruct (handle e s) as [after|] eqn:Hstep; [|discriminate].
    apply (IH after); [|exact Hrun]. now apply (@handle_history_ok e s).
Qed.

Lemma history_stays_well_formed_witness : history_ok panel_after_session.
Proof.
  apply (@history_stays_well_formed a_session panel_typing panel_after_session).
  - split; [cbn; lia | constructor].
  - vm_compute. reflexivity.
Defined.

(** X19.  A new chat files the transcript, and a click on it brings it
    back.  With messages on screen, [handleNewChat] empties the screen and
    puts a chat first in the history that holds those messages under the
    time of the click, before the first nineteen chats that were there;
    [restore] on that chat shows the same messages again and leaves the
    history as it is. *)
Theorem new_chat_files_what_restore_brings_back (createdAt : string) (s : PanelState) :
  messages s <> []%list ->
  let s1 := handleNewChat createdAt s in
  messages s1 = []%list
  /\ history s1
     = ({| ct_id := createdAt; ct_createdAt := createdAt; ct_messages := messages s |}
          :: firstn 19 (history s))%list
  /\ forall session,
       hd_error (history s1) = Some session ->
       messages (restore session s1) = messages s
       /\ history (restore session s1) = history s1.
Proof.
  intros Hany s1. subst s1. unfold handleNewChat.
  assert (Hlen : (0 <? List.length (messages s))%nat = true).
  { apply Nat.ltb_lt. destruct (messages s); [contradiction | cbn; lia]. }
  rewrite Hlen.
  cbn [messages history setIsFlashing setError setPendingImage setInput setMessages
       setHistory restore].
  rewrite list_slice0_firstn by lia.
  change (Z.to_nat 20) with 20%nat. rewrite firstn_cons.
  split; [reflexivity|]. split; [reflexivity|].
  intros session [= <-]. now split.
Qed.

Lemma new_chat_files_what_restore_brings_back_witness :
  let s1 := handleNewChat "2026-01-01T10:00:00.000Z" panel_typing in
  messages s1 = []%list
  /\ history s1
     = ({| ct_id := "2026-01-01T10:00:00.000Z";
           ct_createdAt := "2026-01-01T10:00:00.000Z";
           ct_messages := messages panel_typing |}
          :: firstn 19 (history panel_typing))%list
  /\ forall session,
       hd_error (history s1) = Some session ->
       messages (restore session s1) = messages panel_typing
       /\ history (restore session s1) = history s1.
Proof.
  apply (@new_chat_files_what_restore_brings_back "2026-01-01T10:00:00.000Z" panel_typing).
  discriminate.
Defined.

(** ** The request of the panel, as the backend sees it *)

Lemma to_upstream_from_panel (m : ChatMessage) : from_panel (to_upstream m).
Proof.
  unfold from_panel, to_upstream.
  destruct (cm_role m); [|split; [discriminate | exact I]].
  destruct (truthy (cm_imageDataUrl m)); [|split; [discriminate | exact I]].
  cbn. split; [discriminate|]. split; [reflexivity|].
  exists (cm_imageDataUrl m ?? "").
  destruct (cm_content m) as [|c rest]; cbn; [now left|].
  right. eexists. split; [|reflexivity]. discriminate.
Qed.

(** X20.  What the backend sees of a turn of the panel.  Every chat call
    of the route for a request of the panel names the model of the panel
    and starts with a system message, the only one of the call: the
    route adds one instruction in front in each phase, and the panel
    sends messages of the user and of the assistant only, an image as
    the last of one or two parts of a message of the user and never with
    an empty text part. *)
Theorem panel_turn_has_one_system_message
    (w : World) (client : SerperClient) (uuid1 : string) (s : PanelState)
    (p : ChatPayload) :
  In (ChatCall p)
     (snd (POST w client
             (Fulfilled (Some (request_body (messages s) (userMessage_of uuid1 s))))
             []%list)) ->
  p_model p = "Ministral-3-8B-Reasoning-2512"
  /\ exists instruction rest,
       p_messages p = (Plain instruction :: rest)%list
       /\ role instruction = system
       /\ Forall panel_or_tool rest.
Proof.
  set (request_json := Fulfilled (Some (request_body (messages s) (userMessage_of uuid1 s)))).
  intros Hin.
  assert (Hpanel : Forall panel_or_tool (List.map Plain (messages_of request_json))).
  { apply Forall_forall. intros m Hm. apply in_map_iff in Hm as (u & <- & Hu).
    cbn in Hu. apply in_map_iff in Hu as (cm & <- & _).
    apply to_upstream_from_panel. }
  destruct (POST_calls_shape w client request_json)
    as (searches & rest & Hcalls & Hsearches & Hrest).
  rewrite Hcalls in Hin. destruct Hin as [Hfirst | Hin].
  - injection Hfirst as <-. split; [reflexivity|].
    exists SYSTEM_MESSAGE. eexists. split; [reflexivity|]. split; [reflexivity|].
    exact Hpanel.
  - apply in_app_or in Hin as [Hin | Hin].
    + apply Hsearches in Hin. discriminate.
    + destruct Hrest as [-> | (toolMessages & _ & ->)]; [contradiction|].
      destruct Hin as [Hsecond | []]. injection Hsecond as <-.
      split; [reflexivity|].
      exists SECOND_SYSTEM_MESSAGE. eexists. split; [reflexivity|].
      split; [reflexivity|].
      apply Forall_app. split; [exact Hpanel|].
      apply Forall_forall. intros m Hm. apply in_map_iff in Hm as (tm & <- & _).
      exact I.
Qed.

Lemma panel_turn_has_one_system_message_witness :
  p_model (firstPayload "Ministral-3-8B-Reasoning-2512"
             (List.map to_upstream
                (messages panel_typing ++ [userMessage_of "u1" panel_typing])%list))
  = "Ministral-3-8B-Reasoning-2512"
  /\ exists instruction rest,
       p_messages (firstPayload "Ministral-3-8B-Reasoning-2512"
                     (List.map to_upstream
                        (messages panel_typing ++ [userMessage_of "u1" panel_typing])%list))
       = (Plain instruction :: rest)%list
       /\ role instruction = system
       /\ Forall panel_or_tool rest.
Proof.
  apply (@panel_turn_has_one_system_message scenario_B Scenario.client "u1" panel_typing).
  vm_compute. left. reflexivity.
Defined.

(** ** The forwarding route *)

Lemma SimpleRoute_POST_eq (backend : SimpleRoute.Payload -> settled SimpleRoute.UpstreamResponse)
    (request_json : settled (option RequestBody)) (sent : list SimpleRoute.Payload) :
  SimpleRoute.POST backend request_json sent
  = (Fulfilled
       match backend (forwarded_payload request_json) with
       | Rejected _ => error_response
       | Fulfilled up =>
           match SimpleRoute.up_text up with
           | Rejected _ => error_response
           | Fulfilled text =>
               if forwardable (SimpleRoute.up_status up) then handed_back up text
               else error_response
           end
       end,
     (sent ++ [forwarded_payload request_json])%list).
Proof.
  unfold SimpleRoute.POST, try_catch, bind, await, ret, throw.
  fold (messages_of request_json).
  change (opt_chain (catch_with request_json None) rb_model ?? "Ministral-3-8B-Reasoning-2512")
    with (model_of request_json).
  fold (forwarded_payload request_json).
  destruct (backend (forwarded_payload request_json)) as [up|e]; [|reflexivity].
  destruct (SimpleRoute.up_text up) as [text|e]; [|reflexivity].
  unfold SimpleRoute.new_Response, forwardable, handed_back.
  destruct (SimpleRoute.up_status up <? 200)%N eqn:Hlow.
  - apply N.ltb_lt in Hlow.
    replace (200 <=? SimpleRoute.up_status up)%N with false
      by (symmetry; apply N.leb_gt; lia).
    reflexivity.
  - apply N.ltb_ge in Hlow. apply N.leb_le in Hlow. rewrite Hlow.
    destruct (599 <? SimpleRoute.up_status up)%N eqn:Hhigh.
    + apply N.ltb_lt in Hhigh.
      replace (SimpleRoute.up_status up <=? 599)%N with false
        by (symmetry; apply N.leb_gt; lia).
      reflexivity.
    + apply N.ltb_ge in Hhigh. apply N.leb_le in Hhigh. rewrite Hhigh.
      cbn [orb andb]. destruct (SimpleRoute.null_body_status _); reflexivity.
Qed.

(** X21.  The forwarding route always answers, after exactly one call to
    the backend, for the system message followed by the messages of the
    request: its response has a status from 200 to 599 that admits a
    body, one [Content-Type] header, and a text that is never empty. *)
Theorem forwarding_route_always_answers
    (backend : SimpleRoute.Payload -> settled SimpleRoute.UpstreamResponse)
    (request_json : settled (option RequestBody)) (sent : list SimpleRoute.Payload) :
  exists response text contentType,
    SimpleRoute.POST backend request_json sent
    = (Fulfilled response, (sent ++ [forwarded_payload request_json])%list)
    /\ forwardable (status response) = true
    /\ headers response = [("Content-Type", contentType)]%list
    /\ body response = TextBody text
    /\ text <> "".
Proof.
  rewrite SimpleRoute_POST_eq.
  assert (Herror : exists text contentType,
             forwardable (status error_response) = true
             /\ headers error_response = [("Content-Type", contentType)]%list
             /\ body error_response = TextBody text /\ text <> "").
  { eexists. eexists. repeat split. discriminate. }
  destruct (backend _) as [up|e];
    [|destruct Herror as (text & ct & H); exists error_response, text, ct; now split].
  destruct (SimpleRoute.up_text up) as [text|e];
    [|destruct Herror as (text & ct & H); exists error_response, text, ct; now split].
  destruct (forwardable (SimpleRoute.up_status up)) eqn:Hstatus;
    [|destruct Herror as (text' & ct & H); exists error_response, text', ct; now split].
  eexists. eexists. eexists. split; [reflexivity|].
  cbn [handed_back status headers body]. repeat split; [exact Hstatus|].
  destruct text; discriminate.
Qed.

(** X22.  The forwarding route hands an answer of the backend back with
    its status, with its text (the text of an empty object for an empty
    text) and with its content type (JSON when it has none).  So an error
    status of the backend, 400 to 599, reaches the client with the text of
    the backend and not with the error body of the route.  An answer whose
    status admits no body (204, 205, 304) cannot be handed back: the route
    then answers 500 with its own error body, although the backend did not
    fail. *)
Theorem forwarding_route_hands_back_or_fails
    (backend : SimpleRoute.Payload -> settled SimpleRoute.UpstreamResponse)
    (request_json : settled (option RequestBody)) (sent : list SimpleRoute.Payload)
    (up : SimpleRoute.UpstreamResponse) (text : string) :
  backend (forwarded_payload request_json) = Fulfilled up ->
  SimpleRoute.up_text up = Fulfilled text ->
  let response := fst (SimpleRoute.POST backend request_json sent) in
  response = Fulfilled (if forwardable (SimpleRoute.up_status up) then handed_back up text
                        else error_response)
  /\ ((400 <= SimpleRoute.up_status up <= 599)%N -> response = Fulfilled (handed_back up text))
  /\ (List.existsb (N.eqb (SimpleRoute.up_status up)) [204; 205; 304]%N = true ->
      response = Fulfilled error_response).
Proof.
  intros Hbackend Htext response. subst response.
  rewrite SimpleRoute_POST_eq, Hbackend, Htext. cbn [fst].
  split; [reflexivity|]. split.
  - intros [Hlow Hhigh].
    replace (forwardable (SimpleRoute.up_status up)) with true; [reflexivity|].
    symmetry. unfold forwardable, SimpleRoute.null_body_status.
    repeat (apply andb_true_intro; split); try (apply N.leb_le; lia).
    apply negb_true_iff. repeat (apply orb_false_intro); apply N.eqb_neq; lia.
  - intros Hnull.
    replace (forwardable (SimpleRoute.up_status up)) with false; [reflexivity|].
    symmetry. unfold forwardable, SimpleRoute.null_body_status.
    cbn [List.existsb] in Hnull. rewrite orb_false_r in Hnull.
    apply orb_prop in Hnull as [H|Hnull]; [|apply orb_prop in Hnull as [H|H]];
      apply N.eqb_eq in H; rewrite H; reflexivity.
Qed.

Lemma forwarding_route_hands_back_or_fails_witness :
  let response := fst (SimpleRoute.POST backend_no_content request_A []%list) in
  response
  = Fulfilled (if forwardable 204 then
                 handed_back {| SimpleRoute.up_status := 204;
                                SimpleRoute.up_text := Fulfilled "";
                                SimpleRoute.up_content_type := None |} ""
               else error_response)
  /\ ((400 <= 204 <= 599)%N ->
      response
      = Fulfilled (handed_back {| SimpleRoute.up_status := 204;
                                  SimpleRoute.up_text := Fulfilled "";
                                  SimpleRoute.up_content_type := None |} ""))
  /\ (List.existsb (N.eqb 204) [204; 205; 304]%N = true ->
      response = Fulfilled error_response).
Proof.
  apply (@forwarding_route_hands_back_or_fails backend_no_content request_A []%list
           {| SimpleRoute.up_status := 204;
              SimpleRoute.up_text := Fulfilled "";
              SimpleRoute.up_content_type := None |} "").
  - reflexivity.
  - reflexivity.
Defined.

(** ** The panel that reads a JSON answer *)

Lemma or_else_nonempty (a b : string) : b <> "" -> or_else a b <> "".
Proof. intros Hb. unfold or_else. destruct a; [exact Hb | discriminate]. Qed.

(** X23.  The panel that reads a JSON answer never shows nothing.  A
    submit that the state lets through makes one request and ends with
    [isSending] false and with the message of the user after the
    transcript; then either an error is shown, which is never the empty
    string, and nothing else is added, or no error is shown and one
    message of the assistant follows, whose content is never empty (the
    trimmed content of the first choice, or a fixed sentence in its
    place).  A submit that the state does not let through changes
    nothing. *)
Theorem json_panel_never_shows_nothing
    (parse : string -> JsonPanel.completion_outcome) (uuid1 uuid2 : string)
    (fetch : RequestBody -> settled JsonPanel.JsonResponse) (s : JsonPanel.State) :
  let user := json_userMessage_of uuid1 s in
  let '(s', requests) := JsonPanel.handleSubmit parse uuid1 uuid2 fetch s in
  if json_submits s then
    requests = [request_body (JsonPanel.messages s) user]%list
    /\ JsonPanel.isSending s' = false
    /\ JsonPanel.input s' = ""
    /\ JsonPanel.pendingImage s' = None
    /\ ((exists shown,
           JsonPanel.error s' = Some shown /\ shown <> ""
           /\ JsonPanel.messages s' = (JsonPanel.messages s ++ [user])%list)
        \/ (exists answer,
              JsonPanel.error s' = None /\ answer <> ""
              /\ JsonPanel.messages s'
                 = (JsonPanel.messages s
                      ++ [user; {| cm_id := uuid2; cm_role := ChatAssistant;
                                   cm_content := answer; cm_imageDataUrl := None |}])%list))
  else s' = s /\ requests = []%list.
Proof.
  intros user. unfold JsonPanel.handleSubmit, json_submits.
  destruct (Str.is_empty (trim (JsonPanel.input s))
            && negb (truthy (JsonPanel.pendingImage s))); [now split|].
  destruct (JsonPanel.isSending s); [now split|].
  cbn [negb andb]. fold (json_userMessage_of uuid1 s). fold user.
  destruct (fetch _) as [response|e].
  - destruct (JsonPanel.jr_text response) as [text|e].
    + destruct (JsonPanel.jr_ok response); cbn [negb].
      * repeat (split; [reflexivity|]). right.
        exists (JsonPanel.content_of (JsonPanel.data_of parse text)).
        split; [reflexivity|]. split.
        -- unfold JsonPanel.content_of. apply or_else_nonempty. discriminate.
        -- cbn. now rewrite <- app_assoc.
      * repeat (split; [reflexivity|]). left.
        eexists. split; [reflexivity|]. split; [|reflexivity].
        apply or_else_nonempty. discriminate.
    + repeat (split; [reflexivity|]). left.
      eexists. split; [reflexivity|]. split; [discriminate | reflexivity].
  - repeat (split; [reflexivity|]). left.
    eexists. split; [reflexivity|]. split; [discriminate | reflexivity].
Qed.

(** X24.  The panel that reads a JSON answer words the failure of the
    forwarding route.  When the route answers the request of the panel
    with its error response (the backend could not be reached, or its
    answer could not be handed back), the error shown is the sentence of
    the [error] field of the body, not the JSON text of the body and not
    the status text, and no message of the assistant is added. *)
Theorem json_panel_words_the_failure_of_the_route
    (backend : SimpleRoute.Payload -> settled SimpleRoute.UpstreamResponse)
    (sent : list SimpleRoute.Payload)
    (parse : string -> JsonPanel.completion_outcome) (uuid1 uuid2 : string)
    (fetch : RequestBody -> settled JsonPanel.JsonResponse) (p : JsonPanel.JsonResponse)
    (s : JsonPanel.State) :
  let user := json_userMessage_of uuid1 s in
  let request := request_body (JsonPanel.messages s) user in
  let response := fst (SimpleRoute.POST backend (Fulfilled (Some request)) sent) in
  json_submits s = true ->
  response = Fulfilled error_response ->
  parse ERROR_BODY = JsonPanel.CompletionValue error_data ->
  fetch request = Fulfilled p ->
  json_delivers response p ->
  let s' := fst (JsonPanel.handleSubmit parse uuid1 uuid2 fetch s) in
  JsonPanel.error s' = Some "Failed to call local chat backend"
  /\ JsonPanel.messages s' = (JsonPanel.messages s ++ [user])%list
  /\ JsonPanel.isSending s' = false.
Proof.
  intros user request response Hsubmits Hresponse Hparse Hfetch Hdelivers s'.
  rewrite Hresponse in Hdelivers. destruct Hdelivers as (Hok & Htext).
  cbn in Hok, Htext. change (Json.stringify _) with ERROR_BODY in Htext.
  unfold json_submits in Hsubmits. apply andb_prop in Hsubmits as [Hguard Hsending].
  apply negb_true_iff in Hguard, Hsending.
  subst s'. unfold JsonPanel.handleSubmit. rewrite Hguard, Hsending.
  fold (json_userMessage_of uuid1 s). fold user. fold request.
  rewrite Hfetch, Htext, Hok. cbn [negb fst].
  unfold JsonPanel.data_of.
  change (String "{" _) with ERROR_BODY. rewrite Hparse. cbn. repeat split.
Qed.

Lemma json_panel_words_the_failure_of_the_route_witness :
  let user := json_userMessage_of "u1" json_panel_typing in
  let s' := fst (JsonPanel.handleSubmit read_completion "u1" "a1"
                   (forwarded_by backend_no_content) json_panel_typing) in
  JsonPanel.error s' = Some "Failed to call local chat backend"
  /\ JsonPanel.messages s' = (JsonPanel.messages json_panel_typing ++ [user])%list
  /\ JsonPanel.isSending s' = false.
Proof.
  apply (@json_panel_words_the_failure_of_the_route backend_no_content []%list
           read_completion "u1" "a1" (forwarded_by backend_no_content)
           {| JsonPanel.jr_ok := false; JsonPanel.jr_statusText := "";
              JsonPanel.jr_text := Fulfilled ERROR_BODY |}
           json_panel_typing).
  - vm_compute. reflexivity.
  - vm_compute. reflexivity.
  - vm_compute. reflexivity.
  - vm_compute. reflexivity.
  - vm_compute. split; reflexivity.
Defined.

(** ** More on the reading loop *)

Lemma feed_after_whole_lines (parse : string -> chunk_outcome) (assistantId : string)
    (text : string) :
  forall (line : string) (current : list ChatMessage) (buffer : string)
         (after : list ChatMessage),
    feed parse assistantId line (text ++ Str.LF) current = (buffer, after, false) ->
    buffer = "".
Proof.
  induction text as [|c text IH]; intros line current buffer after Hfeed.
  - cbn in Hfeed. destruct (on_line parse assistantId line current) as [a [|]];
      [discriminate|]. now injection Hfeed as <- _.
  - cbn [append feed] in Hfeed. destruct (Ascii.eqb c "010"%char).
    + destruct (on_line parse assistantId line current) as [a [|]]; [discriminate|].
      now apply IH in Hfeed.
    + now apply IH in Hfeed.
Qed.

Lemma feed_sentinel (parse : string -> chunk_outcome) (assistantId : string)
    (rest : string) (current : list ChatMessage) :
  outcome (feed parse assistantId "" ("data: [DONE]" ++ Str.LF ++ rest) current)
  = (current, true).
Proof. reflexivity. Qed.

Lemma decode_one_chunk (s : string) :
  decode None (List.concat [encode s]) = Some (s, None).
Proof. cbn [List.concat]. rewrite app_nil_r. apply decode_encode. Qed.

(** X25.  The sentinel ends the reading.  When the text of the body has
    the line of the sentinel after whole lines, nothing that follows the
    sentinel is shown, in whatever chunk it arrives: the messages are
    those that the lines before the sentinel leave. *)
Theorem sentinel_ends_the_reading
    (parse : string -> chunk_outcome) (assistantId : string)
    (chunks : list (list Byte.byte)) (current : list ChatMessage)
    (before rest : string) (pending : option N) :
  (before = "" \/ exists b, before = b ++ Str.LF) ->
  decode None (List.concat chunks)
  = Some (before ++ "data: [DONE]" ++ Str.LF ++ rest, pending) ->
  exists final final0,
    read_stream parse assistantId chunks (start_reading current) = Some final
    /\ read_stream parse assistantId [encode before]%list (start_reading current)
       = Some final0
    /\ rd_messages final = rd_messages final0.
Proof.
  intros Hwhole Hdecode.
  destruct (@read_stream_feed parse assistantId chunks (start_reading current)
              _ pending eq_refl Hdecode) as (final & Hfinal & _ & Hm).
  destruct (@read_stream_feed parse assistantId [encode before]%list
              (start_reading current) before None eq_refl (decode_one_chunk before))
    as (final0 & Hfinal0 & _ & Hm0).
  exists final, final0. split; [exact Hfinal|]. split; [exact Hfinal0|].
  rewrite Hm, Hm0. cbn [start_reading rd_buffer rd_messages].
  rewrite feed_app.
  destruct (feed parse assistantId "" before current) as [[line after] done] eqn:Hfeed.
  destruct done; [reflexivity|].
  assert (Hline : line = "").
  { destruct Hwhole as [-> | (b & ->)].
    - cbn in Hfeed. now injection Hfeed as <- _.
    - now apply feed_after_whole_lines in Hfeed. }
  subst line. now rewrite feed_sentinel.
Qed.

Lemma sentinel_ends_the_reading_witness :
  exists final final0,
    read_stream read_chunk "a1"
      [encode (data_frame "Paris." ++ "data: "); encode ("[DONE]" ++ Str.LF ++ Str.LF);
       encode (data_frame " Or Lyon?")]%list
      (start_reading [mkChatMessage "a1" ChatAssistant "" None]%list) = Some final
    /\ read_stream read_chunk "a1" [encode (data_frame "Paris.")]%list
         (start_reading [mkChatMessage "a1" ChatAssistant "" None]%list) = Some final0
    /\ rd_messages final = rd_messages final0.
Proof.
  apply (@sentinel_ends_the_reading read_chunk "a1"
           [encode (data_frame "Paris." ++ "data: "); encode ("[DONE]" ++ Str.LF ++ Str.LF);
            encode (data_frame " Or Lyon?")]%list
           [mkChatMessage "a1" ChatAssistant "" None]%list
           (data_frame "Paris.") (Str.LF ++ data_frame " Or Lyon?") None).
  - right. exists ("data: " ++ Json.stringify (chunk_json "Paris.") ++ Str.LF).
    vm_compute. reflexivity.
  - vm_compute. reflexivity.
Defined.

Lemma feed_data_frame (parse : string -> chunk_outcome) (assistantId : string)
    (text rest : string) (current : list ChatMessage) :
  parse (Json.stringify (chunk_json text)) = ChunkValue (chunk_of text) ->
  feed parse assistantId "" (data_frame text ++ rest) current
  = feed parse assistantId "" rest (append_delta assistantId text current).
Proof.
  intros Hparse. unfold data_frame.
  destruct (stringify_chunk_json text) as (inner & Htext & Hinner).
  replace (("data: " ++ Json.stringify (chunk_json text) ++ Str.LF ++ Str.LF) ++ rest)
    with (("data: " ++ Json.stringify (chunk_json text)) ++ (Str.LF ++ Str.LF ++ rest))
    by now rewrite !append_assoc.
  rewrite feed_line.
  - cbn [append Str.LF feed Ascii.eqb Bool.eqb].
    pose proof (@on_line_data parse assistantId text current Hparse) as Hline.
    cbn [append] in Hline. rewrite Hline.
    destruct (Str.is_empty text) eqn:Hempty.
    + destruct text; [|discriminate]. now rewrite append_delta_empty.
    + reflexivity.
  - rewrite Htext. cbn. rewrite has_LF_app, Hinner. reflexivity.
Qed.

Lemma feed_frames (parse : string -> chunk_outcome) (assistantId : string)
    (texts : list string) (ending : string) :
  Forall (fun text => parse (Json.stringify (chunk_json text)) = ChunkValue (chunk_of text))
    texts ->
  forall current,
    feed parse assistantId "" (frames_text texts ++ ending) current
    = feed parse assistantId "" ending
        (append_delta assistantId (fold_right append "" texts) current).
Proof.
  induction 1 as [|text texts Hparse _ IH]; intros current.
  - cbn. now rewrite append_delta_empty.
  - unfold frames_text. cbn [List.map fold_right]. fold (frames_text texts).
    rewrite append_assoc, (@feed_data_frame parse assistantId text _ current Hparse), IH.
    now rewrite append_delta_compose.
Qed.

(** X26.  The deltas of a streamed answer are shown in order.  For a body
    that is one data frame for each delta, as the route writes its one
    frame, followed by the sentinel frame or by nothing, and cut into
    chunks in any way, the reading loop ends with the deltas appended one
    after the other to the message of the assistant; a frame with an
    empty delta adds nothing. *)
Theorem deltas_are_appended_in_order
    (parse : string -> chunk_outcome) (assistantId : string)
    (texts : list string) (sentinel : bool)
    (chunks : list (list Byte.byte)) (current : list ChatMessage) :
  Forall (fun text => parse (Json.stringify (chunk_json text)) = ChunkValue (chunk_of text))
    texts ->
  List.concat chunks
  = encode (frames_text texts ++ (if sentinel then DONE_FRAME else "")) ->
  exists final,
    read_stream parse assistantId chunks (start_reading current) = Some final
    /\ rd_done final = true
    /\ rd_messages final
       = append_delta assistantId (fold_right append "" texts) current.
Proof.
  intros Hparse Hchunks.
  destruct (@read_stream_feed parse assistantId chunks (start_reading current)
              (frames_text texts ++ (if sentinel then DONE_FRAME else "")) None eq_refl)
    as (final & Hfinal & Hdone & Hm).
  - cbn [start_reading rd_pending]. rewrite Hchunks. apply decode_encode.
  - exists final. split; [exact Hfinal|]. split; [exact Hdone|].
    cbn [start_reading rd_buffer rd_messages] in Hm.
    rewrite (@feed_frames parse assistantId texts _ Hparse) in Hm.
    rewrite Hm. now destruct sentinel.
Qed.

Lemma deltas_are_appended_in_order_witness :
  exists final,
    read_stream read_chunk "a1"
      [encode (data_frame "Par"); encode (data_frame "" ++ data_frame "is.");
       encode DONE_FRAME]%list
      (start_reading [mkChatMessage "u1" ChatUser "capital?" None;
                      mkChatMessage "a1" ChatAssistant "" None]%list) = Some final
    /\ rd_done final = true
    /\ rd_messages final
       = append_delta "a1" (fold_right append "" ["Par"; ""; "is."]%list)
           [mkChatMessage "u1" ChatUser "capital?" None;
            mkChatMessage "a1" ChatAssistant "" None]%list.
Proof.
  apply (@deltas_are_appended_in_order read_chunk "a1" ["Par"; ""; "is."]%list true).
  - repeat constructor.
  - vm_compute. reflexivity.
Defined.
